(** * SynergySphere backend: models, middleware and routes

    A shallow embedding of the Express/Mongoose backend of SynergySphere:
    the Mongoose models with their lifecycle hooks and instance methods, the
    authentication middleware, the error handler, the task and message
    routers, and the route table of the server.

    Source files (line numbers in the comments refer to them):
    - [models/Project.js], [models/Task.js], [models/Message.js]:
      src/backend/model/;
    - [models/Notification.js]: src/unnamed/part_002;
    - [middleware/errorHandler.js]: src/backend/middleware/;
    - [middleware/auth.js]: src/unnamed/part_006;
    - [routes/auth.js], [routes/notification.js], [routes/projects.js]:
      src/backend/routes/ (notification.js ends inside its
      PUT /:id/unread route);
    - [routes/tasks.js]: src/unnamed/part_003;
    - [routes/messages.js]: src/unnamed/part_005;
    - [routes/users.js]: src/unnamed/part_004;
    - [server.js]: the second half of
      src/frontend/src/components/ui/Navbar.tsx;
    - [lib/api.ts], the client of the frontend: src/frontend/src/lib/.

    Conventions.
    - An [ObjectId] is the 96-bit value it denotes; the source compares ids
      through [toString()], which is equality of those values. An id that
      a request carries as a string is taken in the spelling [toString()]
      gives, with lower-case digits. Where the source compares such a
      string as it came (the assignee of PUT /api/tasks/:id, the mentions
      of POST /api/tasks/:id/comments), another spelling of the same id
      would count as a different string.
    - A [Date] is its millisecond timestamp; [new Date()] reads the clock
      that every operation receives as [now].
    - A JavaScript Number is an IEEE 754 binary64 value ([spec_float] with
      precision 53 and maximal exponent 1024); [/] and [*] are the correctly
      rounded operations of the standard library's specification. Counters
      that only ever hold small integers ([count] of a reaction,
      [statistics.totalMessages]) are integers.
    - The database is a [Store] value passed explicitly; asynchronous model
      and route code lives in the state-and-exception monad [M]. Every write
      issued to the database is also appended to [oplog], in order.
    - A string is the sequence of its UTF-16 code units, all of them below
      256; [length] counts them, and [trim] strips the white space and line
      terminators among them.
    - Documents are typed records, so casts and enumerations have nothing
      to reject, and a document that was loaded passed validation when it
      was stored. Where a model method assigns a string it is given to a
      path with validators ([content] and [reactions.emoji] of a message,
      [subtasks.title] of a task), the assignment applies [trim: true] and
      the save that follows runs the validators of the assigned path: it
      rejects with a [ValidationError] and writes nothing when one fails.
      A request body is one that passed the route's express-validator
      chain, which trims and bounds the strings the handler passes on.
      Reads and writes of the database do not fail. *)

From Stdlib Require Import ZArith NArith List String Ascii Bool Lia.
From Stdlib Require Import DecimalString.
From Stdlib Require Import Floats.SpecFloat.
From Stdlib Require Import Sorting.Sorted.
Import ListNotations.
Local Open Scope Z_scope.
Local Open Scope string_scope.

(* ================================================================== *)
(** * Part I: definitions *)
(* ================================================================== *)

(** ** JavaScript numbers *)

Module JsNumber.

Definition prec : Z := 53.
Definition emax : Z := 1024.

Definition Number : Type := spec_float.

(** The Number denoting an integer (rounded to nearest-even when the integer
    needs more than 53 bits). *)
Definition ofZ (z : Z) : Number := binary_normalize prec emax z 0 false.

Definition ofNat (n : nat) : Number := ofZ (Z.of_nat n).

(** [x / y] and [x * y]. *)
Definition div (x y : Number) : Number := SFdiv prec emax x y.
Definition mul (x y : Number) : Number := SFmul prec emax x y.

(** [x > y]. *)
Definition gt (x y : Number) : bool := SFltb y x.

(** [Math.round(x)]: the integer nearest to [x], ties towards +infinity;
    NaN, the infinities and the zeros are returned as they are, and a result
    of zero keeps the sign of [x]. The value of a finite [x] is
    [(+/-m) * 2^e], so [floor (x + 1/2)] is computed exactly on integers. *)
Definition Math_round (x : Number) : Number :=
  match x with
  | S754_finite s m e =>
      let v := if s then Z.neg m else Z.pos m in
      let r := match e with
               | Z.neg k => (2 * v + 2 ^ Z.pos k) / 2 ^ (Z.pos k + 1)
               | _ => v * 2 ^ e
               end in
      if (r =? 0)%Z then S754_zero s else ofZ r
  | _ => x
  end.

End JsNumber.

(** ** JavaScript strings *)

Module JsString.

(** The code units below 256 that [String.prototype.trim] strips: TAB, LF,
    VT, FF, CR, SPACE and NO-BREAK SPACE. *)
Definition isWhiteSpace (c : ascii) : bool :=
  let n := N_of_ascii c in
  ((9 <=? n) && (n <=? 13) || (n =? 32) || (n =? 160))%N.

(** [s.trimStart()] *)
Fixpoint trimStart (s : string) : string :=
  match s with
  | EmptyString => EmptyString
  | String c rest => if isWhiteSpace c then trimStart rest else s
  end.

(** [s.trimEnd()] *)
Fixpoint trimEnd (s : string) : string :=
  match s with
  | EmptyString => EmptyString
  | String c rest =>
      match trimEnd rest with
      | EmptyString =>
          if isWhiteSpace c then EmptyString else String c EmptyString
      | rest' => String c rest'
      end
  end.

(** [s.trim()], what a schema path with [trim: true] stores of the string
    assigned to it. *)
Definition trim (s : string) : string := trimEnd (trimStart s).

(** [s.length] *)
Definition length (s : string) : N := N.of_nat (String.length s).

(** [String(n)] for an array index. *)
Definition ofIndex (n : nat) : string :=
  NilEmpty.string_of_uint (Nat.to_uint n).

End JsString.

(** ** Identifiers, dates and collections *)

Module Mongo.

Definition ObjectId : Type := N.
Definition Date : Type := Z.
Bind Scope N_scope with ObjectId.
Bind Scope Z_scope with Date.

(** [a.toString() === b.toString()] *)
Definition same_id (a b : ObjectId) : bool := N.eqb a b.

(** [ids.includes(x)] / [ids.some(y => y.toString() === x.toString())] *)
Definition includes (ids : list ObjectId) (x : ObjectId) : bool :=
  existsb (fun y => same_id y x) ids.

Section Collection.
Context {A : Type} (idOf : A -> ObjectId).

(** [Model.findById(id)] *)
Definition findById (id : ObjectId) (c : list A) : option A :=
  find (fun d => same_id (idOf d) id) c.

(** What [doc.save()] writes: the stored document with the same [_id] is
    replaced; a document that is not stored yet is inserted. *)
Definition upsert (d : A) (c : list A) : list A :=
  if existsb (fun x => same_id (idOf x) (idOf d)) c
  then map (fun x => if same_id (idOf x) (idOf d) then d else x) c
  else c ++ [d].

(** What [doc.deleteOne()] removes. *)
Definition deleteById (id : ObjectId) (c : list A) : list A :=
  filter (fun x => negb (same_id (idOf x) id)) c.

End Collection.

(** The value of a reference path of a document in memory: the id as it is
    stored, or what [populate] put in its place, which is the referenced
    document, or [null] when no such document is stored. *)
Inductive Ref (A : Type) :=
  | RefId (id : ObjectId)
  | RefDoc (doc : A)
  | RefNull.
Arguments RefId {A} id.
Arguments RefDoc {A} doc.
Arguments RefNull {A}.

End Mongo.

Import Mongo.

(** ** Documents *)

Inductive Role := RoleOwner | RoleAdmin | RoleMember | RoleViewer.

Record Permissions := {
  canCreateTasks : bool;
  canEditTasks : bool;
  canDeleteTasks : bool;
  canManageMembers : bool;
  canEditProject : bool
}.

Record Member := {
  m_user : ObjectId;
  m_role : Role;
  m_joinedAt : Date;
  m_permissions : Permissions
}.

Record Progress := {
  totalTasks : JsNumber.Number;
  completedTasks : JsNumber.Number;
  percentage : JsNumber.Number
}.

Record Statistics := {
  totalMessages : Z;
  totalFiles : Z;
  lastActivity : Date
}.

(** The fields of [projectSchema] that model and route code reads or writes. *)
Record Project := {
  p_id : ObjectId;
  p_name : string;
  p_owner : ObjectId;
  p_members : list Member;
  p_progress : Progress;
  p_statistics : Statistics
}.

Inductive TaskStatus := todo | in_progress | in_review | completed | cancelled.

Definition TaskStatus_eqb (a b : TaskStatus) : bool :=
  match a, b with
  | todo, todo | in_progress, in_progress | in_review, in_review
  | completed, completed | cancelled, cancelled => true
  | _, _ => false
  end.

Definition TaskStatus_name (s : TaskStatus) : string :=
  match s with
  | todo => "todo"
  | in_progress => "in-progress"
  | in_review => "in-review"
  | completed => "completed"
  | cancelled => "cancelled"
  end.

Inductive Priority := low | medium | high | urgent.

Definition Priority_eqb (a b : Priority) : bool :=
  match a, b with
  | low, low | medium, medium | high, high | urgent, urgent => true
  | _, _ => false
  end.

Inductive DependencyType := blocks | blocked_by | relates_to.

Record Dependency := {
  dep_task : ObjectId;
  dep_type : DependencyType
}.

Record Comment := {
  c_id : ObjectId;
  c_author : ObjectId;
  c_content : string;
  c_createdAt : Date;
  c_mentions : list ObjectId
}.

Inductive ActivityType :=
  | act_created | act_updated | act_assigned | act_status_changed
  | act_comment_added | act_attachment_added | act_due_date_changed.

(** [oldValue] and [newValue] of an activity entry are of Mongoose's [Mixed]
    type; the entries written by the modelled code hold a status, an
    assignee, or the names of the updated fields. *)
Inductive Mixed :=
  | MxNull
  | MxStatus (s : TaskStatus)
  | MxId (i : option ObjectId)
  | MxFields (keys : list string).

Record Activity := {
  a_type : ActivityType;
  a_user : ObjectId;
  a_description : string;
  a_oldValue : Mixed;
  a_newValue : Mixed;
  a_timestamp : Date
}.

(** An element of [taskSchema.subtasks]. *)
Record Subtask := {
  st_id : ObjectId;
  st_title : string;
  st_completed : bool;
  st_completedAt : option Date;
  st_createdAt : Date
}.

(** The fields of [taskSchema] that model and route code reads or writes
    ([tags], [startDate], [estimatedHours], [attachments], [isArchived] and
    [position] are carried along untouched by it). *)
Record Task := {
  t_id : ObjectId;
  t_title : string;
  t_description : string;
  t_project : ObjectId;
  t_assignee : option ObjectId;
  t_creator : ObjectId;
  t_status : TaskStatus;
  t_priority : Priority;
  t_dueDate : option Date;
  t_completedAt : option Date;
  t_actualHours : option JsNumber.Number;
  t_progress : JsNumber.Number;
  t_dependencies : list Dependency;
  t_comments : list Comment;
  t_watchers : list ObjectId;
  t_activity : list Activity;
  t_subtasks : list Subtask
}.

(** A task document in memory: the task together with Mongoose's change
    tracking for the [status] path, which is what [isModified('status')]
    reads. A document loaded from the database starts unmodified. *)
Record TaskDoc := {
  td_task : Task;
  td_statusModified : bool
}.

Definition loaded (t : Task) : TaskDoc :=
  {| td_task := t; td_statusModified := false |}.

Record Reaction := {
  r_emoji : string;
  r_users : list ObjectId;
  r_count : Z
}.

Record ReadEntry := {
  rd_user : ObjectId;
  rd_readAt : Date
}.

Record Edit := {
  e_content : string;
  e_editedAt : Date
}.

(** The fields of [messageSchema] that model and route code reads or
    writes. *)
Record Message := {
  msg_id : ObjectId;
  msg_content : string;
  msg_project : ObjectId;
  msg_author : ObjectId;
  msg_parentMessage : option ObjectId;
  msg_mentions : list ObjectId;
  msg_reactions : list Reaction;
  msg_isEdited : bool;
  msg_editedAt : option Date;
  msg_editHistory : list Edit;
  msg_isDeleted : bool;
  msg_deletedAt : option Date;
  msg_readBy : list ReadEntry;
  msg_isPinned : bool;
  msg_pinnedAt : option Date;
  msg_pinnedBy : option ObjectId
}.

Inductive NotificationType :=
  | task_assigned | task_updated | task_completed | task_due_soon
  | task_overdue | task_comment | project_invitation | project_updated
  | member_added | member_removed | message_mention | deadline_reminder
  | system_announcement.

Record Channels := {
  ch_inApp : bool;
  ch_email : bool;
  ch_push : bool
}.

Record NotificationData := {
  nd_project : option ObjectId;
  nd_task : option ObjectId;
  nd_message : option ObjectId
}.

Record Notification := {
  n_id : ObjectId;
  n_recipient : ObjectId;
  n_sender : option ObjectId;
  n_type : NotificationType;
  n_title : string;
  n_message : string;
  n_data : NotificationData;
  n_isRead : bool;
  n_readAt : option Date;
  n_priority : Priority;
  n_actionUrl : option string;
  n_actionText : option string;
  n_expiresAt : option Date;
  n_channels : Channels
}.

(** The fields of a user document that the modelled code reads. *)
Record User := {
  u_id : ObjectId;
  u_name : string;
  u_isActive : bool;
  u_notifyEmail : bool;   (* preferences.notifications.email *)
  u_notifyPush : bool     (* preferences.notifications.push *)
}.

(** ** The database and the monad of model and route code *)

Inductive Collection := CUsers | CProjects | CTasks | CMessages | CNotifications.

(** One entry per write the code issues to the database. *)
Inductive DbOp :=
  | OpSave (c : Collection) (id : ObjectId)
  | OpUpdateMany (c : Collection)
  | OpFindByIdAndUpdate (c : Collection) (id : ObjectId)
  | OpDeleteOne (c : Collection) (id : ObjectId).

(** [req.io.to(room).emit(event, ...)] *)
Inductive Room := ProjectRoom (p : ObjectId) | UserRoom (u : ObjectId).

Record Store := {
  users : list User;
  projects : list Project;
  tasks : list Task;
  messages : list Message;
  notifications : list Notification;
  nextId : ObjectId;                 (* source of new [_id] values *)
  oplog : list DbOp;
  emitted : list (Room * string)
}.

Inductive Error :=
  | AppError (message : string) (statusCode : nat)
  | TypeError (message : string)        (* a property read on [null] *)
  | PlainError (message : string)       (* [throw new Error(...)] *)
  (* a rejected [save()]: Mongoose's error for the model, with the path and
     the message of each failed validator *)
  | ValidationError (model : string) (errors : list (string * string)).

Inductive Result (A : Type) :=
  | Ok (a : A)
  | Throw (e : Error).
Arguments Ok {A} a.
Arguments Throw {A} e.

(** Writes made before an exception is thrown stay in the store. *)
Definition M (A : Type) : Type := Store -> Result A * Store.

Definition ret {A} (a : A) : M A := fun s => (Ok a, s).

Definition throw {A} (e : Error) : M A := fun s => (Throw e, s).

Definition bind {A B} (m : M A) (k : A -> M B) : M B :=
  fun s => match m s with
           | (Ok a, s') => k a s'
           | (Throw e, s') => (Throw e, s')
           end.

Definition get : M Store := fun s => (Ok s, s).

Definition modify (f : Store -> Store) : M unit := fun s => (Ok tt, f s).

Declare Scope m_scope.
Delimit Scope m_scope with M.
Notation "x <- m ;; k" := (bind m (fun x => k))
  (at level 61, m at next level, right associativity) : m_scope.
Notation "m ;;; k" := (bind m (fun _ => k))
  (at level 61, right associativity) : m_scope.
Local Open Scope m_scope.

(** [for (const x of xs) await body(x)] *)
Fixpoint forEachM {A} (body : A -> M unit) (xs : list A) : M unit :=
  match xs with
  | [] => ret tt
  | x :: rest => body x ;;; forEachM body rest
  end.

Definition log (op : DbOp) : M unit :=
  modify (fun s => {| users := users s; projects := projects s; tasks := tasks s;
                      messages := messages s; notifications := notifications s;
                      nextId := nextId s; oplog := oplog s ++ [op];
                      emitted := emitted s |}).

Definition emit (room : Room) (event : string) : M unit :=
  modify (fun s => {| users := users s; projects := projects s; tasks := tasks s;
                      messages := messages s; notifications := notifications s;
                      nextId := nextId s; oplog := oplog s;
                      emitted := emitted s ++ [(room, event)] |}).

Definition setProjects (ps : list Project) : M unit :=
  modify (fun s => {| users := users s; projects := ps; tasks := tasks s;
                      messages := messages s; notifications := notifications s;
                      nextId := nextId s; oplog := oplog s;
                      emitted := emitted s |}).

Definition setTasks (ts : list Task) : M unit :=
  modify (fun s => {| users := users s; projects := projects s; tasks := ts;
                      messages := messages s; notifications := notifications s;
                      nextId := nextId s; oplog := oplog s;
                      emitted := emitted s |}).

Definition setMessages (ms : list Message) : M unit :=
  modify (fun s => {| users := users s; projects := projects s; tasks := tasks s;
                      messages := ms; notifications := notifications s;
                      nextId := nextId s; oplog := oplog s;
                      emitted := emitted s |}).

Definition setNotifications (ns : list Notification) : M unit :=
  modify (fun s => {| users := users s; projects := projects s; tasks := tasks s;
                      messages := messages s; notifications := ns;
                      nextId := nextId s; oplog := oplog s;
                      emitted := emitted s |}).

(** A new [_id]. *)
Definition freshId : M ObjectId :=
  fun s => (Ok (nextId s),
            {| users := users s; projects := projects s; tasks := tasks s;
               messages := messages s; notifications := notifications s;
               nextId := N.succ (nextId s); oplog := oplog s;
               emitted := emitted s |}).

(** [try { await m } catch (error) { console.error(...) }] *)
Definition swallow (m : M unit) : M unit :=
  fun s => match m s with
           | (Ok _, s') => (Ok tt, s')
           | (Throw _, s') => (Ok tt, s')
           end.

(** The first element satisfying [p] is replaced by its image under [f]:
    what mutating the object returned by [array.find(p)] does to the array. *)
Fixpoint updateFirst {A} (p : A -> bool) (f : A -> A) (l : list A) : list A :=
  match l with
  | [] => []
  | x :: rest => if p x then f x :: rest else x :: updateFirst p f rest
  end.

(** ** [models/Project.js] *)

Module ProjectModel.

Definition setProgress (pr : Progress) (p : Project) : Project :=
  {| p_id := p_id p; p_name := p_name p; p_owner := p_owner p;
     p_members := p_members p; p_progress := pr;
     p_statistics := p_statistics p |}.

Definition setStatistics (st : Statistics) (p : Project) : Project :=
  {| p_id := p_id p; p_name := p_name p; p_owner := p_owner p;
     p_members := p_members p; p_progress := p_progress p;
     p_statistics := st |}.

Definition setPercentage (x : JsNumber.Number) (pr : Progress) : Progress :=
  {| totalTasks := totalTasks pr; completedTasks := completedTasks pr;
     percentage := x |}.

(** [Math.round((completedTasks / totalTasks) * 100)] when
    [totalTasks > 0], else [0]: the expression shared by the pre-save hook
    and [updateProgress]. *)
Definition percentageOf (done total : JsNumber.Number) : JsNumber.Number :=
  if JsNumber.gt total (JsNumber.ofZ 0)
  then JsNumber.Math_round
         (JsNumber.mul (JsNumber.div done total) (JsNumber.ofZ 100))
  else JsNumber.ofZ 0.

(** [projectSchema.pre('save', ...)], Project.js:174-182. *)
Definition preSave (p : Project) : Project :=
  setProgress
    (setPercentage
       (percentageOf (completedTasks (p_progress p)) (totalTasks (p_progress p)))
       (p_progress p))
    p.

(** [project.save()]: the pre-save hook, then the write. *)
Definition save (p : Project) : M Project :=
  let p' := preSave p in
  s <- get ;;
  setProjects (upsert p_id p' (projects s)) ;;;
  log (OpSave CProjects (p_id p')) ;;;
  ret p'.

(** [Task.find({ project: this._id })] *)
Definition tasksOf (pid : ObjectId) (ts : list Task) : list Task :=
  filter (fun t => same_id (t_project t) pid) ts.

(** [tasks.filter(task => task.status === 'completed')] *)
Definition completedOf (ts : list Task) : list Task :=
  filter (fun t => TaskStatus_eqb (t_status t) completed) ts.

(** [projectSchema.methods.updateProgress], Project.js:260-275. *)
Definition updateProgress (now : Date) (p : Project) : M Project :=
  s <- get ;;
  let ts := tasksOf (p_id p) (tasks s) in
  let total := JsNumber.ofNat (List.length ts) in
  let done := JsNumber.ofNat (List.length (completedOf ts)) in
  let pr := {| totalTasks := total; completedTasks := done;
               percentage := percentageOf done total |} in
  let st := {| totalMessages := totalMessages (p_statistics p);
               totalFiles := totalFiles (p_statistics p);
               lastActivity := now |} in
  save (setStatistics st (setProgress pr p)).

(** [project.owner.toString() === userId.toString()] *)
Definition isOwner (p : Project) (uid : ObjectId) : bool :=
  same_id (p_owner p) uid.

(** [project.members.find(m => m.user.toString() === userId.toString())] *)
Definition findMember (p : Project) (uid : ObjectId) : option Member :=
  find (fun m => same_id (m_user m) uid) (p_members p).

(** [project.members.some(m => m.user.toString() === userId.toString())] *)
Definition isMember (p : Project) (uid : ObjectId) : bool :=
  existsb (fun m => same_id (m_user m) uid) (p_members p).

End ProjectModel.

(** ** [models/Task.js] *)

Module TaskModel.

Definition setStatus (v : TaskStatus) (t : Task) : Task :=
  {| t_id := t_id t; t_title := t_title t; t_description := t_description t;
     t_project := t_project t; t_assignee := t_assignee t;
     t_creator := t_creator t; t_status := v; t_priority := t_priority t;
     t_dueDate := t_dueDate t; t_completedAt := t_completedAt t;
     t_actualHours := t_actualHours t; t_progress := t_progress t;
     t_dependencies := t_dependencies t; t_comments := t_comments t;
     t_watchers := t_watchers t; t_activity := t_activity t;
     t_subtasks := t_subtasks t |}.

Definition setCompletedAt (v : option Date) (t : Task) : Task :=
  {| t_id := t_id t; t_title := t_title t; t_description := t_description t;
     t_project := t_project t; t_assignee := t_assignee t;
     t_creator := t_creator t; t_status := t_status t;
     t_priority := t_priority t; t_dueDate := t_dueDate t;
     t_completedAt := v; t_actualHours := t_actualHours t;
     t_progress := t_progress t; t_dependencies := t_dependencies t;
     t_comments := t_comments t; t_watchers := t_watchers t;
     t_activity := t_activity t;
     t_subtasks := t_subtasks t |}.

Definition setAssignee (v : option ObjectId) (t : Task) : Task :=
  {| t_id := t_id t; t_title := t_title t; t_description := t_description t;
     t_project := t_project t; t_assignee := v; t_creator := t_creator t;
     t_status := t_status t; t_priority := t_priority t;
     t_dueDate := t_dueDate t; t_completedAt := t_completedAt t;
     t_actualHours := t_actualHours t; t_progress := t_progress t;
     t_dependencies := t_dependencies t; t_comments := t_comments t;
     t_watchers := t_watchers t; t_activity := t_activity t;
     t_subtasks := t_subtasks t |}.

Definition setDependencies (v : list Dependency) (t : Task) : Task :=
  {| t_id := t_id t; t_title := t_title t; t_description := t_description t;
     t_project := t_project t; t_assignee := t_assignee t;
     t_creator := t_creator t; t_status := t_status t;
     t_priority := t_priority t; t_dueDate := t_dueDate t;
     t_completedAt := t_completedAt t; t_actualHours := t_actualHours t;
     t_progress := t_progress t; t_dependencies := v;
     t_comments := t_comments t; t_watchers := t_watchers t;
     t_activity := t_activity t;
     t_subtasks := t_subtasks t |}.

Definition setComments (v : list Comment) (t : Task) : Task :=
  {| t_id := t_id t; t_title := t_title t; t_description := t_description t;
     t_project := t_project t; t_assignee := t_assignee t;
     t_creator := t_creator t; t_status := t_status t;
     t_priority := t_priority t; t_dueDate := t_dueDate t;
     t_completedAt := t_completedAt t; t_actualHours := t_actualHours t;
     t_progress := t_progress t; t_dependencies := t_dependencies t;
     t_comments := v; t_watchers := t_watchers t;
     t_activity := t_activity t;
     t_subtasks := t_subtasks t |}.

Definition setWatchers (v : list ObjectId) (t : Task) : Task :=
  {| t_id := t_id t; t_title := t_title t; t_description := t_description t;
     t_project := t_project t; t_assignee := t_assignee t;
     t_creator := t_creator t; t_status := t_status t;
     t_priority := t_priority t; t_dueDate := t_dueDate t;
     t_completedAt := t_completedAt t; t_actualHours := t_actualHours t;
     t_progress := t_progress t; t_dependencies := t_dependencies t;
     t_comments := t_comments t; t_watchers := v;
     t_activity := t_activity t;
     t_subtasks := t_subtasks t |}.

Definition setActivity (v : list Activity) (t : Task) : Task :=
  {| t_id := t_id t; t_title := t_title t; t_description := t_description t;
     t_project := t_project t; t_assignee := t_assignee t;
     t_creator := t_creator t; t_status := t_status t;
     t_priority := t_priority t; t_dueDate := t_dueDate t;
     t_completedAt := t_completedAt t; t_actualHours := t_actualHours t;
     t_progress := t_progress t; t_dependencies := t_dependencies t;
     t_comments := t_comments t; t_watchers := t_watchers t;
     t_activity := v; t_subtasks := t_subtasks t |}.

Definition setSubtasks (v : list Subtask) (t : Task) : Task :=
  {| t_id := t_id t; t_title := t_title t; t_description := t_description t;
     t_project := t_project t; t_assignee := t_assignee t;
     t_creator := t_creator t; t_status := t_status t;
     t_priority := t_priority t; t_dueDate := t_dueDate t;
     t_completedAt := t_completedAt t; t_actualHours := t_actualHours t;
     t_progress := t_progress t; t_dependencies := t_dependencies t;
     t_comments := t_comments t; t_watchers := t_watchers t;
     t_activity := t_activity t; t_subtasks := v |}.

(** Lifting a field assignment to the document in memory. *)
Definition onTask (f : Task -> Task) (d : TaskDoc) : TaskDoc :=
  {| td_task := f (td_task d); td_statusModified := td_statusModified d |}.

(** [this.status = v]: Mongoose marks the path modified when the assigned
    value differs from the current one. *)
Definition assignStatus (v : TaskStatus) (d : TaskDoc) : TaskDoc :=
  if TaskStatus_eqb (t_status (td_task d)) v then d
  else {| td_task := setStatus v (td_task d); td_statusModified := true |}.

(** [taskSchema.pre('save', ...)], Task.js:227-237. A [Date] object is
    truthy, so [!this.completedAt] holds exactly when the field is [null]. *)
Definition preSave (now : Date) (d : TaskDoc) : TaskDoc :=
  if td_statusModified d then
    match TaskStatus_eqb (t_status (td_task d)) completed,
          t_completedAt (td_task d) with
    | true, None => onTask (setCompletedAt (Some now)) d
    | true, Some _ => d
    | false, _ => onTask (setCompletedAt None) d
    end
  else d.

(** [taskSchema.post('save', ...)], Task.js:239-250. *)
Definition postSave (now : Date) (doc : Task) : M unit :=
  swallow
    (s <- get ;;
     match findById p_id (t_project doc) (projects s) with
     | Some project => ProjectModel.updateProgress now project ;;; ret tt
     | None => ret tt
     end).

(** [task.save()]: pre-save hook, the write, post-save hook. Saving clears
    the change tracking. *)
Definition save (now : Date) (d : TaskDoc) : M TaskDoc :=
  let d' := preSave now d in
  s <- get ;;
  setTasks (upsert t_id (td_task d') (tasks s)) ;;;
  log (OpSave CTasks (t_id (td_task d'))) ;;;
  postSave now (td_task d') ;;;
  ret (loaded (td_task d')).

(** [taskSchema.methods.addActivity], Task.js:253-263. *)
Definition addActivity (now : Date) (type : ActivityType) (user : ObjectId)
    (description : string) (oldValue newValue : Mixed) (d : TaskDoc) : TaskDoc :=
  onTask (fun t => setActivity
    (t_activity t ++
       [{| a_type := type; a_user := user; a_description := description;
           a_oldValue := oldValue; a_newValue := newValue;
           a_timestamp := now |}]) t) d.

(** [taskSchema.methods.addComment], Task.js:266-274. *)
Definition addComment (now : Date) (authorId : ObjectId) (content : string)
    (mentions : list ObjectId) (d : TaskDoc) : M TaskDoc :=
  id <- freshId ;;
  save now (onTask (fun t => setComments
    (t_comments t ++
       [{| c_id := id; c_author := authorId; c_content := content;
           c_createdAt := now; c_mentions := mentions |}]) t) d).

(** [taskSchema.methods.updateStatus], Task.js:312-321, called without a
    description. *)
Definition updateStatus (now : Date) (newStatus : TaskStatus) (userId : ObjectId)
    (d : TaskDoc) : M TaskDoc :=
  let oldStatus := t_status (td_task d) in
  let d1 := assignStatus newStatus d in
  let statusDescription :=
    "Status changed from " ++ TaskStatus_name oldStatus ++ " to "
      ++ TaskStatus_name newStatus in
  save now (addActivity now act_status_changed userId statusDescription
              (MxStatus oldStatus) (MxStatus newStatus) d1).

(** [taskSchema.methods.assignTo], Task.js:324-337, called without a
    description and with an assignee id (which is truthy). *)
Definition assignTo (now : Date) (assigneeId assignedBy : ObjectId)
    (d : TaskDoc) : M TaskDoc :=
  let oldAssignee := t_assignee (td_task d) in
  let d1 := onTask (setAssignee (Some assigneeId)) d in
  let d2 := addActivity now act_assigned assignedBy "Task assigned to user"
              (MxId oldAssignee) (MxId (Some assigneeId)) d1 in
  let d3 := if negb (includes (t_watchers (td_task d2)) assigneeId)
            then onTask (fun t => setWatchers (t_watchers t ++ [assigneeId]) t) d2
            else d2 in
  save now d3.

(** The validators of the [subtasks] path: [title] is [required], which an
    empty string fails. The error of the element at index [i] is filed
    under [subtasks.i.title] with Mongoose's default message. *)
Fixpoint subtaskErrorsFrom (i : nat) (subtasks : list Subtask)
    : list (string * string) :=
  match subtasks with
  | [] => []
  | st :: rest =>
      (if String.eqb (st_title st) EmptyString
       then [("subtasks." ++ JsString.ofIndex i ++ ".title",
              "Path `title` is required.")]
       else [])
      ++ subtaskErrorsFrom (S i) rest
  end.

Definition subtaskErrors (subtasks : list Subtask) : list (string * string) :=
  subtaskErrorsFrom 0 subtasks.

(** [this.save()] of a task whose [subtasks] were assigned to: Mongoose
    validates the document before the pre-save hook runs and rejects with
    a [ValidationError] without writing. *)
Definition saveSubtasks (now : Date) (d : TaskDoc) : M TaskDoc :=
  match subtaskErrors (t_subtasks (td_task d)) with
  | [] => save now d
  | failed => throw (ValidationError "Task" failed)
  end.

(** [taskSchema.methods.addSubtask], Task.js:290-297. The pushed element
    gets its [_id] and, the path being [trim: true], the trimmed title. *)
Definition addSubtask (now : Date) (title : string) (d : TaskDoc)
    : M TaskDoc :=
  id <- freshId ;;
  saveSubtasks now (onTask (fun t => setSubtasks
    (t_subtasks t ++
       [{| st_id := id; st_title := JsString.trim title;
           st_completed := false; st_completedAt := None;
           st_createdAt := now |}]) t) d).

(** [subtask.completed = !subtask.completed] with the completion time that
    goes with it, Task.js:306-307. *)
Definition toggled (now : Date) (st : Subtask) : Subtask :=
  let completed := negb (st_completed st) in
  {| st_id := st_id st; st_title := st_title st;
     st_completed := completed;
     st_completedAt := if completed then Some now else None;
     st_createdAt := st_createdAt st |}.

(** [taskSchema.methods.toggleSubtask], Task.js:300-310:
    [this.subtasks.id(subtaskId)] is the first subtask with that [_id]. *)
Definition toggleSubtask (now : Date) (subtaskId : ObjectId) (d : TaskDoc)
    : M TaskDoc :=
  match find (fun st => same_id (st_id st) subtaskId)
             (t_subtasks (td_task d)) with
  | None => throw (PlainError "Subtask not found")
  | Some _ =>
      saveSubtasks now (onTask (fun t => setSubtasks
        (updateFirst (fun st => same_id (st_id st) subtaskId)
                     (toggled now) (t_subtasks t)) t) d)
  end.

End TaskModel.

(** ** [models/Message.js] *)

Module MessageModel.

Definition setReactions (v : list Reaction) (m : Message) : Message :=
  {| msg_id := msg_id m; msg_content := msg_content m;
     msg_project := msg_project m; msg_author := msg_author m;
     msg_parentMessage := msg_parentMessage m; msg_mentions := msg_mentions m;
     msg_reactions := v; msg_isEdited := msg_isEdited m;
     msg_editedAt := msg_editedAt m; msg_editHistory := msg_editHistory m;
     msg_isDeleted := msg_isDeleted m; msg_deletedAt := msg_deletedAt m;
     msg_readBy := msg_readBy m; msg_isPinned := msg_isPinned m;
     msg_pinnedAt := msg_pinnedAt m; msg_pinnedBy := msg_pinnedBy m |}.

Definition setReadBy (v : list ReadEntry) (m : Message) : Message :=
  {| msg_id := msg_id m; msg_content := msg_content m;
     msg_project := msg_project m; msg_author := msg_author m;
     msg_parentMessage := msg_parentMessage m; msg_mentions := msg_mentions m;
     msg_reactions := msg_reactions m; msg_isEdited := msg_isEdited m;
     msg_editedAt := msg_editedAt m; msg_editHistory := msg_editHistory m;
     msg_isDeleted := msg_isDeleted m; msg_deletedAt := msg_deletedAt m;
     msg_readBy := v; msg_isPinned := msg_isPinned m;
     msg_pinnedAt := msg_pinnedAt m; msg_pinnedBy := msg_pinnedBy m |}.

Definition setEdited (content : string) (history : list Edit) (at_ : Date)
    (m : Message) : Message :=
  {| msg_id := msg_id m; msg_content := content;
     msg_project := msg_project m; msg_author := msg_author m;
     msg_parentMessage := msg_parentMessage m; msg_mentions := msg_mentions m;
     msg_reactions := msg_reactions m; msg_isEdited := true;
     msg_editedAt := Some at_; msg_editHistory := history;
     msg_isDeleted := msg_isDeleted m; msg_deletedAt := msg_deletedAt m;
     msg_readBy := msg_readBy m; msg_isPinned := msg_isPinned m;
     msg_pinnedAt := msg_pinnedAt m; msg_pinnedBy := msg_pinnedBy m |}.

(** [messageSchema.post('save', ...)], Message.js:176-187:
    [Project.findByIdAndUpdate(doc.project, { $inc: ..., $set: ... })]. *)
Definition postSave (now : Date) (doc : Message) : M unit :=
  swallow
    (s <- get ;;
     setProjects
       (map (fun p =>
               if same_id (p_id p) (msg_project doc)
               then ProjectModel.setStatistics
                      {| totalMessages := totalMessages (p_statistics p) + 1;
                         totalFiles := totalFiles (p_statistics p);
                         lastActivity := now |} p
               else p)
            (projects s)) ;;;
     log (OpFindByIdAndUpdate CProjects (msg_project doc))).

(** The paths of a message that have validators and that the methods
    assign to. *)
Inductive Path := PathContent | PathReactions.

Definition Path_eqb (a b : Path) : bool :=
  match a, b with
  | PathContent, PathContent | PathReactions, PathReactions => true
  | _, _ => false
  end.

(** The validators of [content], Message.js:4-9: [required], which the
    empty string fails, and [maxlength]. *)
Definition contentErrors (content : string) : list (string * string) :=
  if String.eqb content EmptyString
  then [("content", "Message content is required")]
  else if (5000 <? JsString.length content)%N
  then [("content", "Message content cannot exceed 5000 characters")]
  else [].

(** The validators of [reactions], Message.js:51-55: [emoji] is [required].
    The error of the element at index [i] is filed under
    [reactions.i.emoji] with Mongoose's default message. *)
Fixpoint reactionErrorsFrom (i : nat) (rs : list Reaction)
    : list (string * string) :=
  match rs with
  | [] => []
  | r :: rest =>
      (if String.eqb (r_emoji r) EmptyString
       then [("reactions." ++ JsString.ofIndex i ++ ".emoji",
              "Path `emoji` is required.")]
       else [])
      ++ reactionErrorsFrom (S i) rest
  end.

Definition reactionErrors (rs : list Reaction) : list (string * string) :=
  reactionErrorsFrom 0 rs.

(** What validation reports for a document on which the paths [modified]
    were assigned to since it was loaded. *)
Definition validate (modified : list Path) (m : Message)
    : list (string * string) :=
  (if existsb (Path_eqb PathContent) modified
   then contentErrors (msg_content m) else [])
  ++ (if existsb (Path_eqb PathReactions) modified
      then reactionErrors (msg_reactions m) else []).

(** [message.save()] after assignments to the paths [modified]: Mongoose
    validates first and rejects with a [ValidationError] without writing.
    The pre-save hook (Message.js:158-173) only fills a local array and
    changes no field. *)
Definition save (now : Date) (modified : list Path) (m : Message)
    : M Message :=
  match validate modified m with
  | [] =>
      s <- get ;;
      setMessages (upsert msg_id m (messages s)) ;;;
      log (OpSave CMessages (msg_id m)) ;;;
      postSave now m ;;;
      ret m
  | failed => throw (ValidationError "Message" failed)
  end.

(** [r.emoji === emoji] *)
Definition hasEmoji (emoji : string) (r : Reaction) : bool :=
  String.eqb (r_emoji r) emoji.

(** The change [addReaction] makes to [this.reactions], Message.js:190-207. *)
Definition addReactionTo (emoji : string) (userId : ObjectId)
    (rs : list Reaction) : list Reaction :=
  match find (hasEmoji emoji) rs with
  | Some existingReaction =>
      if negb (includes (r_users existingReaction) userId)
      then updateFirst (hasEmoji emoji)
             (fun r => {| r_emoji := r_emoji r;
                          r_users := r_users r ++ [userId];
                          r_count := r_count r + 1 |}) rs
      else rs
  | None =>
      rs ++ [{| r_emoji := emoji; r_users := [userId]; r_count := 1 |}]
  end.

(** [messageSchema.methods.addReaction], Message.js:190-209. *)
Definition addReaction (now : Date) (emoji : string) (userId : ObjectId)
    (m : Message) : M Message :=
  save now [PathReactions]
    (setReactions (addReactionTo emoji userId (msg_reactions m)) m).

(** [reaction.users.filter(user => user.toString() !== userId.toString())] *)
Definition withoutUser (userId : ObjectId) (us : list ObjectId) : list ObjectId :=
  filter (fun u => negb (same_id u userId)) us.

(** The change [removeReaction] makes to [this.reactions],
    Message.js:212-224. *)
Definition removeReactionFrom (emoji : string) (userId : ObjectId)
    (rs : list Reaction) : list Reaction :=
  match find (hasEmoji emoji) rs with
  | Some reaction =>
      let us := withoutUser userId (r_users reaction) in
      let count := Z.of_nat (List.length us) in
      let rs' := updateFirst (hasEmoji emoji)
                   (fun r => {| r_emoji := r_emoji r; r_users := us;
                                r_count := count |}) rs in
      if (count =? 0)%Z
      then filter (fun r => negb (hasEmoji emoji r)) rs'
      else rs'
  | None => rs
  end.

(** [messageSchema.methods.removeReaction], Message.js:212-226. *)
Definition removeReaction (now : Date) (emoji : string) (userId : ObjectId)
    (m : Message) : M Message :=
  save now [PathReactions]
    (setReactions (removeReactionFrom emoji userId (msg_reactions m)) m).

(** [messageSchema.methods.editContent], Message.js:229-241. The path
    [content] is [trim: true]: the assignment stores the trimmed string. *)
Definition editContent (now : Date) (newContent : string) (m : Message)
    : M Message :=
  save now [PathContent]
    (setEdited (JsString.trim newContent)
       (msg_editHistory m ++
          [{| e_content := msg_content m; e_editedAt := now |}])
       now m).

(** [read.user.toString() === userId.toString()] for the value [read.user]
    has in memory; [None] when it is [null] and reading [toString] throws.
    A populated document renders as its inspection string, which is never
    the string of an id. *)
Definition isReadBy (userId : ObjectId) (user : Ref User) : option bool :=
  match user with
  | RefId id => Some (same_id id userId)
  | RefDoc _ => Some false
  | RefNull => None
  end.

(** [this.readBy.find(read => read.user.toString() === userId.toString())]
    over the values [read.user] of the entries, in order: whether an entry
    is found, or [None] when the callback throws. *)
Fixpoint existingRead (userId : ObjectId) (readers : list (Ref User))
    : option bool :=
  match readers with
  | [] => Some false
  | user :: rest =>
      match isReadBy userId user with
      | None => None
      | Some true => Some true
      | Some false => existingRead userId rest
      end
  end.

(** What [read.user] holds for the entries of a message that was loaded
    without [populate('readBy.user')]. *)
Definition unpopulated (m : Message) : list (Ref User) :=
  map (fun read => RefId (rd_user read)) (msg_readBy m).

(** [messageSchema.methods.markAsRead], Message.js:244-256, on a document
    whose [readBy] entries hold [readers] as their [user] in memory. *)
Definition markAsRead (now : Date) (userId : ObjectId)
    (readers : list (Ref User)) (m : Message) : M Message :=
  match existingRead userId readers with
  | None =>
      throw (TypeError "Cannot read properties of null (reading 'toString')")
  | Some false =>
      save now []
        (setReadBy
           (msg_readBy m ++ [{| rd_user := userId; rd_readAt := now |}]) m)
  | Some true => ret m
  end.

End MessageModel.

(** ** [models/Notification.js] *)

Module NotificationModel.

Definition setRead (isRead : bool) (readAt : option Date) (n : Notification)
    : Notification :=
  {| n_id := n_id n; n_recipient := n_recipient n; n_sender := n_sender n;
     n_type := n_type n; n_title := n_title n; n_message := n_message n;
     n_data := n_data n; n_isRead := isRead; n_readAt := readAt;
     n_priority := n_priority n; n_actionUrl := n_actionUrl n;
     n_actionText := n_actionText n; n_expiresAt := n_expiresAt n;
     n_channels := n_channels n |}.

Definition setExpiresAt (v : option Date) (n : Notification) : Notification :=
  {| n_id := n_id n; n_recipient := n_recipient n; n_sender := n_sender n;
     n_type := n_type n; n_title := n_title n; n_message := n_message n;
     n_data := n_data n; n_isRead := n_isRead n; n_readAt := n_readAt n;
     n_priority := n_priority n; n_actionUrl := n_actionUrl n;
     n_actionText := n_actionText n; n_expiresAt := v;
     n_channels := n_channels n |}.

(** [notificationSchema.pre('save', ...)], Notification.js:162-168. *)
Definition preSave (now : Date) (n : Notification) : Notification :=
  match n_expiresAt n with
  | None => setExpiresAt (Some (now + 30 * 24 * 60 * 60 * 1000)) n
  | Some _ => n
  end.

(** [notification.save()] *)
Definition save (now : Date) (n : Notification) : M Notification :=
  let n' := preSave now n in
  s <- get ;;
  setNotifications (upsert n_id n' (notifications s)) ;;;
  log (OpSave CNotifications (n_id n')) ;;;
  ret n'.

(** [notificationSchema.methods.markAsRead], Notification.js:171-178. *)
Definition markAsRead (now : Date) (n : Notification) : M Notification :=
  if negb (n_isRead n)
  then save now (setRead true (Some now) n)
  else ret n.

(** [notificationSchema.methods.markAsUnread], Notification.js:181-188. *)
Definition markAsUnread (now : Date) (n : Notification) : M Notification :=
  if n_isRead n
  then save now (setRead false None n)
  else ret n.

(** The argument of [createNotification]; [None] is a property the caller
    leaves out, for which the destructuring at Notification.js:192-204
    takes the default. *)
Record NotificationInput := {
  ni_recipient : ObjectId;
  ni_sender : ObjectId;
  ni_type : NotificationType;
  ni_title : string;
  ni_message : string;
  ni_data : NotificationData;
  ni_priority : option Priority;
  ni_actionUrl : option string;
  ni_actionText : option string;
  ni_channels : option Channels;
  ni_expiresAt : option Date
}.

(** [notificationSchema.statics.createNotification],
    Notification.js:191-247. The paths [title] and [message] are
    [trim: true]. Their validators ([required], [maxlength] 200 and 1000)
    are not run: the routes pass a fixed title and a message made of a
    fixed text, a user name and a task title, which they accept. *)
Definition createNotification (now : Date) (d : NotificationInput)
    : M Notification :=
  s <- get ;;
  match findById u_id (ni_recipient d) (users s) with
  | None => throw (PlainError "Recipient user not found")
  | Some user =>
      let channels :=
        match ni_channels d with
        | Some given => given
        | None => {| ch_inApp := true; ch_email := false; ch_push := false |}
        end in
      let finalChannels :=
        {| ch_inApp := ch_inApp channels;
           ch_email := ch_email channels && u_notifyEmail user;
           ch_push := ch_push channels && u_notifyPush user |} in
      id <- freshId ;;
      save now
        {| n_id := id; n_recipient := ni_recipient d;
           n_sender := Some (ni_sender d); n_type := ni_type d;
           n_title := JsString.trim (ni_title d);
           n_message := JsString.trim (ni_message d);
           n_data := ni_data d; n_isRead := false; n_readAt := None;
           n_priority := match ni_priority d with Some p => p | None => medium end;
           n_actionUrl := ni_actionUrl d; n_actionText := ni_actionText d;
           n_expiresAt := ni_expiresAt d; n_channels := finalChannels |}
  end.

End NotificationModel.

(** ** JSON responses *)

(** The value under a key of a response body, up to its payload. *)
Inductive Shape :=
  | SBool (b : bool)
  | SString
  | SNumber
  | SObject
  | SArray.

(** Every place of the backend that sends a JSON response. *)
Inductive Site :=
  (* middleware/errorHandler.js *)
  | SendErrorDev (hasStack : bool)      (* :52 *)
  | SendErrorProdOperational            (* :64 *)
  | SendErrorProdUnknown                (* :74 *)
  | ValidationFailed                    (* :92 *)
  (* middleware/auth.js *)
  | AuthTokenRequired                   (* :11 *)
  | AuthUserNotFound                    (* :24 *)
  | AuthDeactivated                     (* :31 *)
  | AuthInvalidToken                    (* :41 *)
  | AuthTokenExpired                    (* :46 *)
  | AuthInternalError                   (* :53 *)
  | AdminRequired                       (* :85 *)
  | MemberProjectIdRequired             (* :100 *)
  | MemberProjectNotFound               (* :109 *)
  | MemberDenied                        (* :122 *)
  | MemberInternalError                 (* :132 *)
  | PermissionProjectIdRequired         (* :149 *)
  | PermissionProjectNotFound           (* :158 *)
  | PermissionDenied                    (* :169 *)
  | PermissionInternalError             (* :178 *)
  | TooManyAttempts                     (* :205 *)
  (* routes/auth.js *)
  | Registered                          (* :112 *)
  | LoggedIn                            (* :164 *)
  | TokenRefreshed                      (* :200 *)
  | LoggedOut                           (* :222 *)
  | ResetLinkMaybeSent                  (* :242 *)
  | ResetEmailSent (development : bool) (* :258 *)
  | PasswordReset                       (* :300 *)
  | PasswordChanged                     (* :358 *)
  | CurrentUser                         (* :375 *)
  | EmailVerified                       (* :411 *)
  (* routes/tasks.js *)
  | TaskList                            (* :277 *)
  | TaskCreated                         (* :393 *)
  | TaskDetails                         (* :436 *)
  | TaskUpdated                         (* :564 *)
  | TaskDeleted                         (* :613 *)
  | CommentAdded                        (* :709 *)
  | StatusUpdated                       (* :809 *)
  | SubtaskAdded                        (* :870 *)
  | SubtaskToggled                      (* :926 *)
  | WatchToggled                        (* :973 *)
  | OverdueTasks                        (* :1007 *)
  (* routes/messages.js *)
  | MessageList                         (* :173 *)
  | MessageSent                         (* :292 *)
  | MessageDetails                      (* :343 *)
  | MessageEdited                       (* :395 *)
  | MessageDeleted                      (* :438 *)
  | ReactionUpdated                     (* :495 *)
  | PinToggled                          (* :552 *)
  | ReplyList                           (* :621 *)
  | UnreadMessageCount                  (* :657 *)
  | AllMessagesRead                     (* :695 *)
  | MessageSearch                       (* :813 *)
  (* routes/notification.js *)
  | NotificationList                    (* :80 *)
  | UnreadNotificationCount             (* :103 *)
  | UnreadNotificationCountOfProject    (* :124 *)
  | NotificationDetails                 (* :162 *)
  | NotificationRead                    (* :198 *)
  (* server.js *)
  | Health                              (* /api/health *)
  | EndpointNotFound                    (* app.use('*', ...) *)
  (* routes/users.js and routes/projects.js: placeholder controllers *)
  | UsersGetAll | UsersGetById | UsersUpdate | UsersDelete
  | ProjectsGetAll | ProjectsGetById | ProjectsCreate | ProjectsUpdate
  | ProjectsDelete.

Definition failure : list (string * Shape) :=
  [("success", SBool false); ("message", SString)].

Definition successMessage : list (string * Shape) :=
  [("success", SBool true); ("message", SString)].

Definition successData : list (string * Shape) :=
  [("success", SBool true); ("data", SObject)].

Definition successMessageData : list (string * Shape) :=
  [("success", SBool true); ("message", SString); ("data", SObject)].

(** The keys of the object literal passed to [res.json] at each site, in
    source order; a key whose value is [undefined] is not serialised and is
    left out. *)
Definition bodyOf (site : Site) : list (string * Shape) :=
  match site with
  | SendErrorDev hasStack =>
      [("success", SBool false); ("error", SObject); ("message", SString)]
        ++ (if hasStack then [("stack", SString)] else [])
  | SendErrorProdOperational | SendErrorProdUnknown => failure
  | ValidationFailed => failure ++ [("errors", SArray)]
  | AuthTokenRequired | AuthUserNotFound | AuthDeactivated | AuthInvalidToken
  | AuthTokenExpired | AuthInternalError | AdminRequired
  | MemberProjectIdRequired | MemberProjectNotFound | MemberDenied
  | MemberInternalError | PermissionProjectIdRequired
  | PermissionProjectNotFound | PermissionDenied
  | PermissionInternalError => failure
  | TooManyAttempts => failure ++ [("retryAfter", SNumber)]
  | Registered | LoggedIn | TokenRefreshed | PasswordReset => successMessageData
  | LoggedOut | ResetLinkMaybeSent | PasswordChanged | EmailVerified =>
      successMessage
  | ResetEmailSent development =>
      successMessage ++ (if development then [("resetToken", SString)] else [])
  | CurrentUser => successData
  | TaskList | TaskDetails | OverdueTasks => successData
  | TaskCreated | TaskUpdated | CommentAdded | StatusUpdated | SubtaskAdded
  | SubtaskToggled | WatchToggled => successMessageData
  | TaskDeleted => successMessage
  | MessageList | MessageDetails | ReplyList | UnreadMessageCount
  | MessageSearch => successData
  | MessageSent | MessageEdited | ReactionUpdated | PinToggled
  | AllMessagesRead => successMessageData
  | MessageDeleted => successMessage
  | NotificationList | UnreadNotificationCount
  | UnreadNotificationCountOfProject | NotificationDetails => successData
  | NotificationRead => successMessageData
  | Health =>
      [("status", SString); ("message", SString); ("timestamp", SString);
       ("uptime", SNumber)]
  | EndpointNotFound => failure
  | UsersGetAll | UsersGetById | UsersUpdate | UsersDelete
  | ProjectsGetAll | ProjectsGetById | ProjectsCreate | ProjectsUpdate
  | ProjectsDelete => [("message", SString)]
  end.

(** The sites of the placeholder controllers and of the health check. *)
Definition isPlaceholderOrHealth (site : Site) : bool :=
  match site with
  | Health
  | UsersGetAll | UsersGetById | UsersUpdate | UsersDelete
  | ProjectsGetAll | ProjectsGetById | ProjectsCreate | ProjectsUpdate
  | ProjectsDelete => true
  | _ => false
  end.

Definition lookupKey (k : string) (b : list (string * Shape)) : option Shape :=
  match find (fun kv => String.eqb (fst kv) k) b with
  | Some kv => Some (snd kv)
  | None => None
  end.

Definition hasKey (k : string) (b : list (string * Shape)) : bool :=
  match lookupKey k b with Some _ => true | None => false end.

Definition hasBoolKey (k : string) (b : list (string * Shape)) : bool :=
  match lookupKey k b with Some (SBool _) => true | _ => false end.

Record Response := {
  status : nat;
  site : Site
}.

Definition body (r : Response) : list (string * Shape) := bodyOf (site r).

(** [errorHandler], errorHandler.js:103-143, on the errors the modelled code
    throws. Of the names and codes the handler rewrites they have one only:
    a validation error is replaced by a new [AppError] with status 400,
    which has a [stack]. Every other error is sent as the copy [{ ...err }],
    which has none. An [AppError] is operational. [development] is
    [process.env.NODE_ENV === 'development']. *)
Definition errorHandler (development : bool) (e : Error) : Response :=
  let statusCode :=
    match e with
    | AppError _ code => if Nat.eqb code 0 then 500%nat else code
    | TypeError _ | PlainError _ => 500%nat
    | ValidationError _ _ => 400%nat
    end in
  let hasStack :=
    match e with ValidationError _ _ => true | _ => false end in
  if development
  then {| status := statusCode; site := SendErrorDev hasStack |}
  else match e with
       | AppError _ _ | ValidationError _ _ =>
           {| status := statusCode; site := SendErrorProdOperational |}
       | TypeError _ | PlainError _ =>
           {| status := 500; site := SendErrorProdUnknown |}
       end.

(** [catchAsync(handler)] followed by the error handler: what a request
    that reached the handler is answered with, and the store it leaves. *)
Definition respond (development : bool) (handler : M Response)
    (s : Store) : Response * Store :=
  match handler s with
  | (Ok r, s') => (r, s')
  | (Throw e, s') => (errorHandler development e, s')
  end.

(** ** [middleware/auth.js] *)

Module AuthMiddleware.

(** [s.split(' ')] *)
Fixpoint splitFrom (current : string) (s : string) : list string :=
  match s with
  | EmptyString => [current]
  | String c rest =>
      if Ascii.eqb c " "%char
      then current :: splitFrom EmptyString rest
      else splitFrom (current ++ String c EmptyString) rest
  end.

Definition split (s : string) : list string := splitFrom EmptyString s.

(** [authHeader && authHeader.split(' ')[1]], keeping a truthy result only:
    the empty string and [undefined] both fail the test [!token]. *)
Definition bearerToken (authorization : option string) : option string :=
  match authorization with
  | None => None
  | Some EmptyString => None
  | Some authHeader =>
      match nth_error (split authHeader) 1 with
      | Some EmptyString => None
      | Some token => Some token
      | None => None
      end
  end.

(** What [jwt.verify(token, process.env.JWT_SECRET)] does: it returns the
    decoded payload, of which the middleware reads [userId] (absent from a
    payload that has no such field), or throws an error with a [name]. *)
Inductive JwtResult :=
  | Decoded (userId : option ObjectId)
  | JwtThrows (name : string).

(** The outcome of a middleware: it answers the request itself, or calls
    [next()] after attaching a value to [req]. *)
Inductive Next (A : Type) :=
  | Respond (r : Response)
  | Continue (a : A).
Arguments Respond {A} r.
Arguments Continue {A} a.

Section WithJwt.
Variable jwt_verify : string -> JwtResult.

(** [authenticateToken], auth.js:5-58; [Continue user] is [req.user = user;
    next()]. *)
Definition authenticateToken (authorization : option string) (s : Store)
    : Next User :=
  match bearerToken authorization with
  | None => Respond {| status := 401; site := AuthTokenRequired |}
  | Some token =>
      match jwt_verify token with
      | Decoded userId =>
          match match userId with
                | Some id => findById u_id id (users s)
                | None => None
                end with
          | None => Respond {| status := 401; site := AuthUserNotFound |}
          | Some user =>
              if negb (u_isActive user)
              then Respond {| status := 401; site := AuthDeactivated |}
              else Continue user
          end
      | JwtThrows name =>
          if String.eqb name "JsonWebTokenError"
          then Respond {| status := 401; site := AuthInvalidToken |}
          else if String.eqb name "TokenExpiredError"
          then Respond {| status := 401; site := AuthTokenExpired |}
          else Respond {| status := 500; site := AuthInternalError |}
      end
  end.

End WithJwt.

(** [requireProjectMember], auth.js:94-137, followed by the rest of the
    route: [next project] runs with [req.project = project]. [projectId] is
    [req.params.projectId || req.body.projectId]. *)
Definition requireProjectMember (user : User) (projectId : option ObjectId)
    (next : Project -> M Response) : M Response :=
  match projectId with
  | None => ret {| status := 400; site := MemberProjectIdRequired |}
  | Some id =>
      s <- get ;;
      match findById p_id id (projects s) with
      | None => ret {| status := 404; site := MemberProjectNotFound |}
      | Some project =>
          let isOwner := ProjectModel.isOwner project (u_id user) in
          let isMember := ProjectModel.isMember project (u_id user) in
          if negb isOwner && negb isMember
          then ret {| status := 403; site := MemberDenied |}
          else next project
      end
  end.

End AuthMiddleware.

(** ** [server.js]: the route table *)

Module Server.

(** The routers mounted by the server, and the application itself for the
    routes it declares directly. *)
Inductive Router :=
  | App | AuthRoutes | UserRoutes | ProjectRoutes | TaskRoutes
  | MessageRoutes | NotificationRoutes.

(** Every route declared by the server and its routers. *)
Inductive Route :=
  (* server.js *)
  | GetHealth
  (* routes/auth.js *)
  | PostRegister | PostLogin | PostRefresh | PostLogout | PostForgotPassword
  | PostResetPassword | PostChangePassword | GetMe | PostVerifyEmail
  (* routes/users.js *)
  | GetUsers | GetUser | PutUser | DeleteUser
  (* routes/projects.js *)
  | GetProjects | GetProject | PostProject | PutProject | DeleteProject
  (* routes/tasks.js *)
  | GetTasks | PostTask | GetTask | PutTask | DeleteTask | PostTaskComment
  | PutTaskStatus | PostSubtask | PutSubtaskToggle | PostTaskWatch
  | GetOverdueTasks
  (* routes/messages.js *)
  | GetProjectMessages | PostProjectMessage | GetMessage | PutMessage
  | DeleteMessage | PostMessageReaction | PostMessagePin | GetMessageReplies
  | GetUnreadMessageCount | PutReadAllMessages | GetMessageSearch
  (* routes/notification.js *)
  | GetNotifications | GetUnreadNotificationCount
  | GetUnreadNotificationCountOfProject | GetNotification
  | PutNotificationRead | PutNotificationUnread.

Definition routerOf (r : Route) : Router :=
  match r with
  | GetHealth => App
  | PostRegister | PostLogin | PostRefresh | PostLogout | PostForgotPassword
  | PostResetPassword | PostChangePassword | GetMe | PostVerifyEmail =>
      AuthRoutes
  | GetUsers | GetUser | PutUser | DeleteUser => UserRoutes
  | GetProjects | GetProject | PostProject | PutProject | DeleteProject =>
      ProjectRoutes
  | GetTasks | PostTask | GetTask | PutTask | DeleteTask | PostTaskComment
  | PutTaskStatus | PostSubtask | PutSubtaskToggle | PostTaskWatch
  | GetOverdueTasks => TaskRoutes
  | GetProjectMessages | PostProjectMessage | GetMessage | PutMessage
  | DeleteMessage | PostMessageReaction | PostMessagePin | GetMessageReplies
  | GetUnreadMessageCount | PutReadAllMessages | GetMessageSearch =>
      MessageRoutes
  | GetNotifications | GetUnreadNotificationCount
  | GetUnreadNotificationCountOfProject | GetNotification
  | PutNotificationRead | PutNotificationUnread => NotificationRoutes
  end.

(** Whether the server mounts the router behind [authenticateToken]:
    [app.use('/api/auth', authRoutes)] against
    [app.use('/api/tasks', authenticateToken, taskRoutes)] and the like. *)
Definition mountedBehindAuth (m : Router) : bool :=
  match m with
  | App | AuthRoutes => false
  | UserRoutes | ProjectRoutes | TaskRoutes | MessageRoutes
  | NotificationRoutes => true
  end.

(** Whether the route lists [authenticateToken] in its own chain
    (routes/auth.js:217, 315, 369, 388). *)
Definition ownAuth (r : Route) : bool :=
  match r with
  | PostLogout | PostChangePassword | GetMe | PostVerifyEmail => true
  | _ => false
  end.

Definition requiresToken (r : Route) : bool :=
  mountedBehindAuth (routerOf r) || ownAuth r.

(** What happens to a request for route [r]: the rate limiter mounted on
    [/api/] before every route (server.js: [app.use('/api/', limiter)])
    answers 429 itself when its verdict [limited] is that the client
    exceeded its quota; otherwise the request is answered by
    [authenticateToken], or the rest of the route's chain runs (with
    [req.user] set when the middleware ran). *)
Inductive Entry :=
  | TooManyRequests
  | Rejected (r : Response)
  | Enters (user : option User).

Definition enter (jwt_verify : string -> AuthMiddleware.JwtResult)
    (limited : bool) (r : Route) (authorization : option string) (s : Store)
    : Entry :=
  if limited then TooManyRequests
  else if requiresToken r
  then match AuthMiddleware.authenticateToken jwt_verify authorization s with
       | AuthMiddleware.Respond resp => Rejected resp
       | AuthMiddleware.Continue user => Enters (Some user)
       end
  else Enters None.

End Server.

(** ** [routes/tasks.js] *)

Module TaskRoutes.

(** [Task.findById(id).populate('project', ...)]: the task, and the project
    its [project] field is populated with ([None] is [null]: the reference
    dangles). *)
Definition findPopulated (id : ObjectId) (s : Store)
    : option (Task * option Project) :=
  match findById t_id id (tasks s) with
  | Some task => Some (task, findById p_id (t_project task) (projects s))
  | None => None
  end.

(** [id.toString()] inside a template string: a rendering of the id
    (hexadecimal digits in the source, decimal digits here). *)
Definition idString (i : ObjectId) : string :=
  NilEmpty.string_of_uint (N.to_uint i).

(** A title between double quotes. *)
Definition quoted (s : string) : string :=
  String (ascii_of_nat 34) s ++ String (ascii_of_nat 34) EmptyString.

(** Reading [project.owner] when [project] is [null]. *)
Definition nullProject {A} : M A :=
  throw (TypeError "Cannot read properties of null (reading 'owner')").

(** [Notification.createNotification] for each recipient, in order. *)
Definition notifyAll (now : Date) (recipients : list ObjectId)
    (make : ObjectId -> NotificationModel.NotificationInput) : M unit :=
  forEachM (fun userId =>
              NotificationModel.createNotification now (make userId) ;;; ret tt)
           recipients.

(** The ids that [task.populate({ path: 'assignee' })] resolves: [null] for
    a task without assignee or with a dangling one. *)
Definition populatedAssignee (t : Task) (s : Store) : option ObjectId :=
  match t_assignee t with
  | Some a => match findById u_id a (users s) with
              | Some user => Some (u_id user)
              | None => None
              end
  | None => None
  end.

(** The recipients collected by PUT /:id (tasks.js:527-539) and
    PUT /:id/status (tasks.js:768-779): the populated assignee and the
    watchers, each unless it is the requester. The ids are pushed as
    distinct [ObjectId] objects, so [new Set(notifyUsers)] removes none. *)
Definition assigneeAndWatchers (user : User) (t : Task) (s : Store)
    : list ObjectId :=
  (match populatedAssignee t s with
   | Some a => if negb (same_id a (u_id user)) then [a] else []
   | None => []
   end)
  ++ filter (fun w => negb (same_id w (u_id user))) (t_watchers t).

(** GET /api/tasks/:id, tasks.js:404-441. *)
Definition getTask (user : User) (id : ObjectId) : M Response :=
  s <- get ;;
  match findPopulated id s with
  | None => throw (AppError "Task not found" 404)
  | Some (_, None) => nullProject
  | Some (task, Some project) =>
      let isOwner := ProjectModel.isOwner project (u_id user) in
      let isMember := ProjectModel.isMember project (u_id user) in
      if negb isOwner && negb isMember
      then throw (AppError "Access denied - not a project member" 403)
      else ret {| status := 200; site := TaskDetails |}
  end.

(** The body of PUT /api/tasks/:id: the fields [updateTaskValidation]
    checks, each optional. *)
Record TaskUpdate := {
  up_title : option string;
  up_description : option string;
  up_assignee : option ObjectId;
  up_status : option TaskStatus;
  up_priority : option Priority;
  up_dueDate : option Date;
  up_progress : option JsNumber.Number;
  up_actualHours : option JsNumber.Number
}.

Definition statusOnly (v : TaskStatus) : TaskUpdate :=
  {| up_title := None; up_description := None; up_assignee := None;
     up_status := Some v; up_priority := None; up_dueDate := None;
     up_progress := None; up_actualHours := None |}.

(** [a !== b] on Numbers. *)
Definition numberDiffers (a b : JsNumber.Number) : bool := negb (SFeqb a b).

(** The keys [k] of the body with [task[k] !== updateData[k]]
    (tasks.js:477-482), in the order of the fields of [TaskUpdate]. The
    stored assignee and due date are objects and the body holds strings, so
    these two differ whenever they are present. *)
Definition changedFields (t : Task) (u : TaskUpdate) : list string :=
  (match up_title u with
   | Some v => if String.eqb (t_title t) v then [] else ["title"]
   | None => [] end)
  ++ (match up_description u with
      | Some v => if String.eqb (t_description t) v then [] else ["description"]
      | None => [] end)
  ++ (match up_assignee u with Some _ => ["assignee"] | None => [] end)
  ++ (match up_status u with
      | Some v => if TaskStatus_eqb (t_status t) v then [] else ["status"]
      | None => [] end)
  ++ (match up_priority u with
      | Some v => if Priority_eqb (t_priority t) v then [] else ["priority"]
      | None => [] end)
  ++ (match up_dueDate u with Some _ => ["dueDate"] | None => [] end)
  ++ (match up_progress u with
      | Some v => if numberDiffers (t_progress t) v then ["progress"] else []
      | None => [] end)
  ++ (match up_actualHours u with
      | Some v => match t_actualHours t with
                  | Some w => if numberDiffers w v then ["actualHours"] else []
                  | None => ["actualHours"]
                  end
      | None => [] end).

(** [Object.assign(task, updateData)] (tasks.js:508) for the keys still in
    [updateData]. *)
Definition assignFields (u : TaskUpdate) (d : TaskDoc) : TaskDoc :=
  let d1 := match up_status u with
            | Some v => TaskModel.assignStatus v d
            | None => d
            end in
  TaskModel.onTask (fun t =>
    {| t_id := t_id t;
       t_title := match up_title u with Some v => v | None => t_title t end;
       t_description :=
         match up_description u with Some v => v | None => t_description t end;
       t_project := t_project t;
       t_assignee :=
         match up_assignee u with Some v => Some v | None => t_assignee t end;
       t_creator := t_creator t;
       t_status := t_status t;
       t_priority :=
         match up_priority u with Some v => v | None => t_priority t end;
       t_dueDate :=
         match up_dueDate u with Some v => Some v | None => t_dueDate t end;
       t_completedAt := t_completedAt t;
       t_actualHours :=
         match up_actualHours u with
         | Some v => Some v | None => t_actualHours t end;
       t_progress :=
         match up_progress u with Some v => v | None => t_progress t end;
       t_dependencies := t_dependencies t; t_comments := t_comments t;
       t_watchers := t_watchers t; t_activity := t_activity t;
     t_subtasks := t_subtasks t |}) d1.

(** [delete updateData.assignee] and [delete updateData.status]. *)
Definition withoutAssignee (u : TaskUpdate) : TaskUpdate :=
  {| up_title := up_title u; up_description := up_description u;
     up_assignee := None; up_status := up_status u;
     up_priority := up_priority u; up_dueDate := up_dueDate u;
     up_progress := up_progress u; up_actualHours := up_actualHours u |}.

Definition withoutStatus (u : TaskUpdate) : TaskUpdate :=
  {| up_title := up_title u; up_description := up_description u;
     up_assignee := up_assignee u; up_status := None;
     up_priority := up_priority u; up_dueDate := up_dueDate u;
     up_progress := up_progress u; up_actualHours := up_actualHours u |}.

(** [changedFields.join(', ')] *)
Fixpoint join (sep : string) (l : list string) : string :=
  match l with
  | [] => EmptyString
  | [x] => x
  | x :: rest => x ++ sep ++ join sep rest
  end.

(** [!isOwner && (!member || !member.permissions[flag])] *)
Definition lacksPermission (flag : Permissions -> bool) (project : Project)
    (user : User) : bool :=
  let isOwner := ProjectModel.isOwner project (u_id user) in
  let member := ProjectModel.findMember project (u_id user) in
  negb isOwner &&
  match member with
  | None => true
  | Some m => negb (flag (m_permissions m))
  end.

(** The end of PUT /api/tasks/:id, tasks.js:516-568: the save, the
    notifications for the assignee and the watchers, the event and the
    response. *)
Definition finishUpdate (now : Date) (user : User) (task4 : TaskDoc)
    : M Response :=
  task5 <- TaskModel.save now task4 ;;
  s' <- get ;;
  let t := td_task task5 in
  notifyAll now (assigneeAndWatchers user t s')
    (fun userId =>
       {| NotificationModel.ni_recipient := userId;
          NotificationModel.ni_sender := u_id user;
          NotificationModel.ni_type := task_updated;
          NotificationModel.ni_title := "Task Updated";
          NotificationModel.ni_message :=
            u_name user ++ " updated task " ++ quoted (t_title t);
          NotificationModel.ni_data :=
            {| nd_project := Some (t_project t); nd_task := Some (t_id t);
               nd_message := None |};
          NotificationModel.ni_priority := None;
          NotificationModel.ni_actionUrl :=
            Some ("/projects/" ++ idString (t_project t) ++ "/tasks/"
                    ++ idString (t_id t));
          NotificationModel.ni_actionText := None;
          NotificationModel.ni_channels := None;
          NotificationModel.ni_expiresAt := None |}) ;;;
  emit (ProjectRoom (t_project t)) "task_updated" ;;;
  ret {| status := 200; site := TaskUpdated |}.

(** PUT /api/tasks/:id, tasks.js:446-570. *)
Definition putTask (now : Date) (user : User) (id : ObjectId)
    (updateData : TaskUpdate) : M Response :=
  s <- get ;;
  match findPopulated id s with
  | None => throw (AppError "Task not found" 404)
  | Some (_, None) => nullProject
  | Some (task0, Some project) =>
      if lacksPermission canEditTasks project user
      then throw (AppError "Access denied - cannot edit tasks in this project" 403)
      else
        let task := loaded task0 in
        let changed := changedFields task0 updateData in
        (* special handling for assignee change *)
        r1 <- match up_assignee updateData with
              | Some assignee =>
                  if match t_assignee task0 with
                     | Some current => negb (same_id assignee current)
                     | None => true
                     end
                  then
                    let isNewAssigneeOwner := same_id (p_owner project) assignee in
                    let isNewAssigneeMember :=
                      ProjectModel.isMember project assignee in
                    if negb isNewAssigneeOwner && negb isNewAssigneeMember
                    then throw (AppError "Assignee must be a project member" 400)
                    else
                      task' <- TaskModel.assignTo now assignee (u_id user) task ;;
                      ret (task', withoutAssignee updateData)
                  else ret (task, updateData)
              | None => ret (task, updateData)
              end ;;
        (* special handling for status change *)
        r2 <- (let '(task1, updateData1) := r1 in
               match up_status updateData1 with
               | Some newStatus =>
                   if negb (TaskStatus_eqb newStatus (t_status (td_task task1)))
                   then
                     task' <- TaskModel.updateStatus now newStatus (u_id user) task1 ;;
                     ret (task', withoutStatus updateData1)
                   else ret (task1, updateData1)
               | None => ret (task1, updateData1)
               end) ;;
        let '(task2, updateData2) := r2 in
        (* update other fields, log the change *)
        let task3 := assignFields updateData2 task2 in
        let task4 :=
          match changed with
          | [] => task3
          | _ => TaskModel.addActivity now act_updated (u_id user)
                   ("Updated " ++ join ", " changed)
                   (MxFields changed) (MxFields changed) task3
          end in
        finishUpdate now user task4
  end.

(** [Task.updateMany({ 'dependencies.task': id },
                     { $pull: { dependencies: { task: id } } })] *)
Definition pullDependency (id : ObjectId) (t : Task) : Task :=
  if existsb (fun d => same_id (dep_task d) id) (t_dependencies t)
  then TaskModel.setDependencies
         (filter (fun d => negb (same_id (dep_task d) id)) (t_dependencies t)) t
  else t.

Definition removeFromDependencies (id : ObjectId) : M unit :=
  s <- get ;;
  setTasks (map (pullDependency id) (tasks s)) ;;;
  log (OpUpdateMany CTasks).

(** [task.deleteOne()] *)
Definition deleteOne (id : ObjectId) : M unit :=
  s <- get ;;
  setTasks (deleteById t_id id (tasks s)) ;;;
  log (OpDeleteOne CTasks id).

(** DELETE /api/tasks/:id, tasks.js:575-618. *)
Definition deleteTask (user : User) (id : ObjectId) : M Response :=
  s <- get ;;
  match findPopulated id s with
  | None => throw (AppError "Task not found" 404)
  | Some (_, None) => nullProject
  | Some (task, Some project) =>
      if lacksPermission canDeleteTasks project user
      then throw (AppError "Access denied - cannot delete tasks in this project" 403)
      else
        removeFromDependencies (t_id task) ;;;
        deleteOne (t_id task) ;;;
        emit (ProjectRoom (p_id project)) "task_deleted" ;;;
        ret {| status := 200; site := TaskDeleted |}
  end.

(** The elements of a [Set] filled with [add] in the order of [l]. *)
Definition setOf (l : list ObjectId) : list ObjectId :=
  fold_left (fun (acc : list ObjectId) x =>
               if includes acc x then acc else (acc ++ [x])%list) l [].

(** POST /api/tasks/:id/comments, tasks.js:623-718. The handler collects
    the users to notify as strings (tasks.js:665-684); [mentions] holds the
    ids of the request in the spelling of [toString()]. *)
Definition postComment (now : Date) (user : User) (id : ObjectId)
    (content : string) (mentions : list ObjectId) : M Response :=
  s <- get ;;
  match findPopulated id s with
  | None => throw (AppError "Task not found" 404)
  | Some (_, None) => nullProject
  | Some (task0, Some project) =>
      let isOwner := ProjectModel.isOwner project (u_id user) in
      let isMember := ProjectModel.isMember project (u_id user) in
      if negb isOwner && negb isMember
      then throw (AppError "Access denied - not a project member" 403)
      else
        task <- TaskModel.addComment now (u_id user) content mentions
                  (loaded task0) ;;
        let t := td_task task in
        let newCommentId :=
          match nth_error (t_comments t) (List.length (t_comments t) - 1) with
          | Some c => c_id c
          | None => 0%N
          end in
        let notifyUsers :=
          setOf
            ((match t_assignee t with
              | Some a => if negb (same_id a (u_id user)) then [a] else []
              | None => []
              end)
             ++ filter (fun m => negb (same_id m (u_id user))) mentions
             ++ filter (fun w => negb (same_id w (u_id user))) (t_watchers t)) in
        notifyAll now notifyUsers
          (fun userId =>
             {| NotificationModel.ni_recipient := userId;
                NotificationModel.ni_sender := u_id user;
                NotificationModel.ni_type := task_comment;
                NotificationModel.ni_title := "New Task Comment";
                NotificationModel.ni_message :=
                  u_name user ++ " commented on task " ++ quoted (t_title t);
                NotificationModel.ni_data :=
                  {| nd_project := Some (t_project t); nd_task := Some (t_id t);
                     nd_message := None |};
                NotificationModel.ni_priority := None;
                NotificationModel.ni_actionUrl :=
                  Some ("/projects/" ++ idString (t_project t) ++ "/tasks/"
                          ++ idString (t_id t) ++ "#comment-"
                          ++ idString newCommentId);
                NotificationModel.ni_actionText := None;
                NotificationModel.ni_channels := None;
                NotificationModel.ni_expiresAt := None |}) ;;;
        emit (ProjectRoom (t_project t)) "task_comment_added" ;;;
        ret {| status := 201; site := CommentAdded |}
  end.

(** PUT /api/tasks/:id/status, tasks.js:723-821. *)
Definition putTaskStatus (now : Date) (user : User) (id : ObjectId)
    (newStatus : TaskStatus) : M Response :=
  s <- get ;;
  match findPopulated id s with
  | None => throw (AppError "Task not found" 404)
  | Some (_, None) => nullProject
  | Some (task0, Some project) =>
      let isOwner := ProjectModel.isOwner project (u_id user) in
      let isMember := ProjectModel.isMember project (u_id user) in
      let isAssignee :=
        match t_assignee task0 with
        | Some a => same_id a (u_id user)
        | None => false
        end in
      if negb isOwner && negb isMember && negb isAssignee
      then throw (AppError "Access denied" 403)
      else
        task <- TaskModel.updateStatus now newStatus (u_id user) (loaded task0) ;;
        s' <- get ;;
        let t := td_task task in
        (if TaskStatus_eqb newStatus completed
         then notifyAll now (assigneeAndWatchers user t s')
                (fun userId =>
                   {| NotificationModel.ni_recipient := userId;
                      NotificationModel.ni_sender := u_id user;
                      NotificationModel.ni_type := task_completed;
                      NotificationModel.ni_title := "Task Completed";
                      NotificationModel.ni_message :=
                        u_name user ++ " completed task " ++ quoted (t_title t);
                      NotificationModel.ni_data :=
                        {| nd_project := Some (t_project t);
                           nd_task := Some (t_id t); nd_message := None |};
                      NotificationModel.ni_priority := None;
                      NotificationModel.ni_actionUrl := None;
                      NotificationModel.ni_actionText := None;
                      NotificationModel.ni_channels := None;
                      NotificationModel.ni_expiresAt := None |})
         else ret tt) ;;;
        emit (ProjectRoom (t_project t)) "task_status_updated" ;;;
        ret {| status := 200; site := StatusUpdated |}
  end.

End TaskRoutes.

(** ** [routes/messages.js] *)

Module MessageRoutes.

(** [Message.findById(id).populate('project', 'members owner')] *)
Definition findPopulated (id : ObjectId) (s : Store)
    : option (Message * option Project) :=
  match findById msg_id id (messages s) with
  | Some message =>
      Some (message, findById p_id (msg_project message) (projects s))
  | None => None
  end.

(** [.populate('readBy.user', ...)]: what [read.user] holds in memory for
    each entry of [readBy]. *)
Definition populateReaders (message : Message) (s : Store)
    : list (Ref User) :=
  map (fun read =>
         match findById u_id (rd_user read) (users s) with
         | Some reader => RefDoc reader
         | None => RefNull
         end)
      (msg_readBy message).

(** GET /api/messages/:id, messages.js:303-348. The query populates
    [readBy.user] (messages.js:315) before [markAsRead] looks for the
    requester's entry. *)
Definition getMessage (now : Date) (user : User) (id : ObjectId) : M Response :=
  s <- get ;;
  match findPopulated id s with
  | None => throw (AppError "Message not found" 404)
  | Some (_, None) => TaskRoutes.nullProject
  | Some (message, Some project) =>
      let isOwner := ProjectModel.isOwner project (u_id user) in
      let isMember := ProjectModel.isMember project (u_id user) in
      if negb isOwner && negb isMember
      then throw (AppError "Access denied - not a project member" 403)
      else
        MessageModel.markAsRead now (u_id user)
          (populateReaders message s) message ;;;
        ret {| status := 200; site := MessageDetails |}
  end.

(** PUT /api/messages/:id, messages.js:353-401. *)
Definition putMessage (now : Date) (user : User) (id : ObjectId)
    (content : string) : M Response :=
  s <- get ;;
  match findPopulated id s with
  | None => throw (AppError "Message not found" 404)
  | Some (_, None) => TaskRoutes.nullProject
  | Some (message, Some project) =>
      let isAuthor := same_id (msg_author message) (u_id user) in
      let isProjectOwner := same_id (p_owner project) (u_id user) in
      if negb isAuthor && negb isProjectOwner
      then throw (AppError "Access denied - can only edit your own messages" 403)
      else
        MessageModel.editContent now content message ;;;
        emit (ProjectRoom (p_id project)) "message_edited" ;;;
        ret {| status := 200; site := MessageEdited |}
  end.

Inductive ReactionAction := add | remove.

(** POST /api/messages/:id/reactions, messages.js:448-504. *)
Definition postReaction (now : Date) (user : User) (id : ObjectId)
    (emoji : string) (action : ReactionAction) : M Response :=
  s <- get ;;
  match findPopulated id s with
  | None => throw (AppError "Message not found" 404)
  | Some (_, None) => TaskRoutes.nullProject
  | Some (message, Some project) =>
      let isOwner := ProjectModel.isOwner project (u_id user) in
      let isMember := ProjectModel.isMember project (u_id user) in
      if negb isOwner && negb isMember
      then throw (AppError "Access denied - not a project member" 403)
      else
        match action with
        | add => MessageModel.addReaction now emoji (u_id user) message
        | remove => MessageModel.removeReaction now emoji (u_id user) message
        end ;;;
        emit (ProjectRoom (p_id project)) "message_reaction" ;;;
        ret {| status := 200; site := ReactionUpdated |}
  end.

(** The handler of PUT /api/messages/project/:projectId/read-all,
    messages.js:675-702: [Message.updateMany] with [$addToSet]. *)
Definition readAllHandler (now : Date) (user : User) (projectId : ObjectId)
    : M Response :=
  s <- get ;;
  setMessages
    (map (fun m =>
            if same_id (msg_project m) projectId
               && negb (msg_isDeleted m)
               && negb (existsb (fun r => same_id (rd_user r) (u_id user))
                          (msg_readBy m))
               && negb (same_id (msg_author m) (u_id user))
            then MessageModel.setReadBy
                   (msg_readBy m ++ [{| rd_user := u_id user; rd_readAt := now |}]) m
            else m)
         (messages s)) ;;;
  log (OpUpdateMany CMessages) ;;;
  ret {| status := 200; site := AllMessagesRead |}.

(** PUT /api/messages/project/:projectId/read-all, messages.js:667-703. *)
Definition putReadAll (now : Date) (user : User) (projectId : ObjectId)
    : M Response :=
  AuthMiddleware.requireProjectMember user (Some projectId)
    (fun _ => readAllHandler now user projectId).

End MessageRoutes.

(** ** Properties stated about the code *)

(** The percentage as the project documentation states it:
    [round (100 * completed / total)] on exact rationals, halves rounded
    up, and [0] without tasks. *)
Definition statedPercentage (completedCount totalCount : nat) : Z :=
  if (Z.of_nat totalCount =? 0)%Z then 0
  else (200 * Z.of_nat completedCount + Z.of_nat totalCount)
         / (2 * Z.of_nat totalCount).

(** A reaction entry is well formed: its count is the number of its users,
    no user occurs twice, and it has at least one user. *)
Definition reactionInv (r : Reaction) : Prop :=
  r_count r = Z.of_nat (List.length (r_users r))
  /\ NoDup (r_users r)
  /\ r_users r <> [].


(** The user document of [id] is stored. *)
Definition userExists (s : Store) (id : ObjectId) : Prop :=
  findById u_id id (users s) <> None.

(** A request carries no usable bearer token: none at all, or one that
    [jwt.verify] rejects as invalid or expired. *)
Definition noValidToken (jwt_verify : string -> AuthMiddleware.JwtResult)
    (authorization : option string) : Prop :=
  match AuthMiddleware.bearerToken authorization with
  | None => True
  | Some token =>
      jwt_verify token = AuthMiddleware.JwtThrows "JsonWebTokenError"
      \/ jwt_verify token = AuthMiddleware.JwtThrows "TokenExpiredError"
  end.

(** The routes declared public by the server and the auth router. *)
Definition publicRoutes : list Server.Route :=
  [Server.GetHealth; Server.PostRegister; Server.PostLogin;
   Server.PostRefresh; Server.PostForgotPassword; Server.PostResetPassword].

(** What a store keeps when only projects, the log and the emitted events
    may have changed. *)
Definition sameDocuments (s s' : Store) : Prop :=
  users s' = users s /\ tasks s' = tasks s /\ messages s' = messages s
  /\ notifications s' = notifications s /\ nextId s' = nextId s.

(** A request that reached handler [h] is answered 403 and the store is
    left as it was. *)
Definition denied (development : bool) (h : M Response) (s : Store) : Prop :=
  exists r, respond development h s = (r, s) /\ status r = 403%nat.

(** Closes a goal [denied development h s] once [h s] is reduced to a
    thrown 403. *)
Ltac deny :=
  unfold denied, respond; cbv [throw errorHandler]; cbn;
  match goal with
  | |- context [if ?development then _ else _] =>
      destruct development; eexists; split; reflexivity
  end.

(** ** Sample data *)

Module Sample.
Local Open Scope N_scope.

Definition noPermissions : Permissions :=
  {| canCreateTasks := false; canEditTasks := false; canDeleteTasks := false;
     canManageMembers := false; canEditProject := false |}.

Definition zeroProgress : Progress :=
  {| totalTasks := JsNumber.ofZ 0; completedTasks := JsNumber.ofZ 0;
     percentage := JsNumber.ofZ 0 |}.

Definition user (id : ObjectId) (name : string) : User :=
  {| u_id := id; u_name := name; u_isActive := true; u_notifyEmail := true;
     u_notifyPush := false |}.

Definition alice : User := user 1 "Alice".
Definition bob : User := user 2 "Bob".
Definition carol : User := user 3 "Carol".

(** A project owned by Alice in which Bob is a viewer. *)
Definition project : Project :=
  {| p_id := 10; p_name := "Launch"; p_owner := 1;
     p_members := [{| m_user := 2; m_role := RoleViewer; m_joinedAt := 0%Z;
                      m_permissions := noPermissions |}];
     p_progress := zeroProgress;
     p_statistics := {| totalMessages := 0%Z; totalFiles := 0%Z;
                        lastActivity := 0%Z |} |}.

Definition task (id : ObjectId) (st : TaskStatus) (assignee : option ObjectId)
    (deps : list Dependency) : Task :=
  {| t_id := id; t_title := "Write release notes"; t_description := "Draft";
     t_project := 10; t_assignee := assignee; t_creator := 1; t_status := st;
     t_priority := medium; t_dueDate := None;
     t_completedAt := match st with completed => Some 5%Z | _ => None end;
     t_actualHours := None; t_progress := JsNumber.ofZ 0;
     t_dependencies := deps; t_comments := []; t_watchers := [];
     t_activity := []; t_subtasks := [] |}.

Definition message (id author : ObjectId) (rs : list Reaction) : Message :=
  {| msg_id := id; msg_content := "Ship it"; msg_project := 10;
     msg_author := author; msg_parentMessage := None; msg_mentions := [];
     msg_reactions := rs; msg_isEdited := false; msg_editedAt := None;
     msg_editHistory := []; msg_isDeleted := false; msg_deletedAt := None;
     msg_readBy := []; msg_isPinned := false; msg_pinnedAt := None;
     msg_pinnedBy := None |}.

Definition notification (isRead : bool) (readAt : option Date) : Notification :=
  {| n_id := 300; n_recipient := 2; n_sender := Some 1; n_type := task_assigned;
     n_title := "New Task Assigned"; n_message := "Alice assigned you a task";
     n_data := {| nd_project := Some 10; nd_task := Some 100;
                  nd_message := None |};
     n_isRead := isRead; n_readAt := readAt; n_priority := medium;
     n_actionUrl := None; n_actionText := None; n_expiresAt := Some 1000%Z;
     n_channels := {| ch_inApp := true; ch_email := false; ch_push := false |} |}.

Definition store (ts : list Task) (ms : list Message) : Store :=
  {| users := [alice; bob; carol]; projects := [project]; tasks := ts;
     messages := ms; notifications := []; nextId := 1000; oplog := [];
     emitted := [] |}.

(** Tasks [first .. first + n - 1] of the project, all with status [st]. *)
Definition tasksWith (st : TaskStatus) (first n : nat) : list Task :=
  map (fun i => task (N.of_nat i) st None []) (seq first n).

(** A project with 40 tasks, 22 of them completed; task 122 is the first
    one still to do. *)
Definition store_22_of_40 : Store :=
  store (tasksWith completed 100 22 ++ tasksWith todo 122 18) [].

(** A message of Alice on which Bob reacted. *)
Definition reacted : Message :=
  message 200 1 [{| r_emoji := "ok"; r_users := [2]; r_count := 1%Z |}].

(** A token check that accepts the token ["good"] for Alice, reports
    ["old"] as expired and rejects everything else. *)
Definition jwt_verify (token : string) : AuthMiddleware.JwtResult :=
  if String.eqb token "good" then AuthMiddleware.Decoded (Some 1)
  else if String.eqb token "old" then AuthMiddleware.JwtThrows "TokenExpiredError"
  else AuthMiddleware.JwtThrows "JsonWebTokenError".

End Sample.

(* ================================================================== *)
(** * Part I, continued: further model, middleware and route code *)
(* ================================================================== *)

(** ** [models/Project.js]: members and permissions *)

Module ProjectMembers.

Definition setMembers (ms : list Member) (p : Project) : Project :=
  {| p_id := p_id p; p_name := p_name p; p_owner := p_owner p;
     p_members := ms; p_progress := p_progress p;
     p_statistics := p_statistics p |}.

(** The names of the five permission flags, as passed to [hasPermission]
    and to [requireProjectPermission]. *)
Inductive PermissionKey :=
  | KCreateTasks | KEditTasks | KDeleteTasks | KManageMembers | KEditProject.

(** [permissions[key]] *)
Definition flagOf (k : PermissionKey) (ps : Permissions) : bool :=
  match k with
  | KCreateTasks => canCreateTasks ps
  | KEditTasks => canEditTasks ps
  | KDeleteTasks => canDeleteTasks ps
  | KManageMembers => canManageMembers ps
  | KEditProject => canEditProject ps
  end.

(** The [permissions] argument of [addMember]: the flags the caller
    overrides; [{}] overrides none. *)
Record PermissionOverrides := {
  o_canCreateTasks : option bool;
  o_canEditTasks : option bool;
  o_canDeleteTasks : option bool;
  o_canManageMembers : option bool;
  o_canEditProject : option bool
}.

Definition noOverrides : PermissionOverrides :=
  {| o_canCreateTasks := None; o_canEditTasks := None;
     o_canDeleteTasks := None; o_canManageMembers := None;
     o_canEditProject := None |}.

Definition orDefault (o : option bool) (d : bool) : bool :=
  match o with Some b => b | None => d end.

(** [['owner', 'admin'].includes(role)] *)
Definition ownerOrAdmin (role : Role) : bool :=
  match role with RoleOwner | RoleAdmin => true | _ => false end.

(** [role !== 'viewer'] *)
Definition notViewer (role : Role) : bool :=
  match role with RoleViewer => false | _ => true end.

(** [defaultPermissions] of [addMember], Project.js:192-198. *)
Definition defaultPermissions (role : Role) : Permissions :=
  {| canCreateTasks := notViewer role;
     canEditTasks := notViewer role;
     canDeleteTasks := ownerOrAdmin role;
     canManageMembers := ownerOrAdmin role;
     canEditProject := ownerOrAdmin role |}.

(** [{ ...defaultPermissions, ...permissions }] *)
Definition withOverrides (d : Permissions) (o : PermissionOverrides)
    : Permissions :=
  {| canCreateTasks := orDefault (o_canCreateTasks o) (canCreateTasks d);
     canEditTasks := orDefault (o_canEditTasks o) (canEditTasks d);
     canDeleteTasks := orDefault (o_canDeleteTasks o) (canDeleteTasks d);
     canManageMembers := orDefault (o_canManageMembers o) (canManageMembers d);
     canEditProject := orDefault (o_canEditProject o) (canEditProject d) |}.

(** [projectSchema.methods.addMember], Project.js:185-207; [joinedAt] takes
    its default [Date.now]. *)
Definition addMember (now : Date) (userId : ObjectId) (role : Role)
    (permissions : PermissionOverrides) (p : Project) : M Project :=
  match ProjectModel.findMember p userId with
  | Some _ => throw (PlainError "User is already a member of this project")
  | None =>
      ProjectModel.save
        (setMembers
           (p_members p ++
              [{| m_user := userId; m_role := role; m_joinedAt := now;
                  m_permissions :=
                    withOverrides (defaultPermissions role) permissions |}])
           p)
  end.

(** [projectSchema.methods.removeMember], Project.js:210-217. *)
Definition removeMember (userId : ObjectId) (p : Project) : M Project :=
  if same_id (p_owner p) userId
  then throw (PlainError "Cannot remove project owner")
  else
    ProjectModel.save
      (setMembers
         (filter (fun member => negb (same_id (m_user member) userId))
                 (p_members p))
         p).

(** [rolePermissions] of [updateMemberRole], Project.js:234-239. *)
Definition rolePermissions (role : Role) : Permissions :=
  match role with
  | RoleOwner | RoleAdmin =>
      {| canCreateTasks := true; canEditTasks := true; canDeleteTasks := true;
         canManageMembers := true; canEditProject := true |}
  | RoleMember =>
      {| canCreateTasks := true; canEditTasks := true; canDeleteTasks := false;
         canManageMembers := false; canEditProject := false |}
  | RoleViewer =>
      {| canCreateTasks := false; canEditTasks := false;
         canDeleteTasks := false; canManageMembers := false;
         canEditProject := false |}
  end.

(** [role !== 'owner'] *)
Definition notOwnerRole (role : Role) : bool :=
  match role with RoleOwner => false | _ => true end.

(** [{ ...member.permissions, ...rolePermissions[newRole] }]: the table
    names all five flags, so every flag of the member is overwritten. *)
Definition withRole (newRole : Role) (member : Member) : Member :=
  {| m_user := m_user member; m_role := newRole;
     m_joinedAt := m_joinedAt member;
     m_permissions :=
       {| canCreateTasks := canCreateTasks (rolePermissions newRole);
          canEditTasks := canEditTasks (rolePermissions newRole);
          canDeleteTasks := canDeleteTasks (rolePermissions newRole);
          canManageMembers := canManageMembers (rolePermissions newRole);
          canEditProject := canEditProject (rolePermissions newRole) |} |}.

(** [projectSchema.methods.updateMemberRole], Project.js:220-243. *)
Definition updateMemberRole (userId : ObjectId) (newRole : Role) (p : Project)
    : M Project :=
  match ProjectModel.findMember p userId with
  | None => throw (PlainError "User is not a member of this project")
  | Some _ =>
      if same_id (p_owner p) userId && notOwnerRole newRole
      then throw (PlainError "Cannot change owner role")
      else
        ProjectModel.save
          (setMembers
             (updateFirst (fun m => same_id (m_user m) userId)
                          (withRole newRole) (p_members p))
             p)
  end.

(** [projectSchema.methods.hasPermission], Project.js:246-257. *)
Definition hasPermission (p : Project) (userId : ObjectId)
    (permission : PermissionKey) : bool :=
  if same_id (p_owner p) userId then true
  else match ProjectModel.findMember p userId with
       | None => false
       | Some member => flagOf permission (m_permissions member) || false
       end.

(** [requireProjectPermission(permission)], auth.js:140-184, followed by
    the rest of the route. [reqProject] is [req.project] as an earlier
    middleware left it, [projectId] is
    [req.params.projectId || req.body.projectId]. *)
Definition requireProjectPermission (permission : PermissionKey) (user : User)
    (reqProject : option Project) (projectId : option ObjectId)
    (next : Project -> M Response) : M Response :=
  let check (project : Project) : M Response :=
    if negb (hasPermission project (u_id user) permission)
    then ret {| status := 403; site := PermissionDenied |}
    else next project in
  match reqProject with
  | Some project => check project
  | None =>
      match projectId with
      | None => ret {| status := 400; site := PermissionProjectIdRequired |}
      | Some id =>
          s <- get ;;
          match findById p_id id (projects s) with
          | None => ret {| status := 404; site := PermissionProjectNotFound |}
          | Some project => check project
          end
      end
  end.

(** No user is listed twice among the members. *)
Definition distinctMembers (p : Project) : Prop :=
  NoDup (map m_user (p_members p)).

End ProjectMembers.

(** ** [models/Task.js]: watchers, subtasks and due dates *)

Module TaskExtras.

(** [taskSchema.methods.addWatcher], Task.js:340-345. *)
Definition addWatcher (now : Date) (userId : ObjectId) (d : TaskDoc)
    : M TaskDoc :=
  TaskModel.save now
    (if negb (includes (t_watchers (td_task d)) userId)
     then TaskModel.onTask
            (fun t => TaskModel.setWatchers (t_watchers t ++ [userId]) t) d
     else d).

(** [taskSchema.methods.removeWatcher], Task.js:348-351. *)
Definition removeWatcher (now : Date) (userId : ObjectId) (d : TaskDoc)
    : M TaskDoc :=
  TaskModel.save now
    (TaskModel.onTask
       (fun t => TaskModel.setWatchers
                   (filter (fun watcher => negb (same_id watcher userId))
                           (t_watchers t)) t) d).

(** POST /api/tasks, tasks.js:296-399, up to its permission check
    (tasks.js:303-313); [create] is the rest of the handler: the check of
    the assignee, the new task, its notifications, the event and the
    response. *)
Definition postTask (user : User) (projectId : ObjectId)
    (create : Project -> M Response) : M Response :=
  s <- get ;;
  match findById p_id projectId (projects s) with
  | None => throw (AppError "Project not found" 404)
  | Some project =>
      if TaskRoutes.lacksPermission canCreateTasks project user
      then throw (AppError
             "Access denied - cannot create tasks in this project" 403)
      else create project
  end.

(** POST /api/tasks/:id/subtasks, tasks.js:826-879. *)
Definition postSubtask (now : Date) (user : User) (id : ObjectId)
    (title : string) : M Response :=
  s <- get ;;
  match TaskRoutes.findPopulated id s with
  | None => throw (AppError "Task not found" 404)
  | Some (_, None) => TaskRoutes.nullProject
  | Some (task, Some project) =>
      let isOwner := ProjectModel.isOwner project (u_id user) in
      let isMember := ProjectModel.isMember project (u_id user) in
      if negb isOwner && negb isMember
      then throw (AppError "Access denied - not a project member" 403)
      else
        TaskModel.addSubtask now title (loaded task) ;;;
        emit (ProjectRoom (p_id project)) "subtask_added" ;;;
        ret {| status := 201; site := SubtaskAdded |}
  end.

(** PUT /api/tasks/:id/subtasks/:subtaskId/toggle, tasks.js:884-935. After
    a [toggleSubtask] that did not throw, [task.subtasks.id(subtaskId)] is
    the toggled subtask. *)
Definition putSubtaskToggle (now : Date) (user : User) (id : ObjectId)
    (subtaskId : ObjectId) : M Response :=
  s <- get ;;
  match TaskRoutes.findPopulated id s with
  | None => throw (AppError "Task not found" 404)
  | Some (_, None) => TaskRoutes.nullProject
  | Some (task, Some project) =>
      let isOwner := ProjectModel.isOwner project (u_id user) in
      let isMember := ProjectModel.isMember project (u_id user) in
      if negb isOwner && negb isMember
      then throw (AppError "Access denied - not a project member" 403)
      else
        TaskModel.toggleSubtask now subtaskId (loaded task) ;;;
        emit (ProjectRoom (p_id project)) "subtask_toggled" ;;;
        ret {| status := 200; site := SubtaskToggled |}
  end.

(** POST /api/tasks/:id/watch, tasks.js:940-982. *)
Definition postWatch (now : Date) (user : User) (id : ObjectId) : M Response :=
  s <- get ;;
  match TaskRoutes.findPopulated id s with
  | None => throw (AppError "Task not found" 404)
  | Some (_, None) => TaskRoutes.nullProject
  | Some (task, Some project) =>
      let isOwner := ProjectModel.isOwner project (u_id user) in
      let isMember := ProjectModel.isMember project (u_id user) in
      if negb isOwner && negb isMember
      then throw (AppError "Access denied - not a project member" 403)
      else
        let isWatching := includes (t_watchers task) (u_id user) in
        (if isWatching
         then removeWatcher now (u_id user) (loaded task)
         else addWatcher now (u_id user) (loaded task)) ;;;
        ret {| status := 200; site := WatchToggled |}
  end.

(** The virtual [subtaskProgress], Task.js:221-225. *)
Definition subtaskProgress (subtasks : list Subtask)
    (progress : JsNumber.Number) : JsNumber.Number :=
  match subtasks with
  | [] => progress
  | _ =>
      let completedSubtasks :=
        List.length (filter st_completed subtasks) in
      JsNumber.Math_round
        (JsNumber.mul
           (JsNumber.div (JsNumber.ofNat completedSubtasks)
                         (JsNumber.ofNat (List.length subtasks)))
           (JsNumber.ofZ 100))
  end.

(** The virtual [isOverdue], Task.js:207-209, as the truth value of what it
    returns ([null] for a task without due date). *)
Definition isOverdue (now : Date) (t : Task) : bool :=
  match t_dueDate t with
  | None => false
  | Some dueDate =>
      negb (TaskStatus_eqb (t_status t) completed) && (dueDate <? now)%Z
  end.

(** [{ dueDate: 1 }]: ascending by due date. The query only returns tasks
    that have one. *)
Definition dueBefore (a b : Task) : bool :=
  match t_dueDate a, t_dueDate b with
  | Some x, Some y => (x <=? y)%Z
  | None, _ => true
  | Some _, None => false
  end.

Fixpoint insertByDue (t : Task) (sorted : list Task) : list Task :=
  match sorted with
  | [] => [t]
  | x :: rest =>
      if dueBefore t x then t :: x :: rest else x :: insertByDue t rest
  end.

(** [.sort({ dueDate: 1 })]; tasks due at the same instant keep the order
    in which they are stored. *)
Definition sortByDue (ts : list Task) : list Task :=
  fold_right insertByDue [] ts.

(** [taskSchema.statics.getOverdueTasks], Task.js:384-398, up to the
    population of [assignee] and [project]. *)
Definition getOverdueTasks (now : Date) (projectId : option ObjectId)
    (s : Store) : list Task :=
  sortByDue
    (filter
       (fun t =>
          match t_dueDate t with
          | Some dueDate => (dueDate <? now)%Z
          | None => false
          end
          && negb (TaskStatus_eqb (t_status t) completed
                   || TaskStatus_eqb (t_status t) cancelled)
          && match projectId with
             | Some pid => same_id (t_project t) pid
             | None => true
             end)
       (tasks s)).

End TaskExtras.

(** ** [models/Message.js]: pinning, deletion and unread messages *)

Module MessageExtras.

Definition setPin (isPinned : bool) (pinnedAt : option Date)
    (pinnedBy : option ObjectId) (m : Message) : Message :=
  {| msg_id := msg_id m; msg_content := msg_content m;
     msg_project := msg_project m; msg_author := msg_author m;
     msg_parentMessage := msg_parentMessage m; msg_mentions := msg_mentions m;
     msg_reactions := msg_reactions m; msg_isEdited := msg_isEdited m;
     msg_editedAt := msg_editedAt m; msg_editHistory := msg_editHistory m;
     msg_isDeleted := msg_isDeleted m; msg_deletedAt := msg_deletedAt m;
     msg_readBy := msg_readBy m; msg_isPinned := isPinned;
     msg_pinnedAt := pinnedAt; msg_pinnedBy := pinnedBy |}.

Definition setDeleted (deletedAt : Date) (m : Message) : Message :=
  {| msg_id := msg_id m; msg_content := msg_content m;
     msg_project := msg_project m; msg_author := msg_author m;
     msg_parentMessage := msg_parentMessage m; msg_mentions := msg_mentions m;
     msg_reactions := msg_reactions m; msg_isEdited := msg_isEdited m;
     msg_editedAt := msg_editedAt m; msg_editHistory := msg_editHistory m;
     msg_isDeleted := true; msg_deletedAt := Some deletedAt;
     msg_readBy := msg_readBy m; msg_isPinned := msg_isPinned m;
     msg_pinnedAt := msg_pinnedAt m; msg_pinnedBy := msg_pinnedBy m |}.

(** [messageSchema.methods.pin], Message.js:259-264. *)
Definition pin (now : Date) (userId : ObjectId) (m : Message) : M Message :=
  MessageModel.save now [] (setPin true (Some now) (Some userId) m).

(** [messageSchema.methods.unpin], Message.js:267-272. *)
Definition unpin (now : Date) (m : Message) : M Message :=
  MessageModel.save now [] (setPin false None None m).

(** [messageSchema.methods.softDelete], Message.js:275-279. *)
Definition softDelete (now : Date) (m : Message) : M Message :=
  MessageModel.save now [] (setDeleted now m).

(** The [content] of the JSON form of a message: the [toJSON] transform,
    Message.js:122-131, replaces it for a deleted message. *)
Definition jsonContent (m : Message) : string :=
  if msg_isDeleted m then "[Message deleted]" else msg_content m.

(** DELETE /api/messages/:id, messages.js:406-443. *)
Definition deleteMessage (now : Date) (user : User) (id : ObjectId)
    : M Response :=
  s <- get ;;
  match MessageRoutes.findPopulated id s with
  | None => throw (AppError "Message not found" 404)
  | Some (_, None) => TaskRoutes.nullProject
  | Some (message, Some project) =>
      let isAuthor := same_id (msg_author message) (u_id user) in
      let isProjectOwner := same_id (p_owner project) (u_id user) in
      if negb isAuthor && negb isProjectOwner
      then throw (AppError "Access denied - can only delete your own messages" 403)
      else
        softDelete now message ;;;
        emit (ProjectRoom (p_id project)) "message_deleted" ;;;
        ret {| status := 200; site := MessageDeleted |}
  end.

(** GET /api/messages/:id/replies, messages.js:567-635. After the
    membership check the handler only reads. *)
Definition getReplies (user : User) (id : ObjectId) : M Response :=
  s <- get ;;
  match MessageRoutes.findPopulated id s with
  | None => throw (AppError "Parent message not found" 404)
  | Some (_, None) => TaskRoutes.nullProject
  | Some (_, Some project) =>
      let isOwner := ProjectModel.isOwner project (u_id user) in
      let isMember := ProjectModel.isMember project (u_id user) in
      if negb isOwner && negb isMember
      then throw (AppError "Access denied - not a project member" 403)
      else ret {| status := 200; site := ReplyList |}
  end.

(** [member && member.role === 'admin'] *)
Definition isAdminMember (project : Project) (uid : ObjectId) : bool :=
  match ProjectModel.findMember project uid with
  | Some member => match m_role member with RoleAdmin => true | _ => false end
  | None => false
  end.

(** POST /api/messages/:id/pin, messages.js:509-562. *)
Definition postPin (now : Date) (user : User) (id : ObjectId) : M Response :=
  s <- get ;;
  match MessageRoutes.findPopulated id s with
  | None => throw (AppError "Message not found" 404)
  | Some (_, None) => TaskRoutes.nullProject
  | Some (message, Some project) =>
      let isOwner := ProjectModel.isOwner project (u_id user) in
      let isAdmin := isAdminMember project (u_id user) in
      if negb isOwner && negb isAdmin
      then throw (AppError
             "Access denied - only project owners and admins can pin messages"
             403)
      else
        let wasPinned := msg_isPinned message in
        (if wasPinned then unpin now message
         else pin now (u_id user) message) ;;;
        emit (ProjectRoom (p_id project)) "message_pin_toggled" ;;;
        ret {| status := 200; site := PinToggled |}
  end.

(** [editContent] once for each of [contents], in order. *)
Fixpoint editAll (now : Date) (contents : list string) (m : Message)
    : M Message :=
  match contents with
  | [] => ret m
  | c :: later =>
      m' <- MessageModel.editContent now c m ;; editAll now later m'
  end.

(** [Project.find({ $or: [{ owner: id }, { 'members.user': id }] })
      .select('_id')] *)
Definition userProjects (uid : ObjectId) (s : Store) : list ObjectId :=
  map p_id
    (filter (fun p => ProjectModel.isOwner p uid || ProjectModel.isMember p uid)
            (projects s)).

(** The conditions on a message shared by the unread queries:
    [isDeleted: false], ['readBy.user': { $ne: id }], [author: { $ne: id }]. *)
Definition isUnreadFor (uid : ObjectId) (m : Message) : bool :=
  negb (msg_isDeleted m)
  && negb (existsb (fun r => same_id (rd_user r) uid) (msg_readBy m))
  && negb (same_id (msg_author m) uid).

(** The count sent by GET /api/messages/unread/count,
    messages.js:640-662. *)
Definition unreadCount (user : User) (s : Store) : nat :=
  List.length
    (filter (fun m => includes (userProjects (u_id user) s) (msg_project m)
                      && isUnreadFor (u_id user) m)
            (messages s)).

(** The messages of one project that are unread for a user. *)
Definition unreadIn (uid : ObjectId) (projectId : ObjectId) (s : Store)
    : list Message :=
  filter (fun m => same_id (msg_project m) projectId && isUnreadFor uid m)
         (messages s).

(** No user has two entries in [readBy]. *)
Definition readOnce (m : Message) : Prop :=
  NoDup (map rd_user (msg_readBy m)).

End MessageExtras.

(** ** [routes/tasks.js] and [routes/messages.js]: listings *)

Module Listings.

(** The projects a listing is restricted to, as GET /api/tasks
    (tasks.js:207-233) and the handler of GET /api/messages/search
    (messages.js:761-787) choose them: the project named in the query,
    which the requester must own or be a member of, or else the
    requester's projects. [list] is the rest of the handler: the other
    filters, the query and the response. *)
Definition listScope (user : User) (project : option ObjectId)
    (list : list ObjectId -> M Response) : M Response :=
  s <- get ;;
  match project with
  | Some projectId =>
      match findById p_id projectId (projects s) with
      | None => throw (AppError "Project not found" 404)
      | Some projectDoc =>
          let isOwner := ProjectModel.isOwner projectDoc (u_id user) in
          let isMember := ProjectModel.isMember projectDoc (u_id user) in
          if negb isOwner && negb isMember
          then throw (AppError "Access denied - not a project member" 403)
          else list [projectId]
      end
  | None => list (MessageExtras.userProjects (u_id user) s)
  end.

(** GET /api/tasks, tasks.js:124-291. *)
Definition getTasks (user : User) (project : option ObjectId)
    (list : list ObjectId -> M Response) : M Response :=
  listScope user project list.

(** The handler of GET /api/messages/search, messages.js:708-828. The
    router registers it after GET /api/messages/:id. *)
Definition searchMessages (user : User) (project : option ObjectId)
    (list : list ObjectId -> M Response) : M Response :=
  listScope user project list.

End Listings.

(** ** [models/Notification.js]: queries, and [routes/notification.js] *)

Module NotificationExtras.

(** [{ expiresAt: null }] or [{ expiresAt: { $gt: now } }] *)
Definition notExpired (now : Date) (n : Notification) : bool :=
  match n_expiresAt n with
  | None => true
  | Some e => (now <? e)%Z
  end.

(** [query['data.project'] = projectId] when a project is given. *)
Definition ofProject (projectId : option ObjectId) (n : Notification) : bool :=
  match projectId with
  | None => true
  | Some pid =>
      match nd_project (n_data n) with
      | Some p => same_id p pid
      | None => false
      end
  end.

(** [notificationSchema.statics.getUnreadCountForUser],
    Notification.js:300-315. *)
Definition getUnreadCountForUser (now : Date) (userId : ObjectId)
    (projectId : option ObjectId) (s : Store) : nat :=
  List.length
    (filter (fun n => same_id (n_recipient n) userId
                      && negb (n_isRead n)
                      && notExpired now n
                      && ofProject projectId n)
            (notifications s)).

(** [notificationSchema.statics.markAllAsReadForUser],
    Notification.js:281-297. *)
Definition markAllAsReadForUser (now : Date) (userId : ObjectId)
    (projectId : option ObjectId) : M unit :=
  s <- get ;;
  setNotifications
    (map (fun n =>
            if same_id (n_recipient n) userId
               && negb (n_isRead n)
               && ofProject projectId n
            then NotificationModel.setRead true (Some now) n
            else n)
         (notifications s)) ;;;
  log (OpUpdateMany CNotifications).

(** [notificationSchema.statics.cleanupExpired], Notification.js:318-322:
    [deleteMany({ expiresAt: { $lt: new Date() } })]. The write is recorded
    in [oplog] as an [OpUpdateMany], the log's entry for a write on many
    documents. *)
Definition cleanupExpired (now : Date) : M unit :=
  s <- get ;;
  setNotifications
    (filter (fun n =>
               match n_expiresAt n with
               | Some e => negb (e <? now)%Z
               | None => true
               end)
            (notifications s)) ;;;
  log (OpUpdateMany CNotifications).

(** GET /api/notifications/:id, notification.js:134-167. *)
Definition getNotification (now : Date) (user : User) (id : ObjectId)
    : M Response :=
  s <- get ;;
  match findById n_id id (notifications s) with
  | None => throw (AppError "Notification not found" 404)
  | Some notification =>
      if negb (same_id (n_recipient notification) (u_id user))
      then throw (AppError "Access denied - not your notification" 403)
      else
        (if negb (n_isRead notification)
         then NotificationModel.markAsRead now notification ;;; ret tt
         else ret tt) ;;;
        ret {| status := 200; site := NotificationDetails |}
  end.

(** PUT /api/notifications/:id/read, notification.js:172-207. *)
Definition putNotificationRead (now : Date) (user : User) (id : ObjectId)
    : M Response :=
  s <- get ;;
  match findById n_id id (notifications s) with
  | None => throw (AppError "Notification not found" 404)
  | Some notification =>
      if negb (same_id (n_recipient notification) (u_id user))
      then throw (AppError "Access denied - not your notification" 403)
      else
        NotificationModel.markAsRead now notification ;;;
        emit (UserRoom (u_id user)) "notification_read" ;;;
        ret {| status := 200; site := NotificationRead |}
  end.

End NotificationExtras.

(** ** [middleware/auth.js]: optional authentication and rate limiting *)

Module AuthExtras.

(** [Math.ceil(x)]: the least integer not below [x]; NaN, the infinities
    and the zeros are returned as they are, and a result of zero keeps the
    sign of [x]. *)
Definition Math_ceil (x : JsNumber.Number) : JsNumber.Number :=
  match x with
  | S754_finite s m e =>
      let v := if s then Z.neg m else Z.pos m in
      let r := match e with
               | Z.neg k => - ((- v) / 2 ^ Z.pos k)
               | _ => v * 2 ^ e
               end in
      if (r =? 0)%Z then S754_zero s else JsNumber.ofZ r
  | _ => x
  end.

(** [optionalAuth], auth.js:61-80: the user it attaches to the request, if
    any; it always calls [next()]. *)
Definition optionalAuth (jwt_verify : string -> AuthMiddleware.JwtResult)
    (authorization : option string) (s : Store) : option User :=
  match AuthMiddleware.bearerToken authorization with
  | None => None
  | Some token =>
      match jwt_verify token with
      | AuthMiddleware.Decoded (Some id) =>
          match findById u_id id (users s) with
          | Some user => if u_isActive user then Some user else None
          | None => None
          end
      | AuthMiddleware.Decoded None => None
      | AuthMiddleware.JwtThrows _ => None
      end
  end.

(** A value of the [attempts] map of [authRateLimit]. *)
Record Attempt := {
  at_count : Z;
  at_timestamp : Z
}.

(** The [attempts] map: its entries in insertion order. *)
Definition Attempts : Type := list (string * Attempt).

(** [attempts.get(key)] *)
Definition attemptOf (key : string) (attempts : Attempts) : option Attempt :=
  match find (fun kv => String.eqb (fst kv) key) attempts with
  | Some kv => Some (snd kv)
  | None => None
  end.

(** [attempts.set(key, value)]: an existing entry keeps its place. *)
Definition setAttempt (key : string) (value : Attempt) (attempts : Attempts)
    : Attempts :=
  if existsb (fun kv => String.eqb (fst kv) key) attempts
  then map (fun kv => if String.eqb (fst kv) key then (key, value) else kv)
           attempts
  else (attempts ++ [(key, value)])%list.

(** The clean-up loop, auth.js:194-199: entries older than the window are
    deleted. *)
Definition sweep (windowMs now : Z) (attempts : Attempts) : Attempts :=
  filter (fun kv => negb (windowMs <? now - at_timestamp (snd kv))%Z) attempts.

Inductive Verdict :=
  | Allowed                                   (* [next()] *)
  | Blocked (retryAfter : JsNumber.Number).   (* 429 *)

(** The middleware returned by [authRateLimit(maxAttempts, windowMs)],
    auth.js:187-220, on a request with key [req.ip + (req.body.email || '')]
    at time [Date.now() = now]: its verdict and the map it leaves. *)
Definition authRateLimit (maxAttempts windowMs : Z) (key : string) (now : Z)
    (attempts : Attempts) : Verdict * Attempts :=
  let attempts1 := sweep windowMs now attempts in
  match attemptOf key attempts1 with
  | Some attemptData =>
      if (maxAttempts <=? at_count attemptData)%Z
      then (Blocked
              (Math_ceil
                 (JsNumber.div
                    (JsNumber.ofZ (at_timestamp attemptData + windowMs - now))
                    (JsNumber.ofZ 1000))),
            attempts1)
      else (Allowed,
            setAttempt key
              {| at_count := at_count attemptData + 1; at_timestamp := now |}
              attempts1)
  | None =>
      (Allowed,
       setAttempt key {| at_count := 1; at_timestamp := now |} attempts1)
  end.

(** Requests with one key at the given times, one after the other: the
    verdicts, and the map after the last. *)
Fixpoint requests (maxAttempts windowMs : Z) (key : string) (times : list Z)
    (attempts : Attempts) : list Verdict * Attempts :=
  match times with
  | [] => ([], attempts)
  | now :: later =>
      let '(v, attempts1) := authRateLimit maxAttempts windowMs key now attempts in
      let '(vs, attempts2) := requests maxAttempts windowMs key later attempts1 in
      (v :: vs, attempts2)
  end.

Definition isAllowed (v : Verdict) : bool :=
  match v with Allowed => true | Blocked _ => false end.

(** Every time lies in the window of length [windowMs] that starts at
    [start]. *)
Definition withinWindow (windowMs start : Z) (times : list Z) : Prop :=
  Forall (fun t => start <= t /\ t - start <= windowMs) times.

End AuthExtras.

(** ** [lib/api.ts]: the Authorization header of the client *)

Module ApiClient.

(** [...(token && { Authorization: `Bearer ${token}` })], api.ts:20:
    the header built for the token read from local storage, if any, on a
    request whose [options] bring no headers of their own. *)
Definition authorizationHeader (token : option string) : option string :=
  match token with
  | None => None
  | Some EmptyString => None
  | Some t => Some ("Bearer " ++ t)
  end.

(** The string has no space. *)
Fixpoint spaceless (s : string) : bool :=
  match s with
  | EmptyString => true
  | String c rest => negb (Ascii.eqb c " "%char) && spaceless rest
  end.

End ApiClient.

(** ** [middleware/errorHandler.js]: the handler on arbitrary errors *)

Module ErrorHandler.

(** [err.code] and [err.status]: absent, a number or a string. *)
Inductive Field :=
  | Absent
  | Num (n : Z)
  | Str (s : string).

(** What the error handler reads of the error it is given. [path] and
    [value] are as a template string renders them. [keyValue] and [errors]
    are [None] when the error has no such property; [errors] holds the
    [message] of each value of [err.errors]. *)
Record JsError := {
  name : string;
  message : string;
  statusCode : option nat;
  isOperational : bool;
  code : Field;
  httpStatus : Field;                         (* [err.status] *)
  path : string;
  value : string;
  keyValue : option (list (string * string));
  errors : option (list string)
}.

(** [`${statusCode}`.startsWith('4')] *)
Definition startsWith4 (sc : nat) : bool :=
  match NilEmpty.string_of_uint (Nat.to_uint sc) with
  | String c _ => Ascii.eqb c "4"%char
  | EmptyString => false
  end.

(** [new AppError(message, statusCode)], errorHandler.js:4-13, as far as
    the handler reads it. *)
Definition appError (msg : string) (sc : nat) : JsError :=
  {| name := "Error"; message := msg; statusCode := Some sc;
     isOperational := true; code := Absent;
     httpStatus := Str (if startsWith4 sc then "fail" else "error");
     path := "undefined"; value := "undefined";
     keyValue := None; errors := None |}.

(** The variable [error] of the handler: the copy of [err] with its
    message and status code, or the [AppError] a rule replaced it with. *)
Inductive Current :=
  | Copy (statusCode : nat)
  | Replaced (msg : string) (statusCode : nat).

(** [handleDuplicateFieldsDB(error)], errorHandler.js:22-34; [None] when
    [Object.keys(err.keyValue)] throws. *)
Definition handleDuplicateFieldsDB (kv : option (list (string * string)))
    : option Current :=
  match kv with
  | None => None
  | Some [] => Some (Replaced "undefined 'undefined' already exists" 400)
  | Some ((duplicatedField, duplicatedValue) :: _) =>
      Some (Replaced
              (if String.eqb duplicatedField "email"
               then "An account with this email address already exists"
               else duplicatedField ++ " '" ++ duplicatedValue
                      ++ "' already exists")
              400)
  end.

(** [handleValidationErrorDB(error)], errorHandler.js:37-41; [None] when
    [Object.values(err.errors)] throws. *)
Definition handleValidationErrorDB (errs : option (list string))
    : option Current :=
  match errs with
  | None => None
  | Some messages =>
      Some (Replaced ("Validation failed: " ++ TaskRoutes.join ". " messages) 400)
  end.

(** The properties of [err] still readable on [error]: those of the copy,
    none once a rule has replaced it. *)
Definition keyValueOf (err : JsError) (cur : Current)
    : option (list (string * string)) :=
  match cur with Copy _ => keyValue err | Replaced _ _ => None end.

Definition errorsOf (err : JsError) (cur : Current) : option (list string) :=
  match cur with Copy _ => errors err | Replaced _ _ => None end.

(** [field === 'text'] and [field === number] *)
Definition codeIs (c : Field) (s : string) : bool :=
  match c with Str x => String.eqb x s | _ => false end.

Definition numberIs (c : Field) (n : Z) : bool :=
  match c with Num x => (x =? n)%Z | _ => false end.

(** The rules of [errorHandler], errorHandler.js:104-136, in order; [None]
    when one of them throws. *)
Definition classify (err : JsError) : option Current :=
  let e0 := Copy (match statusCode err with
                  | Some 0%nat | None => 500%nat
                  | Some sc => sc
                  end) in
  let e1 := if String.eqb (name err) "CastError"
            then Replaced ("Invalid " ++ path err ++ ": " ++ value err) 400
            else e0 in
  match (if numberIs (code err) 11000
         then handleDuplicateFieldsDB (keyValueOf err e1)
         else Some e1) with
  | None => None
  | Some e2 =>
      match (if String.eqb (name err) "ValidationError"
             then handleValidationErrorDB (errorsOf err e2)
             else Some e2) with
      | None => None
      | Some e3 =>
          let e4 := if String.eqb (name err) "JsonWebTokenError"
                    then Replaced "Invalid token. Please log in again." 401
                    else e3 in
          let e5 := if String.eqb (name err) "TokenExpiredError"
                    then Replaced
                           "Your token has expired. Please log in again." 401
                    else e4 in
          let e6 := if codeIs (code err) "LIMIT_FILE_SIZE"
                    then Replaced
                           "File too large. Maximum size allowed is 10MB." 413
                    else e5 in
          let e7 := if codeIs (code err) "LIMIT_FILE_COUNT"
                    then Replaced "Too many files. Maximum 10 files allowed." 413
                    else e6 in
          let e8 := if codeIs (code err) "LIMIT_UNEXPECTED_FILE"
                    then Replaced "Unexpected file field." 400
                    else e7 in
          let e9 := if numberIs (httpStatus err) 429
                    then Replaced
                           "Too many requests. Please try again later." 429
                    else e8 in
          Some e9
      end
  end.

(** What the client receives: status, the [message] of the body, and the
    site that sent it. *)
Record Sent := {
  sentStatus : nat;
  sentMessage : string;
  sentSite : Site
}.

(** [errorHandler], errorHandler.js:103-143, with [sendErrorDev] and
    [sendErrorProd]; [None] when the handler itself throws. A replaced
    error is an [AppError] and has a stack. *)
Definition handle (development : bool) (err : JsError) : option Sent :=
  match classify err with
  | None => None
  | Some cur =>
      let '(msg, sc, operational, hasStack) :=
        match cur with
        | Copy sc => (message err, sc, isOperational err, false)
        | Replaced msg sc => (msg, sc, true, true)
        end in
      Some
        (if development
         then {| sentStatus := sc; sentMessage := msg;
                 sentSite := SendErrorDev hasStack |}
         else if operational
         then {| sentStatus := sc; sentMessage := msg;
                 sentSite := SendErrorProdOperational |}
         else {| sentStatus := 500; sentMessage := "Something went wrong!";
                 sentSite := SendErrorProdUnknown |})
  end.

(** The errors thrown by the modelled model and route code, as the handler
    sees them. *)
Definition ofError (e : Error) : JsError :=
  match e with
  | AppError msg sc => appError msg sc
  | TypeError msg =>
      {| name := "TypeError"; message := msg; statusCode := None;
         isOperational := false; code := Absent; httpStatus := Absent;
         path := "undefined"; value := "undefined"; keyValue := None;
         errors := None |}
  | PlainError msg =>
      {| name := "Error"; message := msg; statusCode := None;
         isOperational := false; code := Absent; httpStatus := Absent;
         path := "undefined"; value := "undefined"; keyValue := None;
         errors := None |}
  | ValidationError model failed =>
      {| name := "ValidationError";
         message :=
           model ++ " validation failed: "
             ++ TaskRoutes.join ", "
                  (map (fun kv => fst kv ++ ": " ++ snd kv) failed);
         statusCode := None; isOperational := false; code := Absent;
         httpStatus := Absent; path := "undefined"; value := "undefined";
         keyValue := None; errors := Some (map snd failed) |}
  end.

(** The error is one that a rule of the handler turns into an
    [AppError]. *)
Definition recognised (err : JsError) : bool :=
  String.eqb (name err) "CastError"
  || numberIs (code err) 11000
  || String.eqb (name err) "ValidationError"
  || String.eqb (name err) "JsonWebTokenError"
  || String.eqb (name err) "TokenExpiredError"
  || codeIs (code err) "LIMIT_FILE_SIZE"
  || codeIs (code err) "LIMIT_FILE_COUNT"
  || codeIs (code err) "LIMIT_UNEXPECTED_FILE"
  || numberIs (httpStatus err) 429.

End ErrorHandler.

(** ** Further properties stated about the code *)

(** A subtask has a completion time exactly when it is completed. *)
Definition subtaskInv (st : Subtask) : Prop :=
  st_completedAt st <> None <-> st_completed st = true.

(** The pin fields of a message agree: a pinned message has a pin time and
    a pinning user, an unpinned one has neither. *)
Definition pinInv (m : Message) : Prop :=
  (msg_isPinned m = true -> msg_pinnedAt m <> None /\ msg_pinnedBy m <> None)
  /\ (msg_isPinned m = false -> msg_pinnedAt m = None /\ msg_pinnedBy m = None).

(** ** Further sample data *)

Module Fixtures.
Local Open Scope N_scope.

(** Alice's project with Bob as admin and Carol as plain member. *)
Definition team : Project :=
  {| p_id := 10; p_name := "Launch"; p_owner := 1;
     p_members :=
       [{| m_user := 2; m_role := RoleAdmin; m_joinedAt := 0%Z;
           m_permissions := ProjectMembers.rolePermissions RoleAdmin |};
        {| m_user := 3; m_role := RoleMember; m_joinedAt := 0%Z;
           m_permissions := ProjectMembers.rolePermissions RoleMember |}];
     p_progress := Sample.zeroProgress;
     p_statistics := {| totalMessages := 0%Z; totalFiles := 0%Z;
                        lastActivity := 0%Z |} |}.

Definition dave : User := Sample.user 4 "Dave".

Definition store (ts : list Task) (ms : list Message)
    (ns : list Notification) : Store :=
  {| users := [Sample.alice; Sample.bob; Sample.carol; dave];
     projects := [team]; tasks := ts; messages := ms; notifications := ns;
     nextId := 1000; oplog := []; emitted := [] |}.

Definition dueTask (id : ObjectId) (st : TaskStatus) (due : option Date)
    : Task :=
  {| t_id := id; t_title := "Write release notes"; t_description := "Draft";
     t_project := 10; t_assignee := None; t_creator := 1; t_status := st;
     t_priority := medium; t_dueDate := due; t_completedAt := None;
     t_actualHours := None; t_progress := JsNumber.ofZ 0;
     t_dependencies := []; t_comments := []; t_watchers := [];
     t_activity := []; t_subtasks := [] |}.

Definition subtask (id : ObjectId) (completed : bool) : Subtask :=
  {| st_id := id; st_title := "Proofread"; st_completed := completed;
     st_completedAt := if completed then Some 3%Z else None;
     st_createdAt := 1%Z |}.

Definition notice (id recipient : ObjectId) (isRead : bool)
    (expiresAt : option Date) : Notification :=
  {| n_id := id; n_recipient := recipient; n_sender := Some 1;
     n_type := task_assigned; n_title := "New Task Assigned";
     n_message := "Alice assigned you a task";
     n_data := {| nd_project := Some 10; nd_task := Some 100;
                  nd_message := None |};
     n_isRead := isRead; n_readAt := if isRead then Some 2%Z else None;
     n_priority := medium; n_actionUrl := None; n_actionText := None;
     n_expiresAt := expiresAt;
     n_channels := {| ch_inApp := true; ch_email := false; ch_push := false |} |}.

End Fixtures.

(* ================================================================== *)
(** * Part II: lemmas and theorems *)
(* ================================================================== *)

(** ** The definitions on small inputs *)

Example bearerToken_of_header :
  AuthMiddleware.bearerToken (Some "Bearer abc.def.ghi") = Some "abc.def.ghi".
Proof. reflexivity. Qed.

Example bearerToken_without_token :
  AuthMiddleware.bearerToken (Some "Bearer") = None
  /\ AuthMiddleware.bearerToken (Some "Bearer  late") = None
  /\ AuthMiddleware.bearerToken None = None.
Proof. repeat split. Qed.

Example one_eighth_times_100 :
  JsNumber.mul (JsNumber.div (JsNumber.ofZ 1) (JsNumber.ofZ 8)) (JsNumber.ofZ 100)
  = S754_finite false 7036874417766400 (-49).
Proof. vm_compute. reflexivity. Qed.

Example Math_round_of_halves :
  JsNumber.Math_round (S754_finite false 5 (-1)) = JsNumber.ofZ 3
  /\ JsNumber.Math_round (S754_finite true 5 (-1)) = JsNumber.ofZ (-2)
  /\ JsNumber.Math_round (S754_finite true 1 (-2)) = S754_zero true
  /\ JsNumber.Math_round (S754_finite false 7 2) = JsNumber.ofZ 28.
Proof. vm_compute. repeat split. Qed.

Example addReactionTo_new_emoji :
  MessageModel.addReactionTo "up" 3 (msg_reactions Sample.reacted)
  = [{| r_emoji := "ok"; r_users := [2%N]; r_count := 1 |};
     {| r_emoji := "up"; r_users := [3%N]; r_count := 1 |}].
Proof. reflexivity. Qed.

Example removeReactionFrom_last_user :
  MessageModel.removeReactionFrom "ok" 2 (msg_reactions Sample.reacted) = [].
Proof. reflexivity. Qed.

Example statedPercentage_values :
  statedPercentage 0 0 = 0 /\ statedPercentage 1 3 = 33
  /\ statedPercentage 2 3 = 67 /\ statedPercentage 1 8 = 13.
Proof. repeat split. Qed.

(** ** Collections *)

Section CollectionFacts.
Context {A : Type} (idOf : A -> ObjectId).

Lemma same_id_refl (a : ObjectId) : same_id a a = true.
Proof. apply N.eqb_refl. Qed.

Lemma same_id_eq (a b : ObjectId) : same_id a b = true <-> a = b.
Proof. apply N.eqb_eq. Qed.

Lemma findById_some (id : ObjectId) (c : list A) (d : A) :
  findById idOf id c = Some d -> In d c /\ idOf d = id.
Proof.
  unfold findById. intros H. apply find_some in H.
  destruct H as [Hin Heq]. apply same_id_eq in Heq. auto.
Qed.

Lemma findById_upsert (d : A) (c : list A) :
  findById idOf (idOf d) (upsert idOf d c) = Some d.
Proof.
  unfold upsert, findById.
  destruct (existsb (fun x => same_id (idOf x) (idOf d)) c) eqn:E.
  - induction c as [|x c IH]; simpl in *; [discriminate|].
    destruct (same_id (idOf x) (idOf d)) eqn:Ex; simpl.
    + rewrite same_id_refl. reflexivity.
    + rewrite Ex. apply IH. exact E.
  - induction c as [|x c IH]; simpl in *.
    + rewrite same_id_refl. reflexivity.
    + apply orb_false_iff in E. destruct E as [Ex Ec].
      rewrite Ex. apply IH. exact Ec.
Qed.

Lemma findById_upsert_other (d : A) (id : ObjectId) (c : list A) :
  idOf d <> id ->
  findById idOf id (upsert idOf d c) = findById idOf id c.
Proof.
  intros Hne. unfold upsert, findById.
  assert (Hd : same_id (idOf d) id = false).
  { apply not_true_iff_false. rewrite same_id_eq. exact Hne. }
  destruct (existsb (fun x => same_id (idOf x) (idOf d)) c).
  - induction c as [|x c IH]; simpl; [reflexivity|].
    destruct (same_id (idOf x) (idOf d)) eqn:Ex.
    + apply same_id_eq in Ex. rewrite Hd, Ex, Hd. exact IH.
    + destruct (same_id (idOf x) id); [reflexivity|exact IH].
  - induction c as [|x c IH]; simpl.
    + rewrite Hd. reflexivity.
    + destruct (same_id (idOf x) id); [reflexivity|exact IH].
Qed.


End CollectionFacts.

(** ** Running model code *)

Lemma bind_ok {A B} (m : M A) (k : A -> M B) (s s' : Store) (a : A) :
  m s = (Ok a, s') -> bind m k s = k a s'.
Proof. intros H. unfold bind. rewrite H. reflexivity. Qed.

Lemma bind_throw {A B} (m : M A) (k : A -> M B) (s s' : Store) (e : Error) :
  m s = (Throw e, s') -> bind m k s = (Throw e, s').
Proof. intros H. unfold bind. rewrite H. reflexivity. Qed.

Lemma project_save_run (p : Project) (s : Store) :
  exists s',
    ProjectModel.save p s = (Ok (ProjectModel.preSave p), s')
    /\ sameDocuments s s'
    /\ projects s' = upsert p_id (ProjectModel.preSave p) (projects s)
    /\ oplog s' = (oplog s ++ [OpSave CProjects (p_id p)])%list.
Proof.
  eexists. split; [reflexivity|]. repeat split.
Qed.

Lemma updateProgress_run (now : Date) (p : Project) (s : Store) :
  exists p' s',
    ProjectModel.updateProgress now p s = (Ok p', s')
    /\ sameDocuments s s'
    /\ p_id p' = p_id p
    /\ projects s' = upsert p_id p' (projects s)
    /\ totalTasks (p_progress p')
       = JsNumber.ofNat (List.length (ProjectModel.tasksOf (p_id p) (tasks s)))
    /\ completedTasks (p_progress p')
       = JsNumber.ofNat (List.length (ProjectModel.completedOf
                                        (ProjectModel.tasksOf (p_id p) (tasks s))))
    /\ percentage (p_progress p')
       = ProjectModel.percentageOf (completedTasks (p_progress p'))
                                   (totalTasks (p_progress p')).
Proof.
  do 2 eexists. split.
  - cbv [ProjectModel.updateProgress ProjectModel.save bind get ret
         setProjects log modify]. reflexivity.
  - repeat split.
Qed.

Lemma task_postSave_run (now : Date) (t : Task) (s : Store) :
  exists s',
    TaskModel.postSave now t s = (Ok tt, s') /\ sameDocuments s s'.
Proof.
  unfold TaskModel.postSave, swallow, bind, get.
  destruct (findById p_id (t_project t) (projects s)) as [p|].
  - destruct (updateProgress_run now p s) as (p' & s' & Hrun & Hsame & _).
    rewrite Hrun. eexists. split; [reflexivity|exact Hsame].
  - eexists. split; [reflexivity|]. repeat split.
Qed.

Lemma task_save_run (now : Date) (d : TaskDoc) (s : Store) :
  let t := td_task (TaskModel.preSave now d) in
  exists s',
    TaskModel.save now d s = (Ok (loaded t), s')
    /\ users s' = users s
    /\ tasks s' = upsert t_id t (tasks s)
    /\ messages s' = messages s
    /\ notifications s' = notifications s
    /\ nextId s' = nextId s.
Proof.
  intros t. unfold TaskModel.save. fold t.
  cbv [bind get setTasks log modify ret].
  match goal with
  | |- context [TaskModel.postSave now t ?s1] =>
      destruct (task_postSave_run now t s1) as (s' & Hrun & Hu & Ht & Hm & Hn & Hi)
  end.
  exists s'. rewrite Hrun. split; [reflexivity|].
  simpl in *. auto.
Qed.

Lemma preSave_id (now : Date) (d : TaskDoc) :
  t_id (td_task (TaskModel.preSave now d)) = t_id (td_task d).
Proof.
  unfold TaskModel.preSave.
  destruct (td_statusModified d); [|reflexivity].
  destruct (TaskStatus_eqb (t_status (td_task d)) completed);
    [destruct (t_completedAt (td_task d))|]; reflexivity.
Qed.

Lemma preSave_status (now : Date) (d : TaskDoc) :
  t_status (td_task (TaskModel.preSave now d)) = t_status (td_task d).
Proof.
  unfold TaskModel.preSave.
  destruct (td_statusModified d); [|reflexivity].
  destruct (TaskStatus_eqb (t_status (td_task d)) completed);
    [destruct (t_completedAt (td_task d))|]; reflexivity.
Qed.

Lemma TaskStatus_eqb_eq (a b : TaskStatus) : TaskStatus_eqb a b = true <-> a = b.
Proof. destruct a, b; simpl; split; intros H; congruence. Qed.

(** ** The completion timestamp of a task *)

(** C8. A task save that modified [status] leaves [completedAt] non-null
    exactly when the status is 'completed': the pre-save hook keeps the
    status, sets [completedAt] to the current time when the status is
    'completed' and the field was null, resets it to null for every other
    status, and the document written by [save] is the one the hook
    returns. *)
Theorem C8_completedAt_iff_completed (now : Date) (d : TaskDoc) (s : Store) :
  td_statusModified d = true ->
  let t' := td_task (TaskModel.preSave now d) in
  (t_completedAt t' <> None <-> t_status t' = completed)
  /\ t_status t' = t_status (td_task d)
  /\ (t_status (td_task d) = completed -> t_completedAt (td_task d) = None ->
      t_completedAt t' = Some now)
  /\ (t_status (td_task d) <> completed -> t_completedAt t' = None)
  /\ exists s',
       TaskModel.save now d s = (Ok (loaded t'), s')
       /\ findById t_id (t_id (td_task d)) (tasks s') = Some t'.
Proof.
  intros Hmod t'.
  assert (Hstatus : t_status t' = t_status (td_task d)) by apply preSave_status.
  assert (Hcases :
    (t_status (td_task d) = completed /\ t_completedAt t' <> None
     /\ (t_completedAt (td_task d) = None -> t_completedAt t' = Some now))
    \/ (t_status (td_task d) <> completed /\ t_completedAt t' = None)).
  { subst t'. unfold TaskModel.preSave. rewrite Hmod.
    destruct (TaskStatus_eqb (t_status (td_task d)) completed) eqn:E.
    - apply TaskStatus_eqb_eq in E. left.
      destruct (t_completedAt (td_task d)) eqn:C; simpl; rewrite ?C;
        repeat split; congruence.
    - right. split; [|reflexivity].
      intros H. apply TaskStatus_eqb_eq in H. congruence. }
  repeat split.
  - intros Hc. rewrite Hstatus.
    destruct Hcases as [(H & _ & _)|(_ & H)]; [exact H|contradiction].
  - intros Hc. rewrite Hstatus in Hc.
    destruct Hcases as [(_ & H & _)|(H & _)]; [exact H|contradiction].
  - exact Hstatus.
  - intros Hc Hn. destruct Hcases as [(_ & _ & H)|(H & _)]; [auto|contradiction].
  - intros Hc. destruct Hcases as [(H & _)|(_ & H)]; [contradiction|exact H].
  - destruct (task_save_run now d s) as (s' & Hrun & _ & Ht & _).
    exists s'. split; [exact Hrun|].
    rewrite Ht, <- (preSave_id now d). apply findById_upsert.
Qed.

Lemma C8_witness :
  let d := {| td_task := Sample.task 100 completed None [];
              td_statusModified := true |} in
  let d0 := {| td_task := TaskModel.setCompletedAt None (td_task d);
               td_statusModified := true |} in
  td_statusModified d0 = true
  /\ t_completedAt (td_task (TaskModel.preSave 7 d0)) = Some 7.
Proof.
  intros d d0. split; [reflexivity|].
  apply (C8_completedAt_iff_completed 7 d0 (Sample.store [] [])); reflexivity.
Defined.

(** ** Read state of notifications *)

Lemma notification_save_run (now : Date) (n : Notification) (s : Store) :
  exists s',
    NotificationModel.save now n s = (Ok (NotificationModel.preSave now n), s')
    /\ notifications s'
       = upsert n_id (NotificationModel.preSave now n) (notifications s)
    /\ oplog s' = (oplog s ++ [OpSave CNotifications (n_id n)])%list
    /\ users s' = users s /\ projects s' = projects s /\ tasks s' = tasks s
    /\ messages s' = messages s /\ nextId s' = nextId s.
Proof.
  eexists. split.
  - cbv [NotificationModel.save bind get ret setNotifications log modify].
    reflexivity.
  - simpl. repeat split.
    unfold NotificationModel.preSave. destruct (n_expiresAt n); reflexivity.
Qed.

Lemma notification_preSave_read (now : Date) (n : Notification) :
  n_isRead (NotificationModel.preSave now n) = n_isRead n
  /\ n_readAt (NotificationModel.preSave now n) = n_readAt n
  /\ n_id (NotificationModel.preSave now n) = n_id n.
Proof.
  unfold NotificationModel.preSave. destruct (n_expiresAt n); repeat split.
Qed.

(** C10. [markAsRead] on a notification that is already read returns it
    unchanged and leaves the store, its operation log included, as it was:
    no write is issued. Hence [markAsRead] is idempotent. [markAsUnread]
    after [markAsRead] stores the notification with [isRead = false] and
    [readAt = null]. *)
Theorem C10_markAsRead_idempotent_markAsUnread_inverts
    (now now' : Date) (n : Notification) (s : Store) :
  (n_isRead n = true -> NotificationModel.markAsRead now n s = (Ok n, s))
  /\ exists n1 s1,
       NotificationModel.markAsRead now n s = (Ok n1, s1)
       /\ n_isRead n1 = true
       /\ NotificationModel.markAsRead now' n1 s1 = (Ok n1, s1)
       /\ exists n2 s2,
            NotificationModel.markAsUnread now' n1 s1 = (Ok n2, s2)
            /\ n_isRead n2 = false
            /\ n_readAt n2 = None
            /\ findById n_id (n_id n) (notifications s2) = Some n2.
Proof.
  split.
  - intros Hread. unfold NotificationModel.markAsRead. rewrite Hread. reflexivity.
  - assert (Hfirst : exists n1 s1,
              NotificationModel.markAsRead now n s = (Ok n1, s1)
              /\ n_isRead n1 = true /\ n_id n1 = n_id n).
    { unfold NotificationModel.markAsRead. destruct (n_isRead n) eqn:Hread; simpl.
      - exists n, s. auto.
      - destruct (notification_save_run now
                    (NotificationModel.setRead true (Some now) n) s)
          as (s1 & Hrun & _).
        eexists. exists s1. split; [exact Hrun|].
        destruct (notification_preSave_read now
                    (NotificationModel.setRead true (Some now) n))
          as (H1 & _ & H3).
        rewrite H1, H3. auto. }
    destruct Hfirst as (n1 & s1 & Hrun1 & Hread1 & Hid1).
    exists n1, s1. repeat split; try assumption.
    + unfold NotificationModel.markAsRead. rewrite Hread1. reflexivity.
    + unfold NotificationModel.markAsUnread. rewrite Hread1.
      destruct (notification_save_run now'
                  (NotificationModel.setRead false None n1) s1)
        as (s2 & Hrun2 & Hn2 & _).
      destruct (notification_preSave_read now'
                  (NotificationModel.setRead false None n1))
        as (H1 & H2 & H3).
      eexists. exists s2. split; [exact Hrun2|].
      rewrite H1, H2. repeat split.
      rewrite Hn2, <- Hid1.
      change (n_id n1) with (n_id (NotificationModel.setRead false None n1)).
      rewrite <- H3. apply findById_upsert.
Qed.

Lemma C10_witness :
  n_isRead (Sample.notification true (Some 3)) = true
  /\ NotificationModel.markAsRead 9 (Sample.notification true (Some 3))
       (Sample.store [] [])
     = (Ok (Sample.notification true (Some 3)), Sample.store [] []).
Proof.
  split; [reflexivity|].
  apply (C10_markAsRead_idempotent_markAsUnread_inverts 9 9
           (Sample.notification true (Some 3)) (Sample.store [] [])).
  reflexivity.
Defined.

(** ** Reactions of a message *)

Lemma includes_In (ids : list ObjectId) (x : ObjectId) :
  includes ids x = true <-> In x ids.
Proof.
  unfold includes. rewrite existsb_exists. split.
  - intros (y & Hin & Heq). apply same_id_eq in Heq. subst. exact Hin.
  - intros Hin. exists x. split; [exact Hin|apply same_id_refl].
Qed.

Lemma updateFirst_Forall {A} (P : A -> Prop) (p : A -> bool) (f : A -> A)
    (l : list A) :
  Forall P l -> (forall x, P x -> p x = true -> P (f x)) ->
  Forall P (updateFirst p f l).
Proof.
  intros Hl Hf. induction Hl as [|x l Hx Hl IH]; simpl; [constructor|].
  destruct (p x) eqn:Hp; constructor; auto.
Qed.

Lemma find_updateFirst {A} (p : A -> bool) (f : A -> A) (l : list A) (x : A) :
  find p l = Some x -> (forall y, p y = true -> p (f y) = true) ->
  find p (updateFirst p f l) = Some (f x).
Proof.
  intros Hfind Hp. induction l as [|y l IH]; simpl in *; [discriminate|].
  destruct (p y) eqn:Hy.
  - inversion Hfind; subst. simpl. rewrite (Hp _ Hy). reflexivity.
  - simpl. rewrite Hy. apply IH. exact Hfind.
Qed.

Lemma find_app_none {A} (p : A -> bool) (l : list A) (x : A) :
  find p l = None -> p x = true -> find p (l ++ [x]) = Some x.
Proof.
  intros Hnone Hp. induction l as [|y l IH]; simpl in *.
  - rewrite Hp. reflexivity.
  - destruct (p y); [discriminate|]. apply IH. exact Hnone.
Qed.

Lemma addReactionTo_inv (emoji : string) (userId : ObjectId) (rs : list Reaction) :
  Forall reactionInv rs ->
  Forall reactionInv (MessageModel.addReactionTo emoji userId rs).
Proof.
  intros Hrs. unfold MessageModel.addReactionTo.
  destruct (find (MessageModel.hasEmoji emoji) rs) as [r|] eqn:Hfind.
  - destruct (includes (r_users r) userId) eqn:Hinc; simpl; [exact Hrs|].
    assert (Hr : forall x, find (MessageModel.hasEmoji emoji) rs = Some x ->
                 ~ In userId (r_users x)).
    { intros x Hx. rewrite Hfind in Hx. inversion Hx; subst.
      rewrite <- includes_In. rewrite Hinc. discriminate. }
    clear Hinc. revert Hr. clear Hfind.
    induction Hrs as [|x l Hx Hl IH]; simpl; intros Hr; [constructor|].
    destruct (MessageModel.hasEmoji emoji x) eqn:Hp.
    + constructor; [|exact Hl].
      destruct Hx as (Hc & Hnd & Hne). unfold reactionInv. simpl.
      rewrite length_app, Nat2Z.inj_add, Hc. simpl. repeat split.
      * apply NoDup_app; [exact Hnd|repeat constructor; intros []|].
        intros a Ha [Hb|[]]. subst a. apply (Hr x); [reflexivity|exact Ha].
      * destruct (r_users x); discriminate.
    + constructor; [exact Hx|]. apply IH. exact Hr.
  - apply Forall_app. split; [exact Hrs|].
    repeat constructor; simpl; [intros []|discriminate].
Qed.

Lemma withoutUser_NoDup (userId : ObjectId) (us : list ObjectId) :
  NoDup us -> NoDup (MessageModel.withoutUser userId us).
Proof. apply NoDup_filter. Qed.

Lemma removeReactionFrom_inv (emoji : string) (userId : ObjectId)
    (rs : list Reaction) :
  Forall reactionInv rs ->
  Forall reactionInv (MessageModel.removeReactionFrom emoji userId rs).
Proof.
  intros Hrs. unfold MessageModel.removeReactionFrom.
  destruct (find (MessageModel.hasEmoji emoji) rs) as [r|] eqn:Hfind;
    [|exact Hrs].
  assert (Hr : In r rs) by (apply find_some in Hfind; tauto).
  assert (Hrinv : reactionInv r) by (rewrite Forall_forall in Hrs; auto).
  set (us := MessageModel.withoutUser userId (r_users r)).
  destruct (Z.of_nat (List.length us) =? 0)%Z eqn:Hz.
  - (* the entry is emptied: every entry with this emoji goes *)
    rewrite Forall_forall. intros x Hx. apply filter_In in Hx.
    destruct Hx as [Hx Hp]. apply negb_true_iff in Hp.
    clear Hz Hfind Hr. induction Hrs as [|y l Hy Hl IH]; simpl in Hx; [contradiction|].
    destruct (MessageModel.hasEmoji emoji y) eqn:Hpy.
    + destruct Hx as [Hx|Hx].
      * subst x. unfold MessageModel.hasEmoji in *. simpl in Hp. congruence.
      * rewrite Forall_forall in Hl. auto.
    + destruct Hx as [Hx|Hx]; [subst; exact Hy|auto].
  - apply updateFirst_Forall; [exact Hrs|].
    intros x _ _. unfold reactionInv. simpl. repeat split.
    + apply withoutUser_NoDup. apply Hrinv.
    + intros Hnil. fold us in Hnil. rewrite Hnil in Hz. discriminate.
Qed.

Lemma addReactionTo_idempotent (emoji : string) (userId : ObjectId)
    (rs : list Reaction) :
  MessageModel.addReactionTo emoji userId
    (MessageModel.addReactionTo emoji userId rs)
  = MessageModel.addReactionTo emoji userId rs.
Proof.
  remember (MessageModel.addReactionTo emoji userId rs) as rs' eqn:Hrs'.
  unfold MessageModel.addReactionTo in Hrs'.
  destruct (find (MessageModel.hasEmoji emoji) rs) as [r|] eqn:Hfind.
  - destruct (includes (r_users r) userId) eqn:Hinc; simpl in Hrs'; subst rs'.
    + unfold MessageModel.addReactionTo. rewrite Hfind, Hinc. reflexivity.
    + unfold MessageModel.addReactionTo.
      erewrite find_updateFirst; [|exact Hfind|intros y Hy; exact Hy].
      simpl.
      replace (includes (r_users r ++ [userId]) userId) with true; [reflexivity|].
      symmetry. apply includes_In. apply in_or_app. right. left. reflexivity.
  - subst rs'. unfold MessageModel.addReactionTo.
    erewrite find_app_none; [|exact Hfind|].
    + simpl. rewrite same_id_refl. reflexivity.
    + unfold MessageModel.hasEmoji. simpl. apply String.eqb_refl.
Qed.

Lemma reactionErrorsFrom_app (i : nat) (l1 l2 : list Reaction) :
  MessageModel.reactionErrorsFrom i (l1 ++ l2)
  = (MessageModel.reactionErrorsFrom i l1
     ++ MessageModel.reactionErrorsFrom (List.length l1 + i) l2)%list.
Proof.
  revert i. induction l1 as [|r l1 IH]; intros i; [reflexivity|].
  cbn [app MessageModel.reactionErrorsFrom List.length].
  rewrite IH, <- app_assoc, Nat.add_succ_r. reflexivity.
Qed.

Lemma reactionErrorsFrom_nil (i : nat) (l : list Reaction) :
  MessageModel.reactionErrorsFrom i l = []
  <-> Forall (fun r => r_emoji r <> EmptyString) l.
Proof.
  revert i. induction l as [|r l IH]; intros i.
  - split; [constructor|reflexivity].
  - cbn [MessageModel.reactionErrorsFrom].
    destruct (String.eqb_spec (r_emoji r) EmptyString) as [He|Hne].
    + split; [discriminate|]. intros H. inversion H; subst. contradiction.
    + cbn [app]. rewrite IH. split.
      * intros H. constructor; assumption.
      * intros H. inversion H; assumption.
Qed.

Lemma addReactionTo_valid (emoji : string) (userId : ObjectId)
    (rs : list Reaction) :
  emoji <> EmptyString ->
  MessageModel.reactionErrors rs = [] ->
  MessageModel.reactionErrors (MessageModel.addReactionTo emoji userId rs) = [].
Proof.
  unfold MessageModel.reactionErrors. rewrite !reactionErrorsFrom_nil.
  intros Hne Hrs. unfold MessageModel.addReactionTo.
  destruct (find (MessageModel.hasEmoji emoji) rs) as [r|].
  - destruct (negb (includes (r_users r) userId)); [|exact Hrs].
    apply updateFirst_Forall; [exact Hrs|]. intros x Hx _. exact Hx.
  - apply Forall_app. split; [exact Hrs|].
    constructor; [exact Hne|constructor].
Qed.

Lemma removeReactionFrom_valid (emoji : string) (userId : ObjectId)
    (rs : list Reaction) :
  MessageModel.reactionErrors rs = [] ->
  MessageModel.reactionErrors (MessageModel.removeReactionFrom emoji userId rs)
  = [].
Proof.
  unfold MessageModel.reactionErrors. rewrite !reactionErrorsFrom_nil.
  intros Hrs. unfold MessageModel.removeReactionFrom.
  destruct (find (MessageModel.hasEmoji emoji) rs) as [r|]; [|exact Hrs].
  assert (Hup : Forall (fun r0 => r_emoji r0 <> EmptyString)
                  (updateFirst (MessageModel.hasEmoji emoji)
                     (fun r0 =>
                        {| r_emoji := r_emoji r0;
                           r_users := MessageModel.withoutUser userId (r_users r);
                           r_count :=
                             Z.of_nat
                               (List.length
                                  (MessageModel.withoutUser userId (r_users r)))
                        |}) rs)).
  { apply updateFirst_Forall; [exact Hrs|]. intros x Hx _. exact Hx. }
  cbv zeta.
  destruct (Z.of_nat (List.length (MessageModel.withoutUser userId (r_users r)))
            =? 0)%Z; [|exact Hup].
  rewrite Forall_forall in *. intros x Hx. apply filter_In in Hx.
  apply Hup. tauto.
Qed.

(** A save of a message that passes validation stores it as it is. *)
Lemma message_save_run (now : Date) (modified : list MessageModel.Path)
    (m : Message) (s : Store) :
  MessageModel.validate modified m = [] ->
  exists s',
    MessageModel.save now modified m s = (Ok m, s')
    /\ messages s' = upsert msg_id m (messages s)
    /\ users s' = users s /\ tasks s' = tasks s
    /\ notifications s' = notifications s /\ nextId s' = nextId s.
Proof.
  intros Hvalid. unfold MessageModel.save. rewrite Hvalid.
  eexists. split.
  - cbv [MessageModel.postSave swallow bind get ret
         setMessages setProjects log modify]. reflexivity.
  - simpl. repeat split.
Qed.

Lemma validate_reactions (m : Message) :
  MessageModel.validate [MessageModel.PathReactions] m
  = MessageModel.reactionErrors (msg_reactions m).
Proof. reflexivity. Qed.

(** C9. [addReaction] and [removeReaction] on a message whose reactions are
    well formed and valid (no entry has an empty emoji, which the schema
    refuses to store). They keep every reaction entry well formed: [count]
    is the length of [users], no user occurs twice, and no entry is left
    without users (an entry emptied by [removeReaction] is removed).
    [addReaction] with an emoji that is not empty stores the message and is
    idempotent: applying it again for the same emoji and user leaves the
    reactions as they were after the first application. [addReaction] with
    the empty emoji is rejected by the validation of the save: it throws a
    validation error for the entry it pushed, and the store, whose message
    keeps its well-formed reactions, is unchanged. *)
Theorem C9_reactions_invariant_and_idempotence
    (now now' : Date) (emoji : string) (userId : ObjectId) (m : Message)
    (s : Store) :
  Forall reactionInv (msg_reactions m) ->
  MessageModel.reactionErrors (msg_reactions m) = [] ->
  (emoji <> EmptyString ->
   exists m1 s1,
     MessageModel.addReaction now emoji userId m s = (Ok m1, s1)
     /\ Forall reactionInv (msg_reactions m1)
     /\ findById msg_id (msg_id m) (messages s1) = Some m1
     /\ exists m2 s2,
          MessageModel.addReaction now' emoji userId m1 s1 = (Ok m2, s2)
          /\ msg_reactions m2 = msg_reactions m1)
  /\ (emoji = EmptyString ->
      MessageModel.addReaction now emoji userId m s
      = (Throw (ValidationError "Message"
                  [("reactions."
                      ++ JsString.ofIndex (List.length (msg_reactions m))
                      ++ ".emoji",
                    "Path `emoji` is required.")]),
         s))
  /\ (exists m1 s1,
        MessageModel.removeReaction now emoji userId m s = (Ok m1, s1)
        /\ Forall reactionInv (msg_reactions m1)
        /\ findById msg_id (msg_id m) (messages s1) = Some m1).
Proof.
  intros Hinv Hvalid. split; [|split].
  - intros Hemoji. unfold MessageModel.addReaction.
    set (m1 := MessageModel.setReactions
                 (MessageModel.addReactionTo emoji userId (msg_reactions m)) m).
    assert (Hvalid1 : MessageModel.reactionErrors (msg_reactions m1) = [])
      by (apply addReactionTo_valid; assumption).
    destruct (message_save_run now [MessageModel.PathReactions] m1 s)
      as (s1 & Hrun & Hm & _);
      [rewrite validate_reactions; exact Hvalid1|].
    exists m1, s1. split; [exact Hrun|]. split; [|split].
    + apply addReactionTo_inv. exact Hinv.
    + rewrite Hm. change (msg_id m) with (msg_id m1). apply findById_upsert.
    + set (m2 := MessageModel.setReactions
                   (MessageModel.addReactionTo emoji userId (msg_reactions m1)) m1).
      destruct (message_save_run now' [MessageModel.PathReactions] m2 s1)
        as (s2 & Hrun2 & _).
      { rewrite validate_reactions. apply addReactionTo_valid; assumption. }
      exists m2, s2. split; [exact Hrun2|].
      simpl. apply addReactionTo_idempotent.
  - intros ->. unfold MessageModel.addReaction, MessageModel.save.
    rewrite validate_reactions.
    cbn [msg_reactions MessageModel.setReactions].
    assert (Hnone : find (MessageModel.hasEmoji EmptyString) (msg_reactions m)
                    = None).
    { unfold MessageModel.reactionErrors in Hvalid.
      apply reactionErrorsFrom_nil in Hvalid.
      destruct (find (MessageModel.hasEmoji EmptyString) (msg_reactions m))
        as [r|] eqn:Hfind; [|reflexivity].
      apply find_some in Hfind. destruct Hfind as [Hin Hr].
      rewrite Forall_forall in Hvalid. apply Hvalid in Hin.
      unfold MessageModel.hasEmoji in Hr. apply String.eqb_eq in Hr.
      contradiction. }
    unfold MessageModel.addReactionTo. rewrite Hnone.
    unfold MessageModel.reactionErrors in *.
    rewrite reactionErrorsFrom_app, Hvalid, Nat.add_0_r. reflexivity.
  - unfold MessageModel.removeReaction.
    set (m1 := MessageModel.setReactions
                 (MessageModel.removeReactionFrom emoji userId (msg_reactions m)) m).
    destruct (message_save_run now [MessageModel.PathReactions] m1 s)
      as (s1 & Hrun & Hm & _).
    { rewrite validate_reactions. apply removeReactionFrom_valid. exact Hvalid. }
    exists m1, s1. split; [exact Hrun|]. split.
    + apply removeReactionFrom_inv. exact Hinv.
    + rewrite Hm. change (msg_id m) with (msg_id m1). apply findById_upsert.
Qed.

Lemma C9_witness :
  Forall reactionInv (msg_reactions Sample.reacted)
  /\ MessageModel.reactionErrors (msg_reactions Sample.reacted) = []
  /\ (exists m1 s1,
        MessageModel.addReaction 5 "ok" 3 Sample.reacted
          (Sample.store [] [Sample.reacted]) = (Ok m1, s1)
        /\ Forall reactionInv (msg_reactions m1)
        /\ findById msg_id (msg_id Sample.reacted) (messages s1) = Some m1)
  /\ MessageModel.addReaction 5 EmptyString 3 Sample.reacted
       (Sample.store [] [Sample.reacted])
     = (Throw (ValidationError "Message"
                 [("reactions.1.emoji", "Path `emoji` is required.")]),
        Sample.store [] [Sample.reacted])
  /\ exists m1 s1,
       MessageModel.removeReaction 5 "ok" 2 Sample.reacted
         (Sample.store [] [Sample.reacted]) = (Ok m1, s1)
       /\ Forall reactionInv (msg_reactions m1)
       /\ findById msg_id (msg_id Sample.reacted) (messages s1) = Some m1.
Proof.
  assert (H : Forall reactionInv (msg_reactions Sample.reacted)).
  { repeat constructor; simpl; try discriminate. intros []. }
  split; [exact H|]. split; [reflexivity|].
  destruct (C9_reactions_invariant_and_idempotence 5 5 "ok" 3 Sample.reacted
              (Sample.store [] [Sample.reacted]) H eq_refl)
    as (Hadd & _ & _).
  destruct (C9_reactions_invariant_and_idempotence 5 5 EmptyString 3
              Sample.reacted (Sample.store [] [Sample.reacted]) H eq_refl)
    as (_ & Hempty & _).
  destruct (C9_reactions_invariant_and_idempotence 5 5 "ok" 2 Sample.reacted
              (Sample.store [] [Sample.reacted]) H eq_refl)
    as (_ & _ & Hremove).
  split; [|split; [exact (Hempty eq_refl)|exact Hremove]].
  destruct Hadd as (m1 & s1 & Hrun & Hinv1 & Hfind & _); [discriminate|].
  exists m1, s1. auto.
Defined.

(** ** Numbers *)

Section NumberFacts.
Import JsNumber.

Lemma digits2_pos_iter_xO (p k : positive) :
  digits2_pos (Pos.iter xO p k) = (digits2_pos p + k)%positive.
Proof.
  induction k as [|k IH] using Pos.peano_ind.
  - simpl. lia.
  - rewrite Pos.iter_succ. simpl. rewrite IH. lia.
Qed.

Lemma digits2_pos_lower (p : positive) :
  2 ^ (Z.pos (digits2_pos p) - 1) <= Z.pos p.
Proof.
  induction p as [p IH|p IH|]; simpl digits2_pos.
  - rewrite Pos2Z.inj_succ.
    replace (Z.succ (Z.pos (digits2_pos p)) - 1)
      with (Z.succ (Z.pos (digits2_pos p) - 1)) by lia.
    rewrite Z.pow_succ_r by lia. lia.
  - rewrite Pos2Z.inj_succ.
    replace (Z.succ (Z.pos (digits2_pos p)) - 1)
      with (Z.succ (Z.pos (digits2_pos p) - 1)) by lia.
    rewrite Z.pow_succ_r by lia. lia.
  - simpl. lia.
Qed.

Lemma digits2_pos_le_prec (p : positive) :
  Z.pos p < 2 ^ 53 -> Z.pos (digits2_pos p) <= 53.
Proof.
  intros H.
  destruct (Z_le_gt_dec (Z.pos (digits2_pos p)) 53) as [|G]; [assumption|exfalso].
  pose proof (digits2_pos_lower p) as L.
  assert (2 ^ 53 <= 2 ^ (Z.pos (digits2_pos p) - 1))
    by (apply Z.pow_le_mono_r; lia).
  lia.
Qed.

(** A 53-bit mantissa with an exponent in range is its own rounding. *)
Lemma binary_round_aux_exact (m : positive) (e : Z) :
  Z.pos (digits2_pos m) = 53 -> -1074 <= e <= 971 ->
  binary_round_aux prec emax false (Z.pos m) e loc_Exact = S754_finite false m e.
Proof.
  intros Hd He.
  assert (Hf : fexp prec emax (Z.pos (digits2_pos m) + e) - e = 0).
  { unfold fexp, emin, prec, emax. rewrite Hd. lia. }
  unfold binary_round_aux, shr_fexp. cbn [Zdigits2].
  rewrite Hf.
  cbn [shr shr_record_of_loc shr_m loc_of_shr_record round_nearest_even Zdigits2].
  rewrite Hf. cbn [shr shr_m].
  replace (e <=? emax - prec)%Z with true; [reflexivity|].
  symmetry. apply Z.leb_le. unfold emax, prec. lia.
Qed.

(** A positive integer below [2^53] is a finite positive Number. *)
Lemma ofZ_pos_finite (p : positive) :
  Z.pos p < 2 ^ 53 -> exists m e, ofZ (Z.pos p) = S754_finite false m e.
Proof.
  intros H. apply digits2_pos_le_prec in H.
  unfold ofZ, binary_normalize, binary_round, shl_align.
  assert (Hf : fexp prec emax (Z.pos (digits2_pos p) + 0)
               = Z.pos (digits2_pos p) - 53).
  { unfold fexp, emin, prec, emax. lia. }
  rewrite Hf.
  destruct (Z.pos (digits2_pos p) - 53 - 0) as [|q|q] eqn:Hq; try lia.
  - exists p, 0. apply binary_round_aux_exact; lia.
  - exists (Pos.iter xO p q), (Z.pos (digits2_pos p) - 53).
    apply binary_round_aux_exact; [rewrite digits2_pos_iter_xO|]; lia.
Qed.

(** [x / x] is [1] for every finite positive [x]. *)
Lemma div_diag (m : positive) (e : Z) :
  div (S754_finite false m e) (S754_finite false m e) = ofZ 1.
Proof.
  unfold div, SFdiv, SFdiv_core_binary.
  replace (Zdigits2 (Z.pos m) + e - (Zdigits2 (Z.pos m) + e)) with 0 by lia.
  replace (e - e) with 0 by lia.
  change (Z.min (fexp prec emax 0) 0) with (-53).
  change (0 - -53) with 53.
  cbv iota beta.
  rewrite Z.shiftl_mul_pow2 by lia.
  assert (Hd : Z.div_eucl (Z.pos m * 2 ^ 53) (Z.pos m) = (2 ^ 53, 0)).
  { pose proof (Z.div_eucl_eq (Z.pos m * 2 ^ 53) (Z.pos m) ltac:(lia)) as E.
    pose proof (Z.mod_pos_bound (Z.pos m * 2 ^ 53) (Z.pos m) ltac:(lia)) as B.
    unfold Z.modulo in B.
    assert (Hq : (Z.pos m * 2 ^ 53) / Z.pos m = 2 ^ 53)
      by (rewrite Z.mul_comm; apply Z.div_mul; lia).
    unfold Z.div in Hq.
    destruct (Z.div_eucl (Z.pos m * 2 ^ 53) (Z.pos m)) as [q r].
    simpl in Hq. subst q. f_equal. lia. }
  rewrite Hd.
  assert (Hl : new_location (Z.pos m) 0 = loc_Exact).
  { unfold new_location, new_location_even, new_location_odd.
    destruct (Z.even (Z.pos m)); reflexivity. }
  rewrite Hl. vm_compute. reflexivity.
Qed.

Lemma percentageOf_all (n : nat) :
  (0 < n)%nat -> Z.of_nat n < 2 ^ 53 ->
  ProjectModel.percentageOf (ofNat n) (ofNat n) = ofZ 100.
Proof.
  intros Hpos Hlt. unfold ofNat.
  destruct (Z.of_nat n) as [|p|p] eqn:Hn; try lia.
  destruct (ofZ_pos_finite p Hlt) as (m & e & Hfin).
  unfold ProjectModel.percentageOf. rewrite Hfin, div_diag.
  vm_compute. reflexivity.
Qed.

Lemma percentageOf_none (done : Number) :
  ProjectModel.percentageOf done (ofNat 0) = ofZ 0.
Proof. reflexivity. Qed.

End NumberFacts.

(** ** Progress of a project *)

Lemma completedOf_all (ts : list Task) :
  Forall (fun t => t_status t = completed) ts ->
  ProjectModel.completedOf ts = ts.
Proof.
  intros H. unfold ProjectModel.completedOf.
  induction H as [|t ts Ht Hts IH]; simpl; [reflexivity|].
  rewrite Ht. simpl. rewrite IH. reflexivity.
Qed.

(** After a task save, the stored project of the task carries the counts of
    its tasks and the percentage computed from them. *)
Lemma task_save_recomputes_progress (now : Date) (d : TaskDoc) (s : Store)
    (project : Project) :
  let t := td_task (TaskModel.preSave now d) in
  findById p_id (t_project t) (projects s) = Some project ->
  exists d' s' p',
    TaskModel.save now d s = (Ok d', s')
    /\ tasks s' = upsert t_id t (tasks s)
    /\ findById p_id (t_project t) (projects s') = Some p'
    /\ totalTasks (p_progress p')
       = JsNumber.ofNat
           (List.length (ProjectModel.tasksOf (t_project t) (tasks s')))
    /\ completedTasks (p_progress p')
       = JsNumber.ofNat
           (List.length (ProjectModel.completedOf
                           (ProjectModel.tasksOf (t_project t) (tasks s'))))
    /\ percentage (p_progress p')
       = ProjectModel.percentageOf (completedTasks (p_progress p'))
                                   (totalTasks (p_progress p')).
Proof.
  intros t Hproject.
  assert (Hpid : p_id project = t_project t)
    by (apply findById_some in Hproject; tauto).
  unfold TaskModel.save. fold t.
  cbv [bind get setTasks log modify ret].
  unfold TaskModel.postSave.
  cbv [swallow bind get ret]. cbn [projects tasks].
  rewrite Hproject.
  match goal with
  | |- context [ProjectModel.updateProgress now project ?s1] =>
      destruct (updateProgress_run now project s1)
        as (p' & s' & Hrun & (_ & Ht & _) & Hid & Hps & Htot & Hdone & Hpct)
  end.
  rewrite Hrun. exists (loaded t), s', p'. cbn [tasks] in *.
  rewrite Hpid in *. rewrite Ht.
  repeat split; try assumption.
  rewrite Hps, <- Hid. apply findById_upsert.
Qed.

(** C1. After [updateProgress] (which ends in the pre-save hook), a project
    with at least one task, all of whose tasks are 'completed', has
    [progress.percentage = 100], and a project without tasks has
    [progress.percentage = 0]; the project is stored with that value. The
    pre-save hook alone gives the same on a project whose counters are
    those of its tasks. The number of tasks is below [2^53], as every array
    length is. *)
Theorem C1_all_completed_is_100_none_is_0 (now : Date) (p : Project) (s : Store) :
  let ts := ProjectModel.tasksOf (p_id p) (tasks s) in
  Z.of_nat (List.length ts) < 2 ^ 53 ->
  (exists p' s',
     ProjectModel.updateProgress now p s = (Ok p', s')
     /\ findById p_id (p_id p) (projects s') = Some p'
     /\ (ts <> [] -> Forall (fun t => t_status t = completed) ts ->
         percentage (p_progress p') = JsNumber.ofZ 100)
     /\ (ts = [] -> percentage (p_progress p') = JsNumber.ofZ 0))
  /\ (totalTasks (p_progress p) = JsNumber.ofNat (List.length ts) ->
      completedTasks (p_progress p)
        = JsNumber.ofNat (List.length (ProjectModel.completedOf ts)) ->
      (ts <> [] -> Forall (fun t => t_status t = completed) ts ->
       percentage (p_progress (ProjectModel.preSave p)) = JsNumber.ofZ 100)
      /\ (ts = [] ->
          percentage (p_progress (ProjectModel.preSave p)) = JsNumber.ofZ 0)).
Proof.
  intros ts Hlt.
  assert (Hall : ts <> [] -> Forall (fun t => t_status t = completed) ts ->
                 ProjectModel.percentageOf
                   (JsNumber.ofNat (List.length (ProjectModel.completedOf ts)))
                   (JsNumber.ofNat (List.length ts)) = JsNumber.ofZ 100).
  { intros Hne Hc. rewrite (completedOf_all ts Hc).
    apply percentageOf_all; [|exact Hlt].
    destruct ts; [contradiction|simpl; lia]. }
  assert (Hnone : ts = [] ->
                  ProjectModel.percentageOf
                    (JsNumber.ofNat (List.length (ProjectModel.completedOf ts)))
                    (JsNumber.ofNat (List.length ts)) = JsNumber.ofZ 0).
  { intros ->. reflexivity. }
  split.
  - destruct (updateProgress_run now p s)
      as (p' & s' & Hrun & _ & Hid & Hps & Htot & Hdone & Hpct).
    exists p', s'. split; [exact Hrun|]. split.
    + rewrite Hps, <- Hid. apply findById_upsert.
    + fold ts in Htot, Hdone. rewrite Hpct, Htot, Hdone. split; assumption.
  - intros Htot Hdone. simpl. rewrite Htot, Hdone. split; assumption.
Qed.

Lemma C1_witness :
  let s := Sample.store (Sample.tasksWith completed 100 3) [] in
  Z.of_nat (List.length (ProjectModel.tasksOf (p_id Sample.project) (tasks s)))
    < 2 ^ 53
  /\ exists p' s',
       ProjectModel.updateProgress 9 Sample.project s = (Ok p', s')
       /\ findById p_id (p_id Sample.project) (projects s') = Some p'
       /\ percentage (p_progress p') = JsNumber.ofZ 100.
Proof.
  intros s.
  assert (H : Z.of_nat (List.length
                (ProjectModel.tasksOf (p_id Sample.project) (tasks s))) < 2 ^ 53)
    by (vm_compute; reflexivity).
  split; [exact H|].
  destruct (C1_all_completed_is_100_none_is_0 9 Sample.project s H)
    as [(p' & s' & Hrun & Hfind & Hall & _) _].
  exists p', s'. split; [exact Hrun|]. split; [exact Hfind|].
  apply Hall; [discriminate|repeat constructor].
Defined.

(** C2. The counts stored on the project after a task save are those of its
    tasks, but the percentage is not always the rounding of
    [100 * completedTasks / totalTasks]: in a project of 40 tasks with 22
    completed, completing one more task stores the counts 40 and 23 and the
    percentage 57, where [100 * 23 / 40 = 57.5] rounds to 58. The quotient
    [23 / 40] is rounded to a double below 0.575 before it is multiplied.
    Other halves are rounded up by the same code: 1 task of 8 gives 13. *)
Theorem C2_percentage_23_of_40_is_57 :
  exists d' s' p',
    TaskModel.updateStatus 50 completed 1
      (loaded (Sample.task 122 todo None [])) Sample.store_22_of_40
    = (Ok d', s')
    /\ findById p_id 10 (projects s') = Some p'
    /\ List.length (ProjectModel.tasksOf 10 (tasks s')) = 40%nat
    /\ List.length (ProjectModel.completedOf (ProjectModel.tasksOf 10 (tasks s')))
       = 23%nat
    /\ totalTasks (p_progress p') = JsNumber.ofZ 40
    /\ completedTasks (p_progress p') = JsNumber.ofZ 23
    /\ percentage (p_progress p') = JsNumber.ofZ 57
    /\ statedPercentage 23 40 = 58
    /\ ProjectModel.percentageOf (JsNumber.ofZ 1) (JsNumber.ofZ 8)
       = JsNumber.ofZ 13
    /\ statedPercentage 1 8 = 13.
Proof.
  do 3 eexists. split; [vm_compute; reflexivity|].
  vm_compute. repeat split.
Qed.

(** ** Notifications sent by the routes *)

Lemma createNotification_run (now : Date) (d : NotificationModel.NotificationInput)
    (s : Store) :
  userExists s (NotificationModel.ni_recipient d) ->
  exists n s',
    NotificationModel.createNotification now d s = (Ok n, s')
    /\ users s' = users s /\ projects s' = projects s /\ tasks s' = tasks s
    /\ messages s' = messages s.
Proof.
  intros Hex. unfold userExists in Hex.
  unfold NotificationModel.createNotification.
  cbv [bind get freshId]. cbn [users].
  destruct (findById u_id (NotificationModel.ni_recipient d) (users s)) as [u|];
    [|contradiction].
  match goal with
  | |- context [NotificationModel.save now ?n ?s1] =>
      destruct (notification_save_run now n s1)
        as (s' & Hrun & _ & _ & Hu & Hp & Ht & Hm & _)
  end.
  rewrite Hrun. do 2 eexists. split; [reflexivity|]. simpl in *. auto.
Qed.

Lemma notifyAll_run (now : Date) (recipients : list ObjectId)
    (make : ObjectId -> NotificationModel.NotificationInput) (s : Store) :
  (forall r, In r recipients ->
             userExists s (NotificationModel.ni_recipient (make r))) ->
  exists s',
    TaskRoutes.notifyAll now recipients make s = (Ok tt, s')
    /\ users s' = users s /\ projects s' = projects s /\ tasks s' = tasks s
    /\ messages s' = messages s.
Proof.
  unfold TaskRoutes.notifyAll. revert s.
  induction recipients as [|r rest IH]; intros s Hex; simpl.
  - exists s. repeat split.
  - destruct (createNotification_run now (make r) s) as (n & s1 & Hrun & Hu & Hp & Ht & Hm).
    { apply Hex. left. reflexivity. }
    destruct (IH s1) as (s2 & Hrun2 & Hu2 & Hp2 & Ht2 & Hm2).
    { intros r' Hr'. unfold userExists. rewrite Hu. apply Hex. right. exact Hr'. }
    exists s2. split.
    + cbv [bind ret] in *. rewrite Hrun. exact Hrun2.
    + repeat split; congruence.
Qed.

Lemma assigneeAndWatchers_exist (user : User) (t : Task) (s : Store) :
  (forall w, In w (t_watchers t) -> w = u_id user \/ userExists s w) ->
  forall r, In r (TaskRoutes.assigneeAndWatchers user t s) -> userExists s r.
Proof.
  intros Hw r Hr. unfold TaskRoutes.assigneeAndWatchers in Hr.
  apply in_app_or in Hr. destruct Hr as [Hr|Hr].
  - unfold TaskRoutes.populatedAssignee in Hr.
    destruct (t_assignee t) as [a|]; [|contradiction].
    destruct (findById u_id a (users s)) as [u|] eqn:Hu; [|contradiction].
    destruct (negb (same_id (u_id u) (u_id user))); [|contradiction].
    destruct Hr as [<-|[]].
    pose proof (findById_some _ _ _ _ Hu) as [_ Hid].
    unfold userExists. rewrite Hid, Hu. discriminate.
  - apply filter_In in Hr. destruct Hr as [Hin Hne].
    destruct (Hw r Hin) as [->|H]; [|exact H].
    rewrite same_id_refl in Hne. discriminate.
Qed.

(** ** Updating a task *)

Lemma preSave_watchers (now : Date) (d : TaskDoc) :
  t_watchers (td_task (TaskModel.preSave now d)) = t_watchers (td_task d).
Proof.
  unfold TaskModel.preSave.
  destruct (td_statusModified d); [|reflexivity].
  destruct (TaskStatus_eqb (t_status (td_task d)) completed);
    [destruct (t_completedAt (td_task d))|]; reflexivity.
Qed.

Lemma TaskStatus_eqb_sym (a b : TaskStatus) :
  TaskStatus_eqb a b = TaskStatus_eqb b a.
Proof. destruct a, b; reflexivity. Qed.

Lemma assignStatus_fields (v : TaskStatus) (d : TaskDoc) :
  t_status (td_task (TaskModel.assignStatus v d)) = v
  /\ t_id (td_task (TaskModel.assignStatus v d)) = t_id (td_task d)
  /\ t_watchers (td_task (TaskModel.assignStatus v d)) = t_watchers (td_task d).
Proof.
  unfold TaskModel.assignStatus.
  destruct (TaskStatus_eqb (t_status (td_task d)) v) eqn:E; simpl.
  - apply TaskStatus_eqb_eq in E. auto.
  - auto.
Qed.

Lemma finishUpdate_run (now : Date) (user : User) (d : TaskDoc) (s : Store) :
  (forall w, In w (t_watchers (td_task d)) -> w = u_id user \/ userExists s w) ->
  exists s',
    TaskRoutes.finishUpdate now user d s
      = (Ok {| status := 200; site := TaskUpdated |}, s')
    /\ findById t_id (t_id (td_task d)) (tasks s')
       = Some (td_task (TaskModel.preSave now d)).
Proof.
  intros Hw. unfold TaskRoutes.finishUpdate.
  destruct (task_save_run now d s) as (s1 & Hsave & Hu1 & Ht1 & _).
  rewrite (bind_ok _ _ _ _ _ Hsave).
  rewrite (bind_ok _ _ s1 s1 s1) by reflexivity.
  cbn [td_task loaded].
  match goal with
  | |- context [TaskRoutes.notifyAll now ?rs ?mk] =>
      destruct (notifyAll_run now rs mk s1) as (s2 & Hn & _ & _ & Ht2 & _)
  end.
  { intros r Hr. cbn [NotificationModel.ni_recipient].
    apply assigneeAndWatchers_exist in Hr.
    - exact Hr.
    - intros w Hin. rewrite preSave_watchers in Hin.
      destruct (Hw w Hin) as [H|H]; [left; exact H|right].
      unfold userExists in *. rewrite Hu1. exact H. }
  rewrite (bind_ok _ _ _ _ _ Hn).
  eexists. split; [reflexivity|].
  cbn [tasks]. rewrite Ht2, Ht1, <- (preSave_id now d). apply findById_upsert.
Qed.

Lemma lacksPermission_false (flag : Permissions -> bool) (project : Project)
    (user : User) :
  TaskRoutes.lacksPermission flag project user = false <->
  ProjectModel.isOwner project (u_id user) = true
  \/ exists m, ProjectModel.findMember project (u_id user) = Some m
               /\ flag (m_permissions m) = true.
Proof.
  unfold TaskRoutes.lacksPermission.
  destruct (ProjectModel.isOwner project (u_id user)); simpl.
  - split; auto.
  - destruct (ProjectModel.findMember project (u_id user)) as [m|].
    + destruct (flag (m_permissions m)) eqn:F; simpl; split; intros H;
        try discriminate; try reflexivity.
      * right. exists m. auto.
      * destruct H as [H|(m' & Hm & Hf)]; [discriminate|].
        inversion Hm; subst. congruence.
    + split; intros H; [discriminate|].
      destruct H as [H|(m & Hm & _)]; discriminate.
Qed.

(** C3 (amended). On PUT /api/tasks/:id the precondition for changing a
    task's status is the permission to edit tasks: for the project's owner
    and for every member whose [canEditTasks] permission is set, a request
    setting [status] to any of the five statuses succeeds with 200 whatever
    the current status is, and the stored task has the new status; no
    transition between statuses is guarded. A member without [canEditTasks]
    (and anyone who is neither owner nor member) is answered 403 and the
    store is left as it was. The recipients of the notifications (the
    watchers of the task other than the requester) are stored users. *)
Theorem C3_put_status_requires_edit_permission
    (development : bool) (now : Date) (user : User) (id : ObjectId)
    (new : TaskStatus) (s : Store) (task : Task) (project : Project) :
  findById t_id id (tasks s) = Some task ->
  findById p_id (t_project task) (projects s) = Some project ->
  (forall w, In w (t_watchers task) -> w = u_id user \/ userExists s w) ->
  ((ProjectModel.isOwner project (u_id user) = true
    \/ exists m, ProjectModel.findMember project (u_id user) = Some m
                 /\ canEditTasks (m_permissions m) = true) ->
   exists s' t',
     respond development
       (TaskRoutes.putTask now user id (TaskRoutes.statusOnly new)) s
     = ({| status := 200; site := TaskUpdated |}, s')
     /\ findById t_id id (tasks s') = Some t'
     /\ t_status t' = new)
  /\ (TaskRoutes.lacksPermission canEditTasks project user = true ->
      exists r,
        respond development
          (TaskRoutes.putTask now user id (TaskRoutes.statusOnly new)) s
        = (r, s)
        /\ status r = 403%nat).
Proof.
  intros Htask Hproject Hw.
  pose proof (findById_some _ _ _ _ Htask) as [_ Hid].
  split.
  - intros Hperm. apply lacksPermission_false in Hperm.
    unfold respond, TaskRoutes.putTask.
    rewrite (bind_ok _ _ s s s) by reflexivity.
    unfold TaskRoutes.findPopulated. rewrite Htask, Hproject, Hperm.
    cbn [TaskRoutes.statusOnly TaskRoutes.up_assignee].
    rewrite (bind_ok _ _ s s (loaded task, TaskRoutes.statusOnly new))
      by reflexivity.
    cbn [TaskRoutes.statusOnly TaskRoutes.up_status loaded td_task].
    unfold TaskRoutes.changedFields.
    cbn [TaskRoutes.statusOnly TaskRoutes.up_title TaskRoutes.up_description
         TaskRoutes.up_assignee TaskRoutes.up_status TaskRoutes.up_priority
         TaskRoutes.up_dueDate TaskRoutes.up_progress
         TaskRoutes.up_actualHours app].
    rewrite (TaskStatus_eqb_sym new (t_status task)).
    destruct (TaskStatus_eqb (t_status task) new) eqn:E; cbn [negb].
    + (* the status is the current one *)
      apply TaskStatus_eqb_eq in E.
      rewrite (bind_ok _ _ s s (loaded task, TaskRoutes.statusOnly new))
        by reflexivity.
      cbv beta iota.
      match goal with
      | |- context [TaskRoutes.finishUpdate now user ?d s] =>
          destruct (finishUpdate_run now user d s) as (s' & Hrun & Hfind)
      end.
      { intros w Hin. apply Hw. revert Hin.
        unfold TaskRoutes.assignFields, TaskModel.onTask. cbn.
        rewrite (proj2 (proj2 (assignStatus_fields new (loaded task)))).
        exact (fun H => H). }
      rewrite Hrun. eexists. eexists. split; [reflexivity|]. split.
      * revert Hfind. unfold TaskRoutes.assignFields, TaskModel.onTask. cbn.
        rewrite (proj1 (proj2 (assignStatus_fields new (loaded task)))).
        cbn. rewrite Hid. exact (fun H => H).
      * rewrite preSave_status.
        unfold TaskRoutes.assignFields, TaskModel.onTask. cbn.
        apply (assignStatus_fields new (loaded task)).
    + (* the status changes *)
      unfold TaskModel.updateStatus.
      match goal with
      | |- context [TaskModel.save now ?d] =>
          destruct (task_save_run now d s) as (s1 & Hsave & Hu1 & Ht1 & _);
          pose proof (preSave_status now d) as Hst1;
          pose proof (preSave_watchers now d) as Hw1;
          pose proof (preSave_id now d) as Hid1;
          set (d1 := d) in *
      end.
      rewrite (bind_ok _ _ _ _ _ (bind_ok _ _ _ _ _ Hsave)).
      cbv [ret]. cbv beta iota.
      set (t1 := td_task (TaskModel.preSave now d1)) in *.
      assert (Hs1 : t_status t1 = new).
      { rewrite Hst1. subst d1. unfold TaskModel.addActivity, TaskModel.onTask.
        cbn. apply (assignStatus_fields new (loaded task)). }
      assert (Hwt1 : t_watchers t1 = t_watchers task).
      { rewrite Hw1. subst d1. unfold TaskModel.addActivity, TaskModel.onTask.
        cbn. apply (assignStatus_fields new (loaded task)). }
      assert (Hit1 : t_id t1 = id).
      { rewrite Hid1. subst d1. unfold TaskModel.addActivity, TaskModel.onTask.
        cbn. rewrite (proj1 (proj2 (assignStatus_fields new (loaded task)))).
        exact Hid. }
      match goal with
      | |- context [TaskRoutes.finishUpdate now user ?d s1] =>
          destruct (finishUpdate_run now user d s1) as (s' & Hrun & Hfind)
      end.
      { intros w Hin. cbn in Hin. rewrite Hwt1 in Hin.
        destruct (Hw w Hin) as [H|H]; [left; exact H|right].
        unfold userExists in *. rewrite Hu1. exact H. }
      rewrite Hrun. eexists. eexists. split; [reflexivity|]. split.
      * cbn in Hfind. rewrite Hit1 in Hfind. exact Hfind.
      * cbn. exact Hs1.
  - intros Hperm.
    unfold respond, TaskRoutes.putTask.
    rewrite (bind_ok _ _ s s s) by reflexivity.
    unfold TaskRoutes.findPopulated. rewrite Htask, Hproject, Hperm.
    cbv [throw errorHandler]. cbn.
    destruct development; eexists; split; reflexivity.
Qed.

Lemma C3_witness :
  let s := Sample.store [Sample.task 100 in_review None []] [] in
  findById t_id 100 (tasks s) = Some (Sample.task 100 in_review None [])
  /\ findById p_id 10 (projects s) = Some Sample.project
  /\ ProjectModel.isOwner Sample.project (u_id Sample.alice) = true
  /\ exists s' t',
       respond false
         (TaskRoutes.putTask 50 Sample.alice 100 (TaskRoutes.statusOnly todo)) s
       = ({| status := 200; site := TaskUpdated |}, s')
       /\ findById t_id 100 (tasks s') = Some t'
       /\ t_status t' = todo.
Proof.
  intros s. repeat split.
  apply (C3_put_status_requires_edit_permission false 50 Sample.alice 100 todo s
           (Sample.task 100 in_review None []) Sample.project).
  - reflexivity.
  - reflexivity.
  - intros w [].
  - left. reflexivity.
Defined.

(** C3 as stated fails: Bob is a member of the project of task 100, but his
    [canEditTasks] permission is not set, and his request to set the status
    is answered 403, the task keeping its status. *)
Lemma C3_counterexample :
  let s := Sample.store [Sample.task 100 todo None []] [] in
  ProjectModel.isMember Sample.project (u_id Sample.bob) = true
  /\ respond false
       (TaskRoutes.putTask 50 Sample.bob 100 (TaskRoutes.statusOnly completed)) s
     = ({| status := 403; site := SendErrorProdOperational |}, s)
  /\ findById t_id 100 (tasks s) = Some (Sample.task 100 todo None []).
Proof. intros s. repeat split. Qed.

(** ** Deleting a task *)

Lemma pullDependency_id (id : ObjectId) (t : Task) :
  t_id (TaskRoutes.pullDependency id t) = t_id t.
Proof.
  unfold TaskRoutes.pullDependency.
  destruct (existsb _ (t_dependencies t)); reflexivity.
Qed.





(** ** Requests of users outside the project *)

Lemma isMember_false_findMember (project : Project) (uid : ObjectId) :
  ProjectModel.isMember project uid = false ->
  ProjectModel.findMember project uid = None.
Proof.
  unfold ProjectModel.isMember, ProjectModel.findMember.
  induction (p_members project) as [|m ms IH]; simpl; [reflexivity|].
  destruct (same_id (m_user m) uid); simpl; [discriminate|exact IH].
Qed.

Lemma outsider_lacksPermission (flag : Permissions -> bool) (project : Project)
    (user : User) :
  ProjectModel.isOwner project (u_id user) = false ->
  ProjectModel.isMember project (u_id user) = false ->
  TaskRoutes.lacksPermission flag project user = true.
Proof.
  intros Ho Hm. unfold TaskRoutes.lacksPermission.
  rewrite Ho, (isMember_false_findMember _ _ Hm). reflexivity.
Qed.

Lemma outsider_isAdminMember (project : Project) (uid : ObjectId) :
  ProjectModel.isMember project uid = false ->
  MessageExtras.isAdminMember project uid = false.
Proof.
  intros Hm. unfold MessageExtras.isAdminMember.
  rewrite (isMember_false_findMember _ _ Hm). reflexivity.
Qed.

(** C5 (amended). For a user who is neither the owner of a project nor one
    of its members, every route of the task and message routers that
    addresses the project, one of its tasks or one of its messages is
    answered 403 and leaves the store as it was, with three exceptions.
    - On a task of the project: GET, PUT and DELETE /api/tasks/:id,
      POST /api/tasks/:id/comments, POST /api/tasks/:id/subtasks,
      PUT /api/tasks/:id/subtasks/:subtaskId/toggle and
      POST /api/tasks/:id/watch are denied. PUT /api/tasks/:id/status is
      denied unless the user is the task's assignee.
    - On a message of the project: GET /api/messages/:id,
      POST /api/messages/:id/reactions, POST /api/messages/:id/pin and
      GET /api/messages/:id/replies are denied. PUT /api/messages/:id and
      DELETE /api/messages/:id are denied unless the user is the message's
      author.
    - On the project itself: POST /api/tasks for the project, GET /api/tasks
      and the handler of GET /api/messages/search when the query names the
      project, and every route behind [requireProjectMember] (GET and POST
      /api/messages/project/:projectId, PUT
      /api/messages/project/:projectId/read-all) are denied, and the rest
      of their handlers does not run.
    The remaining routes of the two routers name no project, task or
    message: GET /api/tasks and the message search without a project,
    GET /api/tasks/overdue and GET /api/messages/unread/count list what
    belongs to the requester's own projects. *)
Theorem C5_outsider_is_denied
    (development : bool) (now : Date) (user : User) (s : Store)
    (project : Project) :
  ProjectModel.isOwner project (u_id user) = false ->
  ProjectModel.isMember project (u_id user) = false ->
  (forall id task,
     findById t_id id (tasks s) = Some task ->
     findById p_id (t_project task) (projects s) = Some project ->
     denied development (TaskRoutes.getTask user id) s
     /\ (forall updateData,
           denied development (TaskRoutes.putTask now user id updateData) s)
     /\ denied development (TaskRoutes.deleteTask user id) s
     /\ (forall content mentions,
           denied development
             (TaskRoutes.postComment now user id content mentions) s)
     /\ (forall title,
           denied development (TaskExtras.postSubtask now user id title) s)
     /\ (forall subtaskId,
           denied development
             (TaskExtras.putSubtaskToggle now user id subtaskId) s)
     /\ denied development (TaskExtras.postWatch now user id) s
     /\ (t_assignee task <> Some (u_id user) ->
         forall newStatus,
           denied development (TaskRoutes.putTaskStatus now user id newStatus) s))
  /\ (forall id message,
        findById msg_id id (messages s) = Some message ->
        findById p_id (msg_project message) (projects s) = Some project ->
        denied development (MessageRoutes.getMessage now user id) s
        /\ (forall emoji action,
              denied development
                (MessageRoutes.postReaction now user id emoji action) s)
        /\ denied development (MessageExtras.postPin now user id) s
        /\ denied development (MessageExtras.getReplies user id) s
        /\ (msg_author message <> u_id user ->
            (forall content,
               denied development
                 (MessageRoutes.putMessage now user id content) s)
            /\ denied development (MessageExtras.deleteMessage now user id) s))
  /\ (forall projectId,
        findById p_id projectId (projects s) = Some project ->
        (forall create,
           denied development (TaskExtras.postTask user projectId create) s)
        /\ (forall list,
              denied development
                (Listings.getTasks user (Some projectId) list) s)
        /\ (forall list,
              denied development
                (Listings.searchMessages user (Some projectId) list) s)
        /\ (forall next,
              AuthMiddleware.requireProjectMember user (Some projectId) next s
              = (Ok {| status := 403; site := MemberDenied |}, s))
        /\ denied development (MessageRoutes.putReadAll now user projectId) s).
Proof.
  intros Ho Hm.
  pose proof (outsider_lacksPermission canCreateTasks project user Ho Hm) as Hc.
  pose proof (outsider_lacksPermission canEditTasks project user Ho Hm) as He.
  pose proof (outsider_lacksPermission canDeleteTasks project user Ho Hm) as Hd.
  pose proof (outsider_isAdminMember project (u_id user) Hm) as Hadmin.
  split; [|split].
  - intros id task Htask Hproject. repeat split.
    + unfold denied, respond, TaskRoutes.getTask.
      rewrite (bind_ok _ _ s s s) by reflexivity.
      unfold TaskRoutes.findPopulated. rewrite Htask, Hproject, Ho, Hm. deny.
    + intros updateData. unfold denied, respond, TaskRoutes.putTask.
      rewrite (bind_ok _ _ s s s) by reflexivity.
      unfold TaskRoutes.findPopulated. rewrite Htask, Hproject, He. deny.
    + unfold denied, respond, TaskRoutes.deleteTask.
      rewrite (bind_ok _ _ s s s) by reflexivity.
      unfold TaskRoutes.findPopulated. rewrite Htask, Hproject, Hd. deny.
    + intros content mentions. unfold denied, respond, TaskRoutes.postComment.
      rewrite (bind_ok _ _ s s s) by reflexivity.
      unfold TaskRoutes.findPopulated. rewrite Htask, Hproject, Ho, Hm. deny.
    + intros title. unfold denied, respond, TaskExtras.postSubtask.
      rewrite (bind_ok _ _ s s s) by reflexivity.
      unfold TaskRoutes.findPopulated. rewrite Htask, Hproject, Ho, Hm. deny.
    + intros subtaskId. unfold denied, respond, TaskExtras.putSubtaskToggle.
      rewrite (bind_ok _ _ s s s) by reflexivity.
      unfold TaskRoutes.findPopulated. rewrite Htask, Hproject, Ho, Hm. deny.
    + unfold denied, respond, TaskExtras.postWatch.
      rewrite (bind_ok _ _ s s s) by reflexivity.
      unfold TaskRoutes.findPopulated. rewrite Htask, Hproject, Ho, Hm. deny.
    + intros Ha newStatus. unfold denied, respond, TaskRoutes.putTaskStatus.
      rewrite (bind_ok _ _ s s s) by reflexivity.
      unfold TaskRoutes.findPopulated. rewrite Htask, Hproject, Ho, Hm.
      assert (Hna : match t_assignee task with
                    | Some a => same_id a (u_id user)
                    | None => false
                    end = false).
      { destruct (t_assignee task) as [a|]; [|reflexivity].
        apply not_true_iff_false. rewrite same_id_eq. congruence. }
      rewrite Hna. deny.
  - intros id message Hmsg Hproject.
    split; [|split; [|split; [|split]]].
    + unfold denied, respond, MessageRoutes.getMessage.
      rewrite (bind_ok _ _ s s s) by reflexivity.
      unfold MessageRoutes.findPopulated. rewrite Hmsg, Hproject, Ho, Hm. deny.
    + intros emoji action. unfold denied, respond, MessageRoutes.postReaction.
      rewrite (bind_ok _ _ s s s) by reflexivity.
      unfold MessageRoutes.findPopulated. rewrite Hmsg, Hproject, Ho, Hm. deny.
    + unfold denied, respond, MessageExtras.postPin.
      rewrite (bind_ok _ _ s s s) by reflexivity.
      unfold MessageRoutes.findPopulated.
      rewrite Hmsg, Hproject, Ho, Hadmin. deny.
    + unfold denied, respond, MessageExtras.getReplies.
      rewrite (bind_ok _ _ s s s) by reflexivity.
      unfold MessageRoutes.findPopulated. rewrite Hmsg, Hproject, Ho, Hm. deny.
    + intros Ha.
      assert (Hna : same_id (msg_author message) (u_id user) = false).
      { apply not_true_iff_false. rewrite same_id_eq. exact Ha. }
      unfold ProjectModel.isOwner in Ho. split.
      * intros content. unfold denied, respond, MessageRoutes.putMessage.
        rewrite (bind_ok _ _ s s s) by reflexivity.
        unfold MessageRoutes.findPopulated. rewrite Hmsg, Hproject, Ho, Hna.
        deny.
      * unfold denied, respond, MessageExtras.deleteMessage.
        rewrite (bind_ok _ _ s s s) by reflexivity.
        unfold MessageRoutes.findPopulated. rewrite Hmsg, Hproject, Ho, Hna.
        deny.
  - intros projectId Hproject.
    assert (Hguard : forall next,
              AuthMiddleware.requireProjectMember user (Some projectId) next s
              = (Ok {| status := 403; site := MemberDenied |}, s)).
    { intros next. unfold AuthMiddleware.requireProjectMember.
      rewrite (bind_ok _ _ s s s) by reflexivity.
      rewrite Hproject, Ho, Hm. reflexivity. }
    split; [|split; [|split; [|split]]].
    + intros create. unfold denied, respond, TaskExtras.postTask.
      rewrite (bind_ok _ _ s s s) by reflexivity. rewrite Hproject, Hc. deny.
    + intros list. unfold denied, respond, Listings.getTasks,
        Listings.listScope.
      rewrite (bind_ok _ _ s s s) by reflexivity.
      rewrite Hproject, Ho, Hm. deny.
    + intros list. unfold denied, respond, Listings.searchMessages,
        Listings.listScope.
      rewrite (bind_ok _ _ s s s) by reflexivity.
      rewrite Hproject, Ho, Hm. deny.
    + exact Hguard.
    + unfold denied, respond, MessageRoutes.putReadAll. rewrite Hguard.
      eexists. split; reflexivity.
Qed.

Lemma C5_witness :
  let s := Sample.store [Sample.task 100 todo None []] [Sample.reacted] in
  ProjectModel.isOwner Sample.project (u_id Sample.carol) = false
  /\ ProjectModel.isMember Sample.project (u_id Sample.carol) = false
  /\ findById t_id 100 (tasks s) = Some (Sample.task 100 todo None [])
  /\ findById p_id 10 (projects s) = Some Sample.project
  /\ denied false (TaskRoutes.getTask Sample.carol 100) s
  /\ denied false
       (TaskRoutes.postComment 50 Sample.carol 100 "Looks good" []) s
  /\ denied false (TaskExtras.postSubtask 50 Sample.carol 100 "Review") s
  /\ denied false (MessageExtras.postPin 50 Sample.carol 200) s
  /\ denied false (TaskExtras.postTask Sample.carol 10 (fun _ => ret
       {| status := 201; site := TaskCreated |})) s.
Proof.
  intros s. do 4 (split; [reflexivity|]).
  destruct (C5_outsider_is_denied false 50 Sample.carol s Sample.project
              eq_refl eq_refl) as (Htasks & Hmessages & Hprojects).
  destruct (Htasks 100%N (Sample.task 100 todo None []) eq_refl eq_refl)
    as (Hget & _ & _ & Hcomment & Hsubtask & _).
  destruct (Hmessages 200%N Sample.reacted eq_refl eq_refl)
    as (_ & _ & Hpin & _).
  destruct (Hprojects 10%N eq_refl) as (Hcreate & _).
  split; [exact Hget|]. split; [apply Hcomment|]. split; [apply Hsubtask|].
  split; [exact Hpin|apply Hcreate].
Defined.

(** C5 as stated fails: Carol is neither the owner nor a member of the
    project, but she is the assignee of task 100 and the author of message
    200. Her PUT /api/tasks/100/status is answered 200 and completes the
    task, her PUT /api/messages/200 is answered 200 and rewrites the
    message, and her DELETE /api/messages/200 is answered 200 and marks the
    message as deleted. *)
Lemma C5_counterexample :
  let s := Sample.store [Sample.task 100 todo (Some 3%N) []]
             [Sample.message 200 3 []] in
  ProjectModel.isOwner Sample.project (u_id Sample.carol) = false
  /\ ProjectModel.isMember Sample.project (u_id Sample.carol) = false
  /\ (exists s' t',
        respond false (TaskRoutes.putTaskStatus 50 Sample.carol 100 completed) s
        = ({| status := 200; site := StatusUpdated |}, s')
        /\ findById t_id 100 (tasks s') = Some t'
        /\ t_status t' = completed)
  /\ (exists s' m',
        respond false (MessageRoutes.putMessage 50 Sample.carol 200 "Edited") s
        = ({| status := 200; site := MessageEdited |}, s')
        /\ findById msg_id 200 (messages s') = Some m'
        /\ msg_content m' = "Edited")
  /\ (exists s' m',
        respond false (MessageExtras.deleteMessage 50 Sample.carol 200) s
        = ({| status := 200; site := MessageDeleted |}, s')
        /\ findById msg_id 200 (messages s') = Some m'
        /\ msg_isDeleted m' = true).
Proof.
  intros s. split; [reflexivity|]. split; [reflexivity|].
  split; [|split].
  - do 2 eexists. split; [vm_compute; reflexivity|].
    split; [vm_compute; reflexivity|reflexivity].
  - do 2 eexists. split; [vm_compute; reflexivity|].
    split; [vm_compute; reflexivity|reflexivity].
  - do 2 eexists. split; [vm_compute; reflexivity|].
    split; [vm_compute; reflexivity|reflexivity].
Qed.

(** ** Bearer tokens *)

Lemma requiresToken_public (r : Server.Route) :
  Server.requiresToken r = false <-> In r publicRoutes.
Proof.
  unfold publicRoutes.
  destruct r; cbn; split; intros H; try reflexivity; try discriminate;
    try tauto;
    repeat (destruct H as [H|H]; [discriminate H|]); contradiction.
Qed.

(** C6 (amended). The routes that need no bearer token are the health
    check, registration, login, token refresh, password-reset initiation
    and password reset by emailed token; a request for them reaches the
    route's own chain without [authenticateToken] having run. On every
    other route a request without a bearer token, or with one that is
    invalid or expired, is answered 401 by [authenticateToken] before
    anything else of the route runs. Both hold for a request that the rate
    limiter lets through. *)
Theorem C6_token_required_except_public_routes
    (jwt_verify : string -> AuthMiddleware.JwtResult) (r : Server.Route)
    (authorization : option string) (s : Store) :
  (Server.requiresToken r = false <-> In r publicRoutes)
  /\ (Server.requiresToken r = false ->
      Server.enter jwt_verify false r authorization s = Server.Enters None)
  /\ (Server.requiresToken r = true ->
      noValidToken jwt_verify authorization ->
      exists resp,
        Server.enter jwt_verify false r authorization s = Server.Rejected resp
        /\ status resp = 401%nat
        /\ lookupKey "success" (body resp) = Some (SBool false)).
Proof.
  split; [apply requiresToken_public|]. split.
  - intros H. unfold Server.enter. rewrite H. reflexivity.
  - intros H Hno. unfold Server.enter. rewrite H.
    unfold AuthMiddleware.authenticateToken. unfold noValidToken in Hno.
    destruct (AuthMiddleware.bearerToken authorization) as [token|].
    + destruct Hno as [Hj|Hj]; rewrite Hj; cbn; eexists; repeat split.
    + eexists; repeat split.
Qed.

Lemma C6_witness :
  Server.requiresToken Server.GetTask = true
  /\ noValidToken Sample.jwt_verify (Some "Bearer old")
  /\ exists resp,
       Server.enter Sample.jwt_verify false Server.GetTask (Some "Bearer old")
         (Sample.store [] []) = Server.Rejected resp
       /\ status resp = 401%nat
       /\ lookupKey "success" (body resp) = Some (SBool false).
Proof.
  assert (H1 : Server.requiresToken Server.GetTask = true) by reflexivity.
  assert (H2 : noValidToken Sample.jwt_verify (Some "Bearer old"))
    by (right; reflexivity).
  split; [exact H1|]. split; [exact H2|].
  apply (C6_token_required_except_public_routes Sample.jwt_verify Server.GetTask
           (Some "Bearer old") (Sample.store [] [])); assumption.
Defined.

(** C6 as stated fails: token refresh and password reset by emailed token
    are neither registration, login nor password-reset initiation, yet a
    request without any [Authorization] header reaches their handlers, and
    so does one for the health check. *)
Lemma C6_counterexample :
  Server.enter Sample.jwt_verify false Server.PostRefresh None
    (Sample.store [] []) = Server.Enters None
  /\ Server.enter Sample.jwt_verify false Server.PostResetPassword None
       (Sample.store [] []) = Server.Enters None
  /\ Server.enter Sample.jwt_verify false Server.GetHealth None
       (Sample.store [] []) = Server.Enters None
  /\ ~ In Server.PostRefresh
         [Server.PostRegister; Server.PostLogin; Server.PostForgotPassword]
  /\ ~ In Server.PostResetPassword
         [Server.PostRegister; Server.PostLogin; Server.PostForgotPassword].
Proof.
  repeat split; intros H; repeat (destruct H as [H|H]; [discriminate H|]);
    contradiction.
Qed.

(** ** Shape of the responses *)

(** C7 (amended). Every JSON body sent by the auth, task, message and
    notification routes, the auth middleware, the error handler and the
    404 handler has a boolean [success]. A failure body has [message] and no
    [data]; a success body has [message], [data] or both, and no [error].
    The key [error] occurs only in the error handler's development-mode
    body. The bodies of the health check and of the placeholder user and
    project controllers have [message] and no [success]. *)
Theorem C7_response_bodies (site : Site) :
  (isPlaceholderOrHealth site = false ->
   exists b,
     lookupKey "success" (bodyOf site) = Some (SBool b)
     /\ (b = false ->
         hasKey "message" (bodyOf site) = true
         /\ hasKey "data" (bodyOf site) = false)
     /\ (b = true ->
         hasKey "message" (bodyOf site) || hasKey "data" (bodyOf site) = true
         /\ hasKey "error" (bodyOf site) = false)
     /\ (hasKey "error" (bodyOf site) = true ->
         exists hasStack, site = SendErrorDev hasStack))
  /\ (isPlaceholderOrHealth site = true ->
      hasKey "success" (bodyOf site) = false
      /\ hasKey "message" (bodyOf site) = true).
Proof.
  split.
  - intros Hp.
    destruct site; try discriminate Hp;
      repeat match goal with b : bool |- _ => destruct b end;
      (eexists; split; [reflexivity|];
       split; [intros Hb; try discriminate Hb; split; reflexivity|];
       split; [intros Hb; try discriminate Hb; split; reflexivity|];
       intros He; try discriminate He; eexists; reflexivity).
  - intros Hp. destruct site; try discriminate Hp; split; reflexivity.
Qed.

Lemma C7_witness :
  isPlaceholderOrHealth TaskUpdated = false
  /\ exists b,
       lookupKey "success" (bodyOf TaskUpdated) = Some (SBool b)
       /\ (b = false ->
           hasKey "message" (bodyOf TaskUpdated) = true
           /\ hasKey "data" (bodyOf TaskUpdated) = false)
       /\ (b = true ->
           hasKey "message" (bodyOf TaskUpdated)
             || hasKey "data" (bodyOf TaskUpdated) = true
           /\ hasKey "error" (bodyOf TaskUpdated) = false)
       /\ (hasKey "error" (bodyOf TaskUpdated) = true ->
           exists hasStack, TaskUpdated = SendErrorDev hasStack).
Proof.
  split; [reflexivity|].
  apply (C7_response_bodies TaskUpdated). reflexivity.
Defined.

(** C7 as stated fails: the body of GET /api/auth/me has no [message], the
    production error body has no [error], and the body of the health check
    has no [success]. *)
Lemma C7_counterexample :
  bodyOf CurrentUser = [("success", SBool true); ("data", SObject)]
  /\ hasKey "message" (bodyOf CurrentUser) = false
  /\ body (errorHandler false (AppError "Task not found" 404))
     = [("success", SBool false); ("message", SString)]
  /\ hasKey "error" (body (errorHandler false (AppError "Task not found" 404)))
     = false
  /\ hasKey "success" (bodyOf Health) = false.
Proof. repeat split. Qed.

(* ================================================================== *)
(** * Part III: further properties of the code *)
(* ================================================================== *)

(** ** Members and permissions of a project *)

Section MemberFacts.
Import ProjectMembers.

Lemma project_preSave_fields (p : Project) :
  p_id (ProjectModel.preSave p) = p_id p
  /\ p_owner (ProjectModel.preSave p) = p_owner p
  /\ p_members (ProjectModel.preSave p) = p_members p.
Proof. repeat split. Qed.

Lemma hasPermission_ext (p q : Project) :
  p_owner q = p_owner p -> p_members q = p_members p ->
  forall v k, hasPermission q v k = hasPermission p v k.
Proof.
  intros Ho Hm v k. unfold hasPermission, ProjectModel.findMember.
  rewrite Ho, Hm. reflexivity.
Qed.

Lemma findMember_none_notIn (p : Project) (uid : ObjectId) :
  ProjectModel.findMember p uid = None -> ~ In uid (map m_user (p_members p)).
Proof.
  unfold ProjectModel.findMember. intros Hnone Hin.
  apply in_map_iff in Hin. destruct Hin as (m & Hm & Hin).
  apply (find_none _ _ Hnone) in Hin. rewrite Hm, same_id_refl in Hin.
  discriminate.
Qed.

Lemma find_member_app (ms : list Member) (new : Member) (v : ObjectId) :
  find (fun m => same_id (m_user m) v) (ms ++ [new])
  = match find (fun m => same_id (m_user m) v) ms with
    | Some m => Some m
    | None => if same_id (m_user new) v then Some new else None
    end.
Proof.
  induction ms as [|m ms IH]; simpl; [reflexivity|].
  destruct (same_id (m_user m) v); [reflexivity|exact IH].
Qed.

Lemma flagOf_defaults (role : Role) (k : PermissionKey) :
  flagOf k (withOverrides (defaultPermissions role) noOverrides)
  = flagOf k (rolePermissions role).
Proof. destruct role, k; reflexivity. Qed.

Lemma saved_project (q : Project) (s : Store) :
  exists s',
    ProjectModel.save q s = (Ok (ProjectModel.preSave q), s')
    /\ findById p_id (p_id q) (projects s') = Some (ProjectModel.preSave q)
    /\ tasks s' = tasks s /\ users s' = users s.
Proof.
  destruct (project_save_run q s) as (s' & Hrun & (Hu & Ht & _) & Hp & _).
  exists s'. repeat split; try assumption.
  rewrite Hp. change (p_id q) with (p_id (ProjectModel.preSave q)).
  apply findById_upsert.
Qed.

(** X1. [addMember] for a user who is not yet a member stores the project
    with that user as a member, whose permissions are, without overrides,
    those that [updateMemberRole] gives the same role; the permissions of
    every other user stay as they were and no user becomes listed twice.
    Adding the same user again throws and writes nothing. *)
Theorem X1_addMember_adds_once
    (now : Date) (userId : ObjectId) (role : Role) (p : Project) (s : Store) :
  ProjectModel.findMember p userId = None ->
  exists p' s',
    addMember now userId role noOverrides p s = (Ok p', s')
    /\ findById p_id (p_id p) (projects s') = Some p'
    /\ ProjectModel.isMember p' userId = true
    /\ (same_id (p_owner p) userId = false ->
        forall k, hasPermission p' userId k = flagOf k (rolePermissions role))
    /\ (forall v k, v <> userId -> hasPermission p' v k = hasPermission p v k)
    /\ (distinctMembers p -> distinctMembers p')
    /\ (forall now' role' overrides,
          addMember now' userId role' overrides p' s'
          = (Throw (PlainError "User is already a member of this project"), s')).
Proof.
  intros Hnone. unfold addMember. rewrite Hnone.
  set (new := {| m_user := userId; m_role := role; m_joinedAt := now;
                 m_permissions :=
                   withOverrides (defaultPermissions role) noOverrides |}).
  set (q := setMembers (p_members p ++ [new]) p).
  destruct (saved_project q s) as (s' & Hrun & Hfind & _).
  exists (ProjectModel.preSave q), s'.
  assert (Hfm : ProjectModel.findMember (ProjectModel.preSave q) userId = Some new).
  { unfold ProjectModel.findMember. cbn [p_members ProjectModel.preSave
      ProjectModel.setProgress q setMembers].
    rewrite find_member_app. unfold ProjectModel.findMember in Hnone.
    rewrite Hnone. cbn. rewrite same_id_refl. reflexivity. }
  split; [exact Hrun|]. split; [exact Hfind|]. split; [|split; [|split; [|split]]].
  - unfold ProjectModel.isMember. cbn. rewrite existsb_app. cbn.
    rewrite same_id_refl. apply orb_true_iff. right. reflexivity.
  - intros Ho k. unfold hasPermission. cbn [p_owner ProjectModel.preSave
      ProjectModel.setProgress q setMembers]. rewrite Ho, Hfm.
    cbn [m_permissions new]. rewrite orb_false_r. apply flagOf_defaults.
  - intros v k Hv. unfold hasPermission, ProjectModel.findMember.
    cbn [p_owner p_members ProjectModel.preSave ProjectModel.setProgress q
         setMembers].
    rewrite find_member_app. cbn [m_user new].
    assert (Hne : same_id userId v = false).
    { apply not_true_iff_false. rewrite same_id_eq. congruence. }
    rewrite Hne. destruct (find _ (p_members p)); reflexivity.
  - unfold distinctMembers. cbn. intros Hnd. rewrite map_app. cbn.
    apply NoDup_app; [exact Hnd|repeat constructor; intros []|].
    intros a Ha [<-|[]]. exact (findMember_none_notIn p _ Hnone Ha).
  - intros now' role' overrides. rewrite Hfm. reflexivity.
Qed.

Lemma X1_witness :
  ProjectModel.findMember Fixtures.team 4 = None
  /\ exists p' s',
       addMember 7 4 RoleViewer noOverrides Fixtures.team
         (Fixtures.store [] [] []) = (Ok p', s')
       /\ findById p_id 10 (projects s') = Some p'
       /\ ProjectModel.isMember p' 4 = true.
Proof.
  split; [reflexivity|].
  destruct (X1_addMember_adds_once 7 4%N RoleViewer Fixtures.team
              (Fixtures.store [] [] []) eq_refl)
    as (p' & s' & Hrun & Hfind & Hmem & _).
  exists p', s'. auto.
Defined.

Lemma find_member_filter (ms : list Member) (userId v : ObjectId) :
  v <> userId ->
  find (fun m => same_id (m_user m) v)
    (filter (fun member => negb (same_id (m_user member) userId)) ms)
  = find (fun m => same_id (m_user m) v) ms.
Proof.
  intros Hv. induction ms as [|m ms IH]; simpl; [reflexivity|].
  destruct (same_id (m_user m) userId) eqn:E; simpl.
  - apply same_id_eq in E.
    assert (Hne : same_id (m_user m) v = false).
    { apply not_true_iff_false. rewrite same_id_eq. congruence. }
    rewrite Hne. exact IH.
  - destruct (same_id (m_user m) v); [reflexivity|exact IH].
Qed.

Lemma NoDup_users_filter (f : Member -> bool) (ms : list Member) :
  NoDup (map m_user ms) -> NoDup (map m_user (filter f ms)).
Proof.
  induction ms as [|m ms IH]; simpl; intros Hnd; [constructor|].
  inversion Hnd as [|? ? Hnotin Hnd']; subst.
  destruct (f m); simpl; [|auto].
  constructor; [|auto].
  intros Hin. apply Hnotin. apply in_map_iff in Hin.
  destruct Hin as (x & Hx & Hin). apply filter_In in Hin.
  apply in_map_iff. exists x. tauto.
Qed.

(** X2. [removeMember] refuses the owner and writes nothing; for any other
    user it stores the project without that user, who then holds no
    permission, while the permissions of every other user stay as they
    were and no user becomes listed twice. *)
Theorem X2_removeMember_revokes
    (userId : ObjectId) (p : Project) (s : Store) :
  (same_id (p_owner p) userId = true ->
   removeMember userId p s = (Throw (PlainError "Cannot remove project owner"), s))
  /\ (same_id (p_owner p) userId = false ->
      exists p' s',
        removeMember userId p s = (Ok p', s')
        /\ findById p_id (p_id p) (projects s') = Some p'
        /\ ProjectModel.isMember p' userId = false
        /\ (forall k, hasPermission p' userId k = false)
        /\ (forall v k, v <> userId -> hasPermission p' v k = hasPermission p v k)
        /\ (distinctMembers p -> distinctMembers p')).
Proof.
  split; intros Ho; unfold removeMember; rewrite Ho; [reflexivity|].
  set (q := setMembers
              (filter (fun member => negb (same_id (m_user member) userId))
                      (p_members p)) p).
  destruct (saved_project q s) as (s' & Hrun & Hfind & _).
  exists (ProjectModel.preSave q), s'.
  assert (Hgone : existsb (fun m => same_id (m_user m) userId)
                    (filter (fun member => negb (same_id (m_user member) userId))
                            (p_members p)) = false).
  { apply not_true_iff_false. rewrite existsb_exists.
    intros (m & Hin & Hm). apply filter_In in Hin. destruct Hin as [_ Hn].
    rewrite Hm in Hn. discriminate. }
  split; [exact Hrun|]. split; [exact Hfind|]. split; [|split; [|split]].
  - exact Hgone.
  - intros k. unfold hasPermission. cbn [p_owner ProjectModel.preSave
      ProjectModel.setProgress q setMembers]. rewrite Ho.
    rewrite (isMember_false_findMember (ProjectModel.preSave q) userId Hgone).
    reflexivity.
  - intros v k Hv. unfold hasPermission, ProjectModel.findMember.
    cbn [p_owner p_members ProjectModel.preSave ProjectModel.setProgress q
         setMembers].
    rewrite (find_member_filter (p_members p) userId v Hv). reflexivity.
  - unfold distinctMembers. cbn. apply NoDup_users_filter.
Qed.

Lemma X2_witness :
  same_id (p_owner Fixtures.team) 3 = false
  /\ exists p' s',
       removeMember 3 Fixtures.team (Fixtures.store [] [] []) = (Ok p', s')
       /\ ProjectModel.isMember p' 3 = false
       /\ hasPermission p' 3 KCreateTasks = false.
Proof.
  split; [reflexivity|].
  destruct (X2_removeMember_revokes 3%N Fixtures.team (Fixtures.store [] [] []))
    as [_ H].
  destruct (H eq_refl) as (p' & s' & Hrun & _ & Hmem & Hperm & _).
  exists p', s'. auto.
Defined.

Lemma updateFirst_users (userId : ObjectId) (f : Member -> Member)
    (ms : list Member) :
  (forall m, m_user (f m) = m_user m) ->
  map m_user (updateFirst (fun m => same_id (m_user m) userId) f ms)
  = map m_user ms.
Proof.
  intros Hf. induction ms as [|m ms IH]; simpl; [reflexivity|].
  destruct (same_id (m_user m) userId); simpl; [rewrite Hf|rewrite IH];
    reflexivity.
Qed.

Lemma find_updateFirst_other (userId v : ObjectId) (f : Member -> Member)
    (ms : list Member) :
  (forall m, m_user (f m) = m_user m) -> v <> userId ->
  find (fun m => same_id (m_user m) v)
    (updateFirst (fun m => same_id (m_user m) userId) f ms)
  = find (fun m => same_id (m_user m) v) ms.
Proof.
  intros Hf Hv. induction ms as [|m ms IH]; simpl; [reflexivity|].
  destruct (same_id (m_user m) userId) eqn:E; simpl.
  - rewrite Hf. apply same_id_eq in E.
    assert (Hne : same_id (m_user m) v = false).
    { apply not_true_iff_false. rewrite same_id_eq. congruence. }
    rewrite Hne. reflexivity.
  - destruct (same_id (m_user m) v); [reflexivity|exact IH].
Qed.

(** X3. [updateMemberRole] throws for a user who is not a member and for
    the owner unless the new role is 'owner', writing nothing. Otherwise it
    stores the project with the member's role changed and all five of the
    member's permission flags set to those of the new role; the list of
    members' users and the permissions of every other user stay as they
    were. *)
Theorem X3_updateMemberRole_sets_role_permissions
    (userId : ObjectId) (newRole : Role) (p : Project) (s : Store) :
  (ProjectModel.findMember p userId = None ->
   updateMemberRole userId newRole p s
   = (Throw (PlainError "User is not a member of this project"), s))
  /\ (forall m,
        ProjectModel.findMember p userId = Some m ->
        (same_id (p_owner p) userId && notOwnerRole newRole = true ->
         updateMemberRole userId newRole p s
         = (Throw (PlainError "Cannot change owner role"), s))
        /\ (same_id (p_owner p) userId && notOwnerRole newRole = false ->
            exists p' s',
              updateMemberRole userId newRole p s = (Ok p', s')
              /\ findById p_id (p_id p) (projects s') = Some p'
              /\ ProjectModel.findMember p' userId = Some (withRole newRole m)
              /\ m_role (withRole newRole m) = newRole
              /\ m_permissions (withRole newRole m) = rolePermissions newRole
              /\ map m_user (p_members p') = map m_user (p_members p)
              /\ (forall v k, v <> userId ->
                    hasPermission p' v k = hasPermission p v k))).
Proof.
  split.
  - intros Hnone. unfold updateMemberRole. rewrite Hnone. reflexivity.
  - intros m Hm. split; intros Hguard; unfold updateMemberRole;
      rewrite Hm, Hguard; [reflexivity|].
    set (q := setMembers
                (updateFirst (fun m => same_id (m_user m) userId)
                             (withRole newRole) (p_members p)) p).
    destruct (saved_project q s) as (s' & Hrun & Hfind & _).
    exists (ProjectModel.preSave q), s'.
    split; [exact Hrun|]. split; [exact Hfind|]. split; [|split; [|split; [|split]]].
    + unfold ProjectModel.findMember.
      cbn [p_members ProjectModel.preSave ProjectModel.setProgress q setMembers].
      apply find_updateFirst; [exact Hm|]. intros y Hy. exact Hy.
    + reflexivity.
    + destruct newRole; reflexivity.
    + cbn. apply updateFirst_users. reflexivity.
    + intros v k Hv. unfold hasPermission, ProjectModel.findMember.
      cbn [p_owner p_members ProjectModel.preSave ProjectModel.setProgress q
           setMembers].
      rewrite find_updateFirst_other; [reflexivity|reflexivity|exact Hv].
Qed.

Lemma X3_witness :
  ProjectModel.findMember Fixtures.team 3
    = Some {| m_user := 3; m_role := RoleMember; m_joinedAt := 0;
              m_permissions := rolePermissions RoleMember |}
  /\ same_id (p_owner Fixtures.team) 3 && notOwnerRole RoleViewer = false
  /\ exists p' s',
       updateMemberRole 3 RoleViewer Fixtures.team (Fixtures.store [] [] [])
       = (Ok p', s')
       /\ hasPermission p' 3 KEditTasks = false.
Proof.
  split; [reflexivity|]. split; [reflexivity|].
  destruct (X3_updateMemberRole_sets_role_permissions 3%N RoleViewer
              Fixtures.team (Fixtures.store [] [] [])) as [_ H].
  destruct (H _ eq_refl) as [_ H2].
  destruct (H2 eq_refl) as (p' & s' & Hrun & _ & Hfm & _).
  exists p', s'. split; [exact Hrun|].
  unfold hasPermission. rewrite Hfm.
  replace (same_id (p_owner p') 3) with false; [reflexivity|].
  revert Hrun. vm_compute. intros Hrun. inversion Hrun. reflexivity.
Defined.

(** X4. The permission checks agree. The inline check of the task routes
    ([!isOwner && (!member || !member.permissions[flag])]) rejects exactly
    when [hasPermission] is false, and so does [requireProjectPermission],
    which otherwise runs the rest of the route. The owner holds every
    permission, a user who is neither owner nor member holds none. *)
Theorem X4_permission_checks_agree
    (k : PermissionKey) (project : Project) (user : User) (s : Store)
    (next : Project -> M Response) :
  TaskRoutes.lacksPermission (flagOf k) project user
    = negb (hasPermission project (u_id user) k)
  /\ requireProjectPermission k user (Some project) None next s
     = (if hasPermission project (u_id user) k then next project s
        else (Ok {| status := 403; site := PermissionDenied |}, s))
  /\ (findById p_id (p_id project) (projects s) = Some project ->
      requireProjectPermission k user None (Some (p_id project)) next s
      = requireProjectPermission k user (Some project) None next s)
  /\ (ProjectModel.isOwner project (u_id user) = true ->
      hasPermission project (u_id user) k = true)
  /\ (ProjectModel.isOwner project (u_id user) = false ->
      ProjectModel.isMember project (u_id user) = false ->
      hasPermission project (u_id user) k = false).
Proof.
  repeat split.
  - unfold TaskRoutes.lacksPermission, hasPermission, ProjectModel.isOwner.
    destruct (same_id (p_owner project) (u_id user)); [reflexivity|].
    destruct (ProjectModel.findMember project (u_id user)); [|reflexivity].
    simpl. rewrite orb_false_r. reflexivity.
  - unfold requireProjectPermission.
    destruct (hasPermission project (u_id user) k); reflexivity.
  - intros Hfind. unfold requireProjectPermission.
    rewrite (bind_ok _ _ s s s) by reflexivity. rewrite Hfind. reflexivity.
  - unfold hasPermission, ProjectModel.isOwner. intros ->. reflexivity.
  - unfold hasPermission, ProjectModel.isOwner. intros -> Hm.
    rewrite (isMember_false_findMember _ _ Hm). reflexivity.
Qed.

Lemma X4_witness :
  ProjectModel.isOwner Fixtures.team (u_id Sample.alice) = true
  /\ hasPermission Fixtures.team (u_id Sample.alice) KDeleteTasks = true.
Proof.
  split; [reflexivity|].
  apply (X4_permission_checks_agree KDeleteTasks Fixtures.team Sample.alice
           (Fixtures.store [] [] []) (fun _ => ret {| status := 200; site := TaskDeleted |})).
  reflexivity.
Defined.

End MemberFacts.

(** ** Watchers, assignment, subtasks and overdue tasks *)

Section TaskFacts.
Import TaskExtras.

Lemma includes_app (l : list ObjectId) (x v : ObjectId) :
  includes (l ++ [x]) v = includes l v || same_id x v.
Proof.
  unfold includes. rewrite existsb_app. simpl. rewrite orb_false_r.
  reflexivity.
Qed.

Lemma same_id_sym (a b : ObjectId) : same_id a b = same_id b a.
Proof. apply N.eqb_sym. Qed.

Lemma same_id_neq (a b : ObjectId) : a <> b -> same_id a b = false.
Proof. intros H. apply not_true_iff_false. rewrite same_id_eq. exact H. Qed.

Lemma includes_without (l : list ObjectId) (x v : ObjectId) :
  includes (filter (fun w => negb (same_id w x)) l) v
  = includes l v && negb (same_id v x).
Proof.
  unfold includes. induction l as [|w l IH]; simpl; [reflexivity|].
  destruct (same_id w x) eqn:E; simpl; rewrite IH.
  - apply same_id_eq in E. subst w. rewrite (same_id_sym v x).
    destruct (same_id x v); simpl; [rewrite andb_false_r|]; reflexivity.
  - destruct (same_id w v) eqn:E2; simpl; [|reflexivity].
    apply same_id_eq in E2. subst v. rewrite E. reflexivity.
Qed.

Lemma NoDup_snoc (l : list ObjectId) (x : ObjectId) :
  NoDup l -> includes l x = false -> NoDup (l ++ [x]).
Proof.
  intros Hl Hx. apply NoDup_app; [exact Hl|repeat constructor; intros []|].
  intros y Hy [<-|[]]. apply includes_In in Hy. congruence.
Qed.

Lemma findPopulated_task (id : ObjectId) (s : Store) (task : Task)
    (project : option Project) :
  TaskRoutes.findPopulated id s = Some (task, project) ->
  findById t_id id (tasks s) = Some task /\ t_id task = id.
Proof.
  unfold TaskRoutes.findPopulated. intros H.
  destruct (findById t_id id (tasks s)) as [t|] eqn:E; [|discriminate].
  inversion H; subst. split; [reflexivity|].
  destruct (findById_some _ _ _ _ E) as [_ Hid]. exact Hid.
Qed.

Lemma task_preSave_fields (now : Date) (d : TaskDoc) :
  let t := td_task (TaskModel.preSave now d) in
  t_id t = t_id (td_task d) /\ t_status t = t_status (td_task d)
  /\ t_watchers t = t_watchers (td_task d)
  /\ t_assignee t = t_assignee (td_task d)
  /\ t_activity t = t_activity (td_task d)
  /\ t_project t = t_project (td_task d)
  /\ t_comments t = t_comments (td_task d).
Proof.
  unfold TaskModel.preSave.
  destruct (td_statusModified d); [|repeat split].
  destruct (TaskStatus_eqb (t_status (td_task d)) completed);
    [destruct (t_completedAt (td_task d))|]; repeat split.
Qed.

(** A save stores the task as the pre-save hook leaves it. *)
Lemma task_save_stored (now : Date) (d : TaskDoc) (s : Store) :
  exists s',
    TaskModel.save now d s
    = (Ok (loaded (td_task (TaskModel.preSave now d))), s')
    /\ findById t_id (t_id (td_task d)) (tasks s')
       = Some (td_task (TaskModel.preSave now d))
    /\ users s' = users s /\ messages s' = messages s
    /\ notifications s' = notifications s /\ nextId s' = nextId s.
Proof.
  destruct (task_save_run now d s) as (s' & Hrun & Hu & Ht & Hm & Hn & Hi).
  exists s'. split; [exact Hrun|].
  split; [|auto].
  rewrite Ht, <- (preSave_id now d). apply findById_upsert.
Qed.

(** X5. POST /api/tasks/:id/watch toggles whether the requester watches the
    task: for the owner or a member of the task's project the stored task
    lists the requester among its watchers exactly when it did not before,
    and whether any other user watches it is unchanged, as are the status
    and the assignee. Anyone else is refused with 403 and nothing is
    written. *)
Theorem X5_watch_toggles_requester
    (now : Date) (user : User) (id : ObjectId) (s : Store) (task : Task)
    (project : Project) :
  TaskRoutes.findPopulated id s = Some (task, Some project) ->
  (ProjectModel.isOwner project (u_id user)
     || ProjectModel.isMember project (u_id user) = false ->
   postWatch now user id s
   = (Throw (AppError "Access denied - not a project member" 403), s))
  /\ (ProjectModel.isOwner project (u_id user)
        || ProjectModel.isMember project (u_id user) = true ->
      exists s' task',
        postWatch now user id s
        = (Ok {| status := 200; site := WatchToggled |}, s')
        /\ findById t_id id (tasks s') = Some task'
        /\ includes (t_watchers task') (u_id user)
           = negb (includes (t_watchers task) (u_id user))
        /\ (forall v, v <> u_id user ->
                      includes (t_watchers task') v
                      = includes (t_watchers task) v)
        /\ t_status task' = t_status task
        /\ t_assignee task' = t_assignee task).
Proof.
  intros Hfind. pose proof (findPopulated_task _ _ _ _ Hfind) as [_ Hid].
  split; intros Hacc; unfold postWatch;
    rewrite (bind_ok _ _ s s s) by reflexivity; rewrite Hfind;
    apply orb_false_iff in Hacc || apply orb_true_iff in Hacc.
  - destruct Hacc as [-> ->]. reflexivity.
  - assert (Hguard : negb (ProjectModel.isOwner project (u_id user))
                     && negb (ProjectModel.isMember project (u_id user))
                     = false).
    { destruct Hacc as [-> | ->]; simpl; [|rewrite andb_false_r]; reflexivity. }
    rewrite Hguard.
    assert (Hsave : forall d,
              t_id (td_task d) = id ->
              exists s' task',
                TaskModel.save now d s = (Ok (loaded task'), s')
                /\ findById t_id id (tasks s') = Some task'
                /\ t_watchers task' = t_watchers (td_task d)
                /\ t_status task' = t_status (td_task d)
                /\ t_assignee task' = t_assignee (td_task d)).
    { intros d Hd.
      destruct (task_save_stored now d s) as (s' & Hrun & Hstored & _).
      destruct (task_preSave_fields now d) as (_ & Hst & Hws & Has & _).
      rewrite Hd in Hstored. eexists _, _. eauto. }
    destruct (includes (t_watchers task) (u_id user)) eqn:Hw.
    + unfold removeWatcher.
      match goal with
      | |- context [TaskModel.save now ?d] =>
          destruct (Hsave d Hid)
            as (s' & task' & Hrun & Hstored & Hws & Hst & Has)
      end.
      rewrite (bind_ok _ _ _ _ _ Hrun).
      exists s', task'. split; [reflexivity|]. split; [exact Hstored|].
      rewrite Hws, Hst, Has.
      cbn [t_watchers t_status t_assignee td_task TaskModel.onTask
           TaskModel.setWatchers loaded].
      split; [|split; [|split; reflexivity]].
      * rewrite includes_without, same_id_refl, andb_false_r. reflexivity.
      * intros v Hv. rewrite includes_without, (same_id_neq _ _ Hv).
        apply andb_true_r.
    + unfold addWatcher. cbn [loaded td_task]. rewrite Hw. cbn [negb].
      match goal with
      | |- context [TaskModel.save now ?d] =>
          destruct (Hsave d Hid)
            as (s' & task' & Hrun & Hstored & Hws & Hst & Has)
      end.
      rewrite (bind_ok _ _ _ _ _ Hrun).
      exists s', task'. split; [reflexivity|]. split; [exact Hstored|].
      rewrite Hws, Hst, Has.
      cbn [t_watchers t_status t_assignee td_task TaskModel.onTask
           TaskModel.setWatchers loaded].
      split; [|split; [|split; reflexivity]].
      * rewrite includes_app, same_id_refl, orb_true_r. reflexivity.
      * intros v Hv. rewrite includes_app, (same_id_neq (u_id user) v).
        -- apply orb_false_r.
        -- congruence.
Qed.

Lemma X5_witness :
  exists s' task',
    postWatch 7 Sample.carol 100
      (Fixtures.store [Fixtures.dueTask 100 todo None] [] [])
    = (Ok {| status := 200; site := WatchToggled |}, s')
    /\ findById t_id 100%N (tasks s') = Some task'
    /\ includes (t_watchers task') 3%N = true.
Proof.
  destruct (X5_watch_toggles_requester 7 Sample.carol 100%N
              (Fixtures.store [Fixtures.dueTask 100 todo None] [] [])
              (Fixtures.dueTask 100 todo None) Fixtures.team eq_refl)
    as [_ H].
  destruct (H eq_refl) as (s' & task' & Hrun & Hfind & Hw & _).
  exists s', task'. split; [exact Hrun|]. split; [exact Hfind|exact Hw].
Defined.

(** X6. [assignTo] stores the task with the new assignee, who from then
    on watches the task; whether any other user watches it is unchanged, a
    watcher list without repetition stays so, and the activity log gains
    exactly one entry, of type 'assigned', that records the previous and
    the new assignee and the assigning user. The status is untouched. *)
Theorem X6_assignTo_assigns_and_watches
    (now : Date) (assigneeId assignedBy : ObjectId) (d : TaskDoc) (s : Store) :
  exists task' s',
    TaskModel.assignTo now assigneeId assignedBy d s = (Ok (loaded task'), s')
    /\ findById t_id (t_id (td_task d)) (tasks s') = Some task'
    /\ t_assignee task' = Some assigneeId
    /\ includes (t_watchers task') assigneeId = true
    /\ (forall v, v <> assigneeId ->
                  includes (t_watchers task') v
                  = includes (t_watchers (td_task d)) v)
    /\ (NoDup (t_watchers (td_task d)) -> NoDup (t_watchers task'))
    /\ t_activity task'
       = (t_activity (td_task d)
            ++ [{| a_type := act_assigned; a_user := assignedBy;
                   a_description := "Task assigned to user";
                   a_oldValue := MxId (t_assignee (td_task d));
                   a_newValue := MxId (Some assigneeId);
                   a_timestamp := now |}])%list
    /\ t_status task' = t_status (td_task d).
Proof.
  unfold TaskModel.assignTo.
  match goal with
  | |- context [TaskModel.save now ?d3] =>
      destruct (task_save_stored now d3 s) as (s' & Hrun & Hstored & _);
      destruct (task_preSave_fields now d3)
        as (_ & Hst & Hws & Has & Hact & _);
      exists (td_task (TaskModel.preSave now d3)), s'
  end.
  split; [exact Hrun|]. split.
  { rewrite <- Hstored. f_equal.
    destruct (negb (includes _ assigneeId)); reflexivity. }
  rewrite Has, Hws, Hact, Hst. clear Hrun Hstored Hst Hws Has Hact.
  cbn [TaskModel.addActivity TaskModel.onTask td_task t_watchers
       TaskModel.setActivity TaskModel.setAssignee].
  destruct (includes (t_watchers (td_task d)) assigneeId) eqn:Hw;
    cbn [negb TaskModel.onTask td_task t_watchers t_assignee t_activity
         t_status TaskModel.setWatchers TaskModel.setActivity
         TaskModel.setAssignee].
  - repeat split; auto.
  - repeat split; auto.
    + rewrite includes_app, same_id_refl. apply orb_true_r.
    + intros v Hv. rewrite includes_app, (same_id_neq assigneeId v).
      * apply orb_false_r.
      * congruence.
    + intros Hnd. apply NoDup_snoc; assumption.
Qed.

(** X7. PUT /api/tasks/:id with an [assignee] that differs from the task's
    current one and is neither the owner nor a member of the project is
    answered 400, for a requester allowed to edit tasks, before anything is
    written: the store, its log included, is as it was. *)
Theorem X7_put_rejects_outside_assignee
    (now : Date) (user : User) (id assignee : ObjectId)
    (updateData : TaskRoutes.TaskUpdate) (s : Store) (task : Task)
    (project : Project) :
  TaskRoutes.findPopulated id s = Some (task, Some project) ->
  TaskRoutes.lacksPermission canEditTasks project user = false ->
  TaskRoutes.up_assignee updateData = Some assignee ->
  t_assignee task <> Some assignee ->
  ProjectModel.isOwner project assignee = false ->
  ProjectModel.isMember project assignee = false ->
  TaskRoutes.putTask now user id updateData s
  = (Throw (AppError "Assignee must be a project member" 400), s).
Proof.
  intros Hfind Hperm Hup Hne Hown Hmem. unfold TaskRoutes.putTask.
  rewrite (bind_ok _ _ s s s) by reflexivity. rewrite Hfind, Hperm, Hup.
  unfold ProjectModel.isOwner in Hown. rewrite Hown, Hmem.
  assert (Hdiff : match t_assignee task with
                  | Some current => negb (same_id assignee current)
                  | None => true
                  end = true).
  { destruct (t_assignee task) as [c|]; [|reflexivity].
    rewrite same_id_neq; [reflexivity|congruence]. }
  rewrite Hdiff. reflexivity.
Qed.

Lemma X7_witness :
  TaskRoutes.putTask 7 Sample.alice 100
    {| TaskRoutes.up_title := None; TaskRoutes.up_description := None;
       TaskRoutes.up_assignee := Some 4%N; TaskRoutes.up_status := None;
       TaskRoutes.up_priority := None; TaskRoutes.up_dueDate := None;
       TaskRoutes.up_progress := None; TaskRoutes.up_actualHours := None |}
    (Fixtures.store [Fixtures.dueTask 100 todo None] [] [])
  = (Throw (AppError "Assignee must be a project member" 400),
     Fixtures.store [Fixtures.dueTask 100 todo None] [] []).
Proof.
  apply (X7_put_rejects_outside_assignee 7 Sample.alice 100%N 4%N _ _
           (Fixtures.dueTask 100 todo None) Fixtures.team);
    try reflexivity.
  discriminate.
Defined.

Lemma task_preSave_subtasks (now : Date) (d : TaskDoc) :
  t_subtasks (td_task (TaskModel.preSave now d)) = t_subtasks (td_task d).
Proof.
  unfold TaskModel.preSave.
  destruct (td_statusModified d); [|reflexivity].
  destruct (TaskStatus_eqb (t_status (td_task d)) completed);
    [destruct (t_completedAt (td_task d))|]; reflexivity.
Qed.

Lemma subtaskErrorsFrom_app (i : nat) (l1 l2 : list Subtask) :
  TaskModel.subtaskErrorsFrom i (l1 ++ l2)
  = (TaskModel.subtaskErrorsFrom i l1
     ++ TaskModel.subtaskErrorsFrom (List.length l1 + i) l2)%list.
Proof.
  revert i. induction l1 as [|st l1 IH]; intros i; [reflexivity|].
  cbn [app TaskModel.subtaskErrorsFrom List.length].
  rewrite IH, <- app_assoc, Nat.add_succ_r. reflexivity.
Qed.

Lemma subtaskErrorsFrom_nil (i : nat) (l : list Subtask) :
  TaskModel.subtaskErrorsFrom i l = []
  <-> Forall (fun st => st_title st <> EmptyString) l.
Proof.
  revert i. induction l as [|st l IH]; intros i.
  - split; [constructor|reflexivity].
  - cbn [TaskModel.subtaskErrorsFrom].
    destruct (String.eqb_spec (st_title st) EmptyString) as [He|Hne].
    + split; [discriminate|]. intros H. inversion H; subst. contradiction.
    + cbn [app]. rewrite IH. split.
      * intros H. constructor; assumption.
      * intros H. inversion H; assumption.
Qed.

Lemma find_split {A} (p : A -> bool) (l : list A) (x : A) :
  find p l = Some x ->
  exists before after,
    l = (before ++ x :: after)%list
    /\ Forall (fun y => p y = false) before /\ p x = true.
Proof.
  induction l as [|y l IH]; simpl; [discriminate|].
  destruct (p y) eqn:Hy.
  - intros H. inversion H; subst. exists [], l. repeat split; auto.
  - intros H. destruct (IH H) as (before & after & -> & Hb & Hx).
    exists (y :: before), after. repeat split; auto.
Qed.

Lemma updateFirst_split {A} (p : A -> bool) (f : A -> A)
    (before after : list A) (x : A) :
  Forall (fun y => p y = false) before -> p x = true ->
  updateFirst p f (before ++ x :: after) = (before ++ f x :: after)%list.
Proof.
  intros Hb Hx. induction Hb as [|y before Hy Hb IH]; simpl.
  - rewrite Hx. reflexivity.
  - rewrite Hy, IH. reflexivity.
Qed.

Lemma find_after {A} (p : A -> bool) (before after : list A) (x : A) :
  Forall (fun y => p y = false) before -> p x = true ->
  find p (before ++ x :: after) = Some x.
Proof.
  intros Hb Hx. induction Hb as [|y before Hy Hb IH]; simpl.
  - rewrite Hx. reflexivity.
  - rewrite Hy. exact IH.
Qed.

Lemma task_saveSubtasks_stored (now : Date) (d : TaskDoc) (s : Store) :
  TaskModel.subtaskErrors (t_subtasks (td_task d)) = [] ->
  exists d' s',
    TaskModel.saveSubtasks now d s = (Ok d', s')
    /\ t_subtasks (td_task d') = t_subtasks (td_task d)
    /\ t_id (td_task d') = t_id (td_task d)
    /\ findById t_id (t_id (td_task d)) (tasks s') = Some (td_task d')
    /\ users s' = users s /\ messages s' = messages s
    /\ notifications s' = notifications s /\ nextId s' = nextId s.
Proof.
  intros Hvalid. unfold TaskModel.saveSubtasks. rewrite Hvalid.
  destruct (task_save_stored now d s) as (s' & Hrun & Hstored & Hrest).
  exists (loaded (td_task (TaskModel.preSave now d))), s'.
  split; [exact Hrun|]. cbn [loaded td_task].
  split; [apply task_preSave_subtasks|].
  split; [apply preSave_id|]. split; [exact Hstored|exact Hrest].
Qed.

Lemma toggleSubtask_run (now : Date) (subtaskId : ObjectId) (d : TaskDoc)
    (s : Store) (before after : list Subtask) (st : Subtask) :
  t_subtasks (td_task d) = (before ++ st :: after)%list ->
  Forall (fun x => same_id (st_id x) subtaskId = false) before ->
  same_id (st_id st) subtaskId = true ->
  TaskModel.subtaskErrors (t_subtasks (td_task d)) = [] ->
  exists d' s',
    TaskModel.toggleSubtask now subtaskId d s = (Ok d', s')
    /\ t_subtasks (td_task d')
       = (before ++ TaskModel.toggled now st :: after)%list
    /\ t_id (td_task d') = t_id (td_task d)
    /\ findById t_id (t_id (td_task d)) (tasks s') = Some (td_task d').
Proof.
  intros Hsplit Hb Hst Hvalid. unfold TaskModel.toggleSubtask.
  assert (Hfind : find (fun x => same_id (st_id x) subtaskId)
                    (t_subtasks (td_task d)) = Some st)
    by (rewrite Hsplit; apply find_after; assumption).
  rewrite Hfind.
  match goal with
  | |- context [TaskModel.saveSubtasks now ?d1] =>
      destruct (task_saveSubtasks_stored now d1 s)
        as (d' & s' & Hrun & Hsub & Hid & Hstored & _)
  end.
  - cbn [TaskModel.onTask td_task TaskModel.setSubtasks t_subtasks].
    rewrite Hsplit, updateFirst_split by assumption.
    unfold TaskModel.subtaskErrors in *.
    rewrite Hsplit in Hvalid. apply subtaskErrorsFrom_nil in Hvalid.
    apply subtaskErrorsFrom_nil.
    apply Forall_app in Hvalid. destruct Hvalid as (H1 & H2).
    apply Forall_app. split; [exact H1|].
    inversion H2; subst. constructor; assumption.
  - exists d', s'. split; [exact Hrun|].
    cbn [TaskModel.onTask td_task TaskModel.setSubtasks t_subtasks t_id]
      in Hsub, Hid, Hstored.
    rewrite Hsub, Hsplit, updateFirst_split by assumption.
    repeat split; assumption.
Qed.

(** X8. [addSubtask] and [toggleSubtask] on a task whose stored subtasks
    are valid (none has an empty title).
    - [addSubtask] with a title that is not blank stores the task with one
      more subtask at the end, open, without completion time, created now
      and titled with the trimmed title; the subtasks that were there are
      unchanged. With a blank title the save is rejected with a validation
      error for the new element's title, and neither a collection nor the
      operation log changes.
    - [toggleSubtask] throws 'Subtask not found' for an id no subtask has
      and leaves the store as it is. Otherwise it stores the task with the
      first subtask of that id toggled (flag flipped, completion time set
      to now when it becomes completed and cleared otherwise, title and
      creation time kept) and every other subtask unchanged; toggling
      once more restores every flag.
    - Both keep the property that every subtask has a completion time
      exactly when it is completed. *)
Theorem X8_subtasks_keep_completion_time
    (now : Date) (d : TaskDoc) (s : Store) :
  TaskModel.subtaskErrors (t_subtasks (td_task d)) = [] ->
  (forall title,
      JsString.trim title <> EmptyString ->
      exists d' s',
        TaskModel.addSubtask now title d s = (Ok d', s')
        /\ t_subtasks (td_task d')
           = (t_subtasks (td_task d)
              ++ [{| st_id := nextId s; st_title := JsString.trim title;
                     st_completed := false; st_completedAt := None;
                     st_createdAt := now |}])%list
        /\ findById t_id (t_id (td_task d)) (tasks s') = Some (td_task d')
        /\ (Forall subtaskInv (t_subtasks (td_task d)) ->
            Forall subtaskInv (t_subtasks (td_task d'))))
  /\ (forall title,
        JsString.trim title = EmptyString ->
        exists s',
          TaskModel.addSubtask now title d s
          = (Throw (ValidationError "Task"
                      [("subtasks."
                          ++ JsString.ofIndex
                               (List.length (t_subtasks (td_task d)))
                          ++ ".title",
                        "Path `title` is required.")]),
             s')
          /\ users s' = users s /\ projects s' = projects s
          /\ tasks s' = tasks s /\ messages s' = messages s
          /\ notifications s' = notifications s
          /\ oplog s' = oplog s /\ emitted s' = emitted s)
  /\ (forall subtaskId,
        find (fun st => same_id (st_id st) subtaskId) (t_subtasks (td_task d))
        = None ->
        TaskModel.toggleSubtask now subtaskId d s
        = (Throw (PlainError "Subtask not found"), s))
  /\ (forall subtaskId st,
        find (fun st => same_id (st_id st) subtaskId) (t_subtasks (td_task d))
        = Some st ->
        exists before after d' s',
          t_subtasks (td_task d) = (before ++ st :: after)%list
          /\ Forall (fun x => same_id (st_id x) subtaskId = false) before
          /\ TaskModel.toggleSubtask now subtaskId d s = (Ok d', s')
          /\ t_subtasks (td_task d')
             = (before
                ++ {| st_id := st_id st; st_title := st_title st;
                      st_completed := negb (st_completed st);
                      st_completedAt :=
                        if st_completed st then None else Some now;
                      st_createdAt := st_createdAt st |}
                :: after)%list
          /\ findById t_id (t_id (td_task d)) (tasks s') = Some (td_task d')
          /\ (Forall subtaskInv (t_subtasks (td_task d)) ->
              Forall subtaskInv (t_subtasks (td_task d')))
          /\ (forall now',
                exists d'' s'',
                  TaskModel.toggleSubtask now' subtaskId d' s' = (Ok d'', s'')
                  /\ map st_completed (t_subtasks (td_task d''))
                     = map st_completed (t_subtasks (td_task d)))).
Proof.
  intros Hvalid. split; [|split; [|split]].
  - intros title Htitle.
    cbv [TaskModel.addSubtask bind freshId].
    match goal with
    | |- context [TaskModel.saveSubtasks now ?d1 ?s1] =>
        destruct (task_saveSubtasks_stored now d1 s1)
          as (d' & s' & Hrun & Hsub & Hid & Hstored & _)
    end.
    + cbn [TaskModel.onTask td_task TaskModel.setSubtasks t_subtasks].
      unfold TaskModel.subtaskErrors in *.
      apply subtaskErrorsFrom_nil. apply subtaskErrorsFrom_nil in Hvalid.
      apply Forall_app. split; [exact Hvalid|].
      constructor; [exact Htitle|constructor].
    + exists d', s'. split; [exact Hrun|].
      cbn [TaskModel.onTask td_task TaskModel.setSubtasks t_subtasks t_id]
        in Hsub, Hid, Hstored.
      split; [exact Hsub|]. split; [exact Hstored|].
      intros Hinv. rewrite Hsub. apply Forall_app. split; [exact Hinv|].
      constructor; [|constructor].
      unfold subtaskInv. simpl. split; intros H; congruence.
  - intros title Htitle.
    cbv [TaskModel.addSubtask bind freshId].
    unfold TaskModel.saveSubtasks, TaskModel.subtaskErrors.
    cbn [TaskModel.onTask td_task TaskModel.setSubtasks t_subtasks].
    rewrite subtaskErrorsFrom_app. unfold TaskModel.subtaskErrors in Hvalid.
    rewrite Hvalid, Nat.add_0_r.
    cbn [app TaskModel.subtaskErrorsFrom st_title]. rewrite Htitle.
    cbn [String.eqb app]. eexists. split; [reflexivity|].
    repeat split.
  - intros subtaskId Hnone. unfold TaskModel.toggleSubtask.
    rewrite Hnone. reflexivity.
  - intros subtaskId st Hfind.
    destruct (find_split _ _ _ Hfind) as (before & after & Hsplit & Hb & Hst).
    destruct (toggleSubtask_run now subtaskId d s before after st
                Hsplit Hb Hst Hvalid)
      as (d' & s' & Hrun & Hsub & Hid & Hstored).
    exists before, after, d', s'.
    split; [exact Hsplit|]. split; [exact Hb|]. split; [exact Hrun|].
    assert (Htog : TaskModel.toggled now st
                   = {| st_id := st_id st; st_title := st_title st;
                        st_completed := negb (st_completed st);
                        st_completedAt :=
                          if st_completed st then None else Some now;
                        st_createdAt := st_createdAt st |}).
    { unfold TaskModel.toggled. destruct (st_completed st); reflexivity. }
    split; [rewrite Hsub, Htog; reflexivity|].
    split; [exact Hstored|]. split.
    + intros Hinv. rewrite Hsub. rewrite Hsplit in Hinv.
      apply Forall_app in Hinv. destruct Hinv as (H1 & H2).
      apply Forall_app. split; [exact H1|].
      inversion H2; subst. constructor; [|assumption].
      unfold subtaskInv, TaskModel.toggled. simpl.
      destruct (st_completed st); simpl; split; congruence.
    + intros now'.
      assert (Hvalid' : TaskModel.subtaskErrors (t_subtasks (td_task d')) = []).
      { unfold TaskModel.subtaskErrors in *. rewrite Hsub.
        rewrite Hsplit in Hvalid. apply subtaskErrorsFrom_nil in Hvalid.
        apply subtaskErrorsFrom_nil.
        apply Forall_app in Hvalid. destruct Hvalid as (H1 & H2).
        apply Forall_app. split; [exact H1|].
        inversion H2; subst. constructor; assumption. }
      destruct (toggleSubtask_run now' subtaskId d' s' before after
                  (TaskModel.toggled now st) Hsub Hb Hst Hvalid')
        as (d'' & s'' & Hrun' & Hsub' & _).
      exists d'', s''. split; [exact Hrun'|].
      rewrite Hsub', Hsplit, !map_app. cbn [map TaskModel.toggled st_completed].
      rewrite negb_involutive. reflexivity.
Qed.

Lemma X8_witness :
  exists d' s',
    TaskModel.addSubtask 9 "  Review  "
      (loaded (TaskModel.setSubtasks [Fixtures.subtask 1 true]
                 (Fixtures.dueTask 100 todo None)))
      (Fixtures.store [Fixtures.dueTask 100 todo None] [] [])
    = (Ok d', s')
    /\ map st_title (t_subtasks (td_task d')) = ["Proofread"; "Review"].
Proof.
  destruct (X8_subtasks_keep_completion_time 9
              (loaded (TaskModel.setSubtasks [Fixtures.subtask 1 true]
                         (Fixtures.dueTask 100 todo None)))
              (Fixtures.store [Fixtures.dueTask 100 todo None] [] [])
              eq_refl)
    as (Hadd & _).
  destruct (Hadd "  Review  ") as (d' & s' & Hrun & Hsub & _).
  - vm_compute. discriminate.
  - exists d', s'. split; [exact Hrun|]. rewrite Hsub. reflexivity.
Defined.

Lemma filter_all {A} (p : A -> bool) (l : list A) :
  Forall (fun x => p x = true) l -> filter p l = l.
Proof.
  intros H. induction H as [|x l Hx Hl IH]; simpl; [reflexivity|].
  rewrite Hx, IH. reflexivity.
Qed.

Lemma filter_none {A} (p : A -> bool) (l : list A) :
  Forall (fun x => p x = false) l -> filter p l = [].
Proof.
  intros H. induction H as [|x l Hx Hl IH]; simpl; [reflexivity|].
  rewrite Hx. exact IH.
Qed.

(** X9. The virtual [subtaskProgress] is the task's own [progress] only for
    a task without subtasks. With at least one subtask the task's
    [progress] is ignored: the value is 100 when every subtask is completed
    and 0 when none is. The number of subtasks is below [2^53], as every
    array length is. *)
Theorem X9_subtaskProgress_ends
    (subtasks : list Subtask) (progress : JsNumber.Number) :
  Z.of_nat (List.length subtasks) < 2 ^ 53 ->
  (subtasks = [] -> subtaskProgress subtasks progress = progress)
  /\ (subtasks <> [] ->
      Forall (fun st => st_completed st = true) subtasks ->
      subtaskProgress subtasks progress = JsNumber.ofZ 100)
  /\ (subtasks <> [] ->
      Forall (fun st => st_completed st = false) subtasks ->
      subtaskProgress subtasks progress = JsNumber.ofZ 0).
Proof.
  intros Hlt. split; [intros ->; reflexivity|].
  destruct subtasks as [|st0 rest]; [split; intros H; contradiction|].
  set (l := st0 :: rest) in *.
  assert (Hpos : exists p, Z.of_nat (List.length l) = Z.pos p).
  { unfold l. simpl List.length. rewrite Nat2Z.inj_succ.
    destruct (Z.succ (Z.of_nat (List.length rest))) eqn:E; try lia.
    eexists. reflexivity. }
  destruct Hpos as (p & Hp). rewrite Hp in Hlt.
  destruct (ofZ_pos_finite p Hlt) as (m & e & Hfin).
  assert (Hunfold : subtaskProgress l progress
                    = JsNumber.Math_round
                        (JsNumber.mul
                           (JsNumber.div
                              (JsNumber.ofNat
                                 (List.length (filter st_completed l)))
                              (JsNumber.ofNat (List.length l)))
                           (JsNumber.ofZ 100))) by reflexivity.
  rewrite Hunfold. clear Hunfold. split; intros _ Hall.
  - rewrite (filter_all _ _ Hall). unfold JsNumber.ofNat.
    rewrite Hp, Hfin, div_diag. vm_compute. reflexivity.
  - rewrite (filter_none _ _ Hall). unfold JsNumber.ofNat at 2.
    rewrite Hp, Hfin. reflexivity.
Qed.

Lemma X9_witness :
  subtaskProgress [Fixtures.subtask 1 true; Fixtures.subtask 2 true]
    (JsNumber.ofZ 40)
  = JsNumber.ofZ 100.
Proof.
  apply (X9_subtaskProgress_ends
           [Fixtures.subtask 1 true; Fixtures.subtask 2 true]).
  - vm_compute. reflexivity.
  - discriminate.
  - repeat constructor.
Defined.

Lemma dueBefore_total (a b : Task) :
  dueBefore a b = false -> dueBefore b a = true.
Proof.
  unfold dueBefore.
  destruct (t_dueDate a), (t_dueDate b); try discriminate; try reflexivity.
  intros H. apply Z.leb_gt in H. apply Z.leb_le. lia.
Qed.

Lemma insertByDue_In (t x : Task) (l : list Task) :
  In x (insertByDue t l) <-> x = t \/ In x l.
Proof.
  induction l as [|y l IH]; simpl.
  - split; [intros [<-|[]]; auto|intros [->|[]]; auto].
  - destruct (dueBefore t y); simpl; [split; intros [H|H]; subst; auto|].
    rewrite IH. split; intros H; decompose [or] H; subst; auto.
Qed.

Lemma sortByDue_In (x : Task) (l : list Task) :
  In x (sortByDue l) <-> In x l.
Proof.
  unfold sortByDue. induction l as [|y l IH]; simpl; [reflexivity|].
  rewrite insertByDue_In, IH. split; intros [H|H]; subst; auto.
Qed.

Lemma insertByDue_sorted (t : Task) (l : list Task) :
  Sorted (fun a b => dueBefore a b = true) l ->
  Sorted (fun a b => dueBefore a b = true) (insertByDue t l).
Proof.
  intros Hl. induction Hl as [|y l Hl IH Hhd]; simpl.
  - repeat constructor.
  - destruct (dueBefore t y) eqn:E.
    + constructor; [constructor; assumption|constructor; exact E].
    + constructor; [exact IH|].
      destruct l as [|z l]; simpl.
      * constructor. apply dueBefore_total. exact E.
      * destruct (dueBefore t z); constructor.
        -- apply dueBefore_total. exact E.
        -- inversion Hhd; assumption.
Qed.

Lemma sortByDue_sorted (l : list Task) :
  Sorted (fun a b => dueBefore a b = true) (sortByDue l).
Proof.
  unfold sortByDue. induction l as [|y l IH]; simpl; [constructor|].
  apply insertByDue_sorted. exact IH.
Qed.

(** X10. [getOverdueTasks] returns exactly the stored tasks (of the given
    project, when one is given) that are overdue in the sense of the
    virtual [isOverdue] and are not cancelled: a cancelled task past its
    due date counts as overdue for the virtual but is left out by the
    query. The result is in ascending order of due date: every task is due
    no later than all that follow it. *)
Theorem X10_overdue_tasks_sorted_not_cancelled
    (now : Date) (projectId : option ObjectId) (s : Store) :
  (forall t,
      In t (getOverdueTasks now projectId s) <->
      In t (tasks s) /\ isOverdue now t = true /\ t_status t <> cancelled
      /\ match projectId with
         | Some pid => t_project t = pid
         | None => True
         end)
  /\ StronglySorted
       (fun a b => exists x y, t_dueDate a = Some x /\ t_dueDate b = Some y
                               /\ x <= y)
       (getOverdueTasks now projectId s).
Proof.
  assert (Hin : forall t,
      In t (getOverdueTasks now projectId s) <->
      In t (tasks s) /\ isOverdue now t = true /\ t_status t <> cancelled
      /\ match projectId with
         | Some pid => t_project t = pid
         | None => True
         end).
  { intros t. unfold getOverdueTasks. rewrite sortByDue_In, filter_In.
    unfold isOverdue.
    destruct (t_dueDate t) as [due|]; simpl.
    - destruct (t_status t) eqn:Est; simpl;
        destruct (due <? now)%Z; simpl;
        destruct projectId as [pid|]; simpl;
        try rewrite same_id_eq;
        split; intros H; decompose [and] H; repeat split;
        try discriminate; try assumption; try reflexivity;
        try congruence.
    - split; intros H; decompose [and] H; discriminate. }
  split; [exact Hin|].
  assert (Hdue : Forall (fun t => t_dueDate t <> None)
                   (getOverdueTasks now projectId s)).
  { apply Forall_forall. intros t Ht. apply Hin in Ht.
    destruct Ht as (_ & Hov & _). unfold isOverdue in Hov.
    destruct (t_dueDate t); [discriminate|discriminate]. }
  pose proof (sortByDue_sorted
    (filter
       (fun t =>
          match t_dueDate t with
          | Some dueDate => (dueDate <? now)%Z
          | None => false
          end
          && negb (TaskStatus_eqb (t_status t) completed
                   || TaskStatus_eqb (t_status t) cancelled)
          && match projectId with
             | Some pid => same_id (t_project t) pid
             | None => true
             end)
       (tasks s))) as Hs.
  fold (getOverdueTasks now projectId s) in Hs.
  revert Hs Hdue. generalize (getOverdueTasks now projectId s) as l.
  intros l Hs Hdue. apply Sorted_StronglySorted.
  - intros a b c (x & y & Ha & Hb & Hxy) (y' & z & Hb' & Hc & Hyz).
    exists x, z. repeat split; try assumption. rewrite Hb in Hb'.
    inversion Hb'. lia.
  - induction Hs as [|a l Hs IH Hhd]; [constructor|].
    inversion Hdue as [|? ? Ha Hl]; subst.
    constructor; [apply IH; exact Hl|].
    destruct Hhd as [|b l Hab]; constructor.
    inversion Hl as [|? ? Hb _]; subst.
    unfold dueBefore in Hab.
    destruct (t_dueDate a) as [x|]; [|congruence].
    destruct (t_dueDate b) as [y|]; [|congruence].
    exists x, y. repeat split. apply Z.leb_le. exact Hab.
Qed.

End TaskFacts.

(** ** Pinning, deleting and reading messages *)

Section MessageFacts.
Import MessageExtras.

Lemma findPopulated_message (id : ObjectId) (s : Store) (message : Message)
    (project : option Project) :
  MessageRoutes.findPopulated id s = Some (message, project) ->
  findById msg_id id (messages s) = Some message /\ msg_id message = id.
Proof.
  unfold MessageRoutes.findPopulated. intros H.
  destruct (findById msg_id id (messages s)) as [m|] eqn:E; [|discriminate].
  inversion H; subst. split; [reflexivity|].
  destruct (findById_some _ _ _ _ E) as [_ Hid]. exact Hid.
Qed.

(** A save stores the message as it is and touches no other message. *)
Lemma message_save_stored (now : Date) (modified : list MessageModel.Path)
    (m : Message) (s : Store) :
  MessageModel.validate modified m = [] ->
  exists s',
    MessageModel.save now modified m s = (Ok m, s')
    /\ findById msg_id (msg_id m) (messages s') = Some m
    /\ (forall id, id <> msg_id m ->
                   findById msg_id id (messages s')
                   = findById msg_id id (messages s))
    /\ users s' = users s /\ tasks s' = tasks s
    /\ notifications s' = notifications s.
Proof.
  intros Hvalid.
  destruct (message_save_run now modified m s Hvalid)
    as (s' & Hrun & Hms & Hu & Ht & Hn & _).
  exists s'. split; [exact Hrun|]. rewrite Hms.
  split; [apply findById_upsert|]. split; [|auto].
  intros id Hid. apply findById_upsert_other. congruence.
Qed.

(** X11. POST /api/messages/:id/pin toggles the pin of a message for the
    project's owner and for members with role 'admin': the stored message
    is pinned exactly when it was not before, a pinned message carries the
    pin time and the requester as pinning user, an unpinned one carries
    neither, and content, reactions and read marks are untouched. Every
    other user, plain members included, is refused with 403 and nothing is
    written. *)
Theorem X11_pin_toggles_for_owner_and_admins
    (now : Date) (user : User) (id : ObjectId) (s : Store)
    (message : Message) (project : Project) :
  MessageRoutes.findPopulated id s = Some (message, Some project) ->
  (ProjectModel.isOwner project (u_id user)
     || isAdminMember project (u_id user) = false ->
   postPin now user id s
   = (Throw (AppError
        "Access denied - only project owners and admins can pin messages"
        403), s))
  /\ (ProjectModel.isOwner project (u_id user)
        || isAdminMember project (u_id user) = true ->
      exists s' message',
        postPin now user id s = (Ok {| status := 200; site := PinToggled |}, s')
        /\ findById msg_id id (messages s') = Some message'
        /\ msg_isPinned message' = negb (msg_isPinned message)
        /\ pinInv message'
        /\ (msg_isPinned message' = true ->
            msg_pinnedAt message' = Some now
            /\ msg_pinnedBy message' = Some (u_id user))
        /\ msg_content message' = msg_content message
        /\ msg_reactions message' = msg_reactions message
        /\ msg_readBy message' = msg_readBy message).
Proof.
  intros Hfind. pose proof (findPopulated_message _ _ _ _ Hfind) as [_ Hid].
  split; intros Hacc; unfold postPin;
    rewrite (bind_ok _ _ s s s) by reflexivity; rewrite Hfind;
    apply orb_false_iff in Hacc || apply orb_true_iff in Hacc.
  - destruct Hacc as [-> ->]. reflexivity.
  - assert (Hguard : negb (ProjectModel.isOwner project (u_id user))
                     && negb (isAdminMember project (u_id user)) = false).
    { destruct Hacc as [-> | ->]; simpl; [|rewrite andb_false_r]; reflexivity. }
    rewrite Hguard.
    destruct (msg_isPinned message) eqn:Hp; unfold unpin, pin;
      match goal with
      | |- context [MessageModel.save now [] ?m] =>
          destruct (message_save_stored now [] m s eq_refl)
            as (s' & Hrun & Hstored & _);
          rewrite (bind_ok _ _ _ _ _ Hrun);
          eexists _, m
      end;
      cbn [msg_id setPin] in Hstored; rewrite Hid in Hstored;
      (split; [cbv [bind emit modify ret]; reflexivity|]);
      cbn [messages]; (split; [exact Hstored|]);
      unfold pinInv; cbn; repeat split; congruence.
Qed.

Lemma X11_witness :
  exists s' message',
    postPin 7 Sample.bob 200 (Fixtures.store [] [Sample.message 200 3 []] [])
    = (Ok {| status := 200; site := PinToggled |}, s')
    /\ findById msg_id 200%N (messages s') = Some message'
    /\ msg_isPinned message' = true.
Proof.
  destruct (X11_pin_toggles_for_owner_and_admins 7 Sample.bob 200%N
              (Fixtures.store [] [Sample.message 200 3 []] [])
              (Sample.message 200 3 []) Fixtures.team eq_refl) as [_ H].
  destruct (H eq_refl) as (s' & m' & Hrun & Hfind & Hpin & _).
  exists s', m'. split; [exact Hrun|]. split; [exact Hfind|exact Hpin].
Defined.

(** X12. DELETE /api/messages/:id is a soft delete, open to the author of
    the message and to the owner of its project only. The message stays
    stored with its content, reactions and read marks; it is flagged
    deleted with the time of deletion, its JSON form shows
    '[Message deleted]' in place of the content, and it is unread for
    nobody. Other users, members included, get 403 and nothing is
    written. *)
Theorem X12_delete_message_is_soft
    (now : Date) (user : User) (id : ObjectId) (s : Store)
    (message : Message) (project : Project) :
  MessageRoutes.findPopulated id s = Some (message, Some project) ->
  (same_id (msg_author message) (u_id user)
     || same_id (p_owner project) (u_id user) = false ->
   deleteMessage now user id s
   = (Throw (AppError "Access denied - can only delete your own messages" 403),
      s))
  /\ (same_id (msg_author message) (u_id user)
        || same_id (p_owner project) (u_id user) = true ->
      exists s' message',
        deleteMessage now user id s
        = (Ok {| status := 200; site := MessageDeleted |}, s')
        /\ findById msg_id id (messages s') = Some message'
        /\ List.length (messages s') = List.length (messages s)
        /\ msg_isDeleted message' = true
        /\ msg_deletedAt message' = Some now
        /\ msg_content message' = msg_content message
        /\ jsonContent message' = "[Message deleted]"
        /\ msg_reactions message' = msg_reactions message
        /\ msg_readBy message' = msg_readBy message
        /\ (forall uid, isUnreadFor uid message' = false)).
Proof.
  intros Hfind.
  pose proof (findPopulated_message _ _ _ _ Hfind) as [Hstored0 Hid].
  split; intros Hacc; unfold deleteMessage;
    rewrite (bind_ok _ _ s s s) by reflexivity; rewrite Hfind;
    apply orb_false_iff in Hacc || apply orb_true_iff in Hacc.
  - destruct Hacc as [-> ->]. reflexivity.
  - assert (Hguard : negb (same_id (msg_author message) (u_id user))
                     && negb (same_id (p_owner project) (u_id user)) = false).
    { destruct Hacc as [-> | ->]; simpl; [|rewrite andb_false_r]; reflexivity. }
    rewrite Hguard. unfold softDelete.
    destruct (message_save_run now [] (setDeleted now message) s eq_refl)
      as (s' & Hrun & Hms & _).
    rewrite (bind_ok _ _ _ _ _ Hrun).
    eexists _, (setDeleted now message).
    split; [cbv [bind emit modify ret]; reflexivity|].
    cbn [messages]. rewrite Hms.
    assert (Hex : existsb (fun x => same_id (msg_id x)
                                      (msg_id (setDeleted now message)))
                    (messages s) = true).
    { apply existsb_exists. exists message. split.
      - apply (find_some _ _ Hstored0).
      - apply same_id_refl. }
    split; [rewrite <- Hid;
            apply (findById_upsert msg_id (setDeleted now message))|].
    split; [unfold upsert; rewrite Hex; apply length_map|].
    repeat split.
Qed.

Lemma X12_witness :
  exists s' message',
    deleteMessage 7 Sample.carol 200
      (Fixtures.store [] [Sample.message 200 3 []] [])
    = (Ok {| status := 200; site := MessageDeleted |}, s')
    /\ findById msg_id 200%N (messages s') = Some message'
    /\ jsonContent message' = "[Message deleted]".
Proof.
  destruct (X12_delete_message_is_soft 7 Sample.carol 200%N
              (Fixtures.store [] [Sample.message 200 3 []] [])
              (Sample.message 200 3 []) Fixtures.team eq_refl) as [_ H].
  destruct (H eq_refl) as (s' & m' & Hrun & Hfind & _ & _ & _ & _ & Hj & _).
  exists s', m'. split; [exact Hrun|]. split; [exact Hfind|exact Hj].
Defined.

Lemma existsb_find_none {A} (p : A -> bool) (l : list A) :
  find p l = None <-> existsb p l = false.
Proof.
  induction l as [|x l IH]; simpl; [tauto|].
  destruct (p x); simpl; [split; discriminate|exact IH].
Qed.

Lemma includes_map {A} (f : A -> ObjectId) (l : list A) (x : ObjectId) :
  includes (map f l) x = existsb (fun a => same_id (f a) x) l.
Proof.
  unfold includes. induction l as [|a l IH]; simpl; [|rewrite IH];
    reflexivity.
Qed.

Lemma readOnce_snoc (m : Message) (uid : ObjectId) (now : Date) :
  readOnce m ->
  existsb (fun r => same_id (rd_user r) uid) (msg_readBy m) = false ->
  readOnce (MessageModel.setReadBy
              (msg_readBy m ++ [{| rd_user := uid; rd_readAt := now |}]) m).
Proof.
  unfold readOnce. cbn [msg_readBy MessageModel.setReadBy].
  intros Hnd Hex. rewrite map_app. simpl.
  apply NoDup_snoc; [exact Hnd|].
  rewrite includes_map. exact Hex.
Qed.

Lemma existingRead_unpopulated (uid : ObjectId) (m : Message) :
  MessageModel.existingRead uid (MessageModel.unpopulated m)
  = Some (existsb (fun r => same_id (rd_user r) uid) (msg_readBy m)).
Proof.
  unfold MessageModel.unpopulated.
  induction (msg_readBy m) as [|r l IH]; [reflexivity|].
  cbn [map MessageModel.existingRead MessageModel.isReadBy existsb].
  destruct (same_id (rd_user r) uid); [reflexivity|exact IH].
Qed.

Lemma existingRead_populated (uid : ObjectId) (m : Message) (s : Store) :
  Forall (fun r => userExists s (rd_user r)) (msg_readBy m) ->
  MessageModel.existingRead uid (MessageRoutes.populateReaders m s)
  = Some false.
Proof.
  unfold MessageRoutes.populateReaders, userExists.
  induction (msg_readBy m) as [|r l IH]; intros Hall; [reflexivity|].
  inversion Hall as [|? ? Hr Hl]; subst.
  cbn [map MessageModel.existingRead].
  destruct (findById u_id (rd_user r) (users s)); [|contradiction].
  cbn [MessageModel.isReadBy]. apply IH. exact Hl.
Qed.

Lemma existingRead_missing (uid : ObjectId) (m : Message) (s : Store) :
  (exists r, In r (msg_readBy m)
             /\ findById u_id (rd_user r) (users s) = None) ->
  MessageModel.existingRead uid (MessageRoutes.populateReaders m s) = None.
Proof.
  unfold MessageRoutes.populateReaders.
  induction (msg_readBy m) as [|r l IH]; intros (x & Hin & Hx);
    [contradiction|].
  cbn [map MessageModel.existingRead].
  destruct (findById u_id (rd_user r) (users s)) eqn:E;
    cbn [MessageModel.isReadBy]; [|reflexivity].
  apply IH. destruct Hin as [->|Hin]; [congruence|].
  exists x. split; assumption.
Qed.

(** X13. GET /api/messages/:id, for the owner or a member of the project,
    adds a read mark for the requester on every request. The route
    populates [readBy.user] before it calls [markAsRead], so the search for
    the requester's mark compares the rendering of a user document with an
    id and finds nothing:
    - when every user with a read mark is stored, the route answers 200 and
      the stored message gains one mark, for the requester and at the end
      of the list, after which it is not unread for that user; a requester
      who already had a mark has two afterwards;
    - when the user of some read mark is no longer stored, the search
      reads a property of [null]: the route fails with a [TypeError] and
      writes nothing.
    [markAsRead] on a message loaded without that [populate] does mark
    once: it returns the message and leaves the store as it is when the
    user has a mark, and otherwise stores the message with one more mark,
    still with at most one mark per user. *)
Theorem X13_get_message_adds_a_read_mark_each_time
    (now : Date) (user : User) (id : ObjectId) (s : Store)
    (message : Message) (project : Project) :
  MessageRoutes.findPopulated id s = Some (message, Some project) ->
  ProjectModel.isOwner project (u_id user)
    || ProjectModel.isMember project (u_id user) = true ->
  (Forall (fun r => userExists s (rd_user r)) (msg_readBy message) ->
   exists s' message',
     MessageRoutes.getMessage now user id s
     = (Ok {| status := 200; site := MessageDetails |}, s')
     /\ findById msg_id id (messages s') = Some message'
     /\ msg_readBy message'
        = (msg_readBy message
             ++ [{| rd_user := u_id user; rd_readAt := now |}])%list
     /\ isUnreadFor (u_id user) message' = false
     /\ (existsb (fun r => same_id (rd_user r) (u_id user))
           (msg_readBy message) = true ->
         ~ readOnce message'))
  /\ ((exists r, In r (msg_readBy message)
                 /\ findById u_id (rd_user r) (users s) = None) ->
      MessageRoutes.getMessage now user id s
      = (Throw (TypeError "Cannot read properties of null (reading 'toString')"),
         s))
  /\ (existsb (fun r => same_id (rd_user r) (u_id user)) (msg_readBy message)
      = true ->
      MessageModel.markAsRead now (u_id user)
        (MessageModel.unpopulated message) message s
      = (Ok message, s))
  /\ (existsb (fun r => same_id (rd_user r) (u_id user)) (msg_readBy message)
      = false ->
      exists s' message',
        MessageModel.markAsRead now (u_id user)
          (MessageModel.unpopulated message) message s
        = (Ok message', s')
        /\ findById msg_id id (messages s') = Some message'
        /\ msg_readBy message'
           = (msg_readBy message
                ++ [{| rd_user := u_id user; rd_readAt := now |}])%list
        /\ (readOnce message -> readOnce message')).
Proof.
  intros Hfind Hacc.
  pose proof (findPopulated_message _ _ _ _ Hfind) as [_ Hid].
  assert (Hguard : negb (ProjectModel.isOwner project (u_id user))
                   && negb (ProjectModel.isMember project (u_id user))
                   = false).
  { apply orb_true_iff in Hacc.
    destruct Hacc as [-> | ->]; simpl; [|rewrite andb_false_r]; reflexivity. }
  split; [|split; [|split]].
  - intros Hall. unfold MessageRoutes.getMessage.
    rewrite (bind_ok _ _ s s s) by reflexivity. rewrite Hfind, Hguard.
    unfold MessageModel.markAsRead.
    rewrite (existingRead_populated _ _ _ Hall).
    match goal with
    | |- context [MessageModel.save now [] ?m] =>
        destruct (message_save_stored now [] m s eq_refl)
          as (s' & Hrun & Hstored & _);
        rewrite (bind_ok _ _ _ _ _ Hrun);
        exists s', m
    end.
    cbn [msg_id MessageModel.setReadBy] in Hstored. rewrite Hid in Hstored.
    split; [reflexivity|]. split; [exact Hstored|].
    split; [reflexivity|]. split.
    + unfold isUnreadFor. cbn [msg_readBy MessageModel.setReadBy].
      rewrite existsb_app. simpl. rewrite same_id_refl.
      rewrite !orb_true_r, andb_false_r. reflexivity.
    + intros Hread Hnd. unfold readOnce in Hnd.
      cbn [msg_readBy MessageModel.setReadBy] in Hnd.
      rewrite map_app in Hnd. cbn [map rd_user] in Hnd.
      apply NoDup_remove_2 in Hnd. apply Hnd. rewrite app_nil_r.
      apply existsb_exists in Hread. destruct Hread as (r & Hin & Hr).
      apply same_id_eq in Hr. rewrite <- Hr. apply in_map. exact Hin.
  - intros Hmissing. unfold MessageRoutes.getMessage.
    rewrite (bind_ok _ _ s s s) by reflexivity. rewrite Hfind, Hguard.
    unfold MessageModel.markAsRead.
    rewrite (existingRead_missing _ _ _ Hmissing). reflexivity.
  - intros Hread. unfold MessageModel.markAsRead.
    rewrite existingRead_unpopulated, Hread. reflexivity.
  - intros Hread. unfold MessageModel.markAsRead.
    rewrite existingRead_unpopulated, Hread.
    match goal with
    | |- context [MessageModel.save now [] ?m] =>
        destruct (message_save_stored now [] m s eq_refl)
          as (s' & Hrun & Hstored & _);
        exists s', m
    end.
    cbn [msg_id MessageModel.setReadBy] in Hstored. rewrite Hid in Hstored.
    split; [exact Hrun|]. split; [exact Hstored|].
    split; [reflexivity|].
    intros Hnd. apply readOnce_snoc; assumption.
Qed.

Lemma X13_witness :
  exists s' message',
    MessageRoutes.getMessage 7 Sample.bob 200
      (Fixtures.store []
         [MessageModel.setReadBy [{| rd_user := 2; rd_readAt := 3 |}]
            (Sample.message 200 3 [])] [])
    = (Ok {| status := 200; site := MessageDetails |}, s')
    /\ findById msg_id 200%N (messages s') = Some message'
    /\ msg_readBy message'
       = [{| rd_user := 2; rd_readAt := 3 |};
          {| rd_user := 2; rd_readAt := 7 |}].
Proof.
  destruct (X13_get_message_adds_a_read_mark_each_time 7 Sample.bob 200%N
              (Fixtures.store []
                 [MessageModel.setReadBy [{| rd_user := 2; rd_readAt := 3 |}]
                    (Sample.message 200 3 [])] [])
              (MessageModel.setReadBy [{| rd_user := 2; rd_readAt := 3 |}]
                 (Sample.message 200 3 []))
              Fixtures.team eq_refl eq_refl)
    as [H _].
  destruct H as (s' & m' & Hrun & Hfind & Hmarks & _).
  { repeat constructor. unfold userExists. simpl. discriminate. }
  exists s', m'. split; [exact Hrun|]. split; [exact Hfind|exact Hmarks].
Defined.

(** The update [read-all] applies to one message. *)
Lemma readAll_mark (now : Date) (uid projectId : ObjectId) (m : Message) :
  let m' := if same_id (msg_project m) projectId
               && negb (msg_isDeleted m)
               && negb (existsb (fun r => same_id (rd_user r) uid)
                          (msg_readBy m))
               && negb (same_id (msg_author m) uid)
            then MessageModel.setReadBy
                   (msg_readBy m ++ [{| rd_user := uid; rd_readAt := now |}]) m
            else m in
  msg_project m' = msg_project m
  /\ msg_id m' = msg_id m
  /\ same_id (msg_project m') projectId && isUnreadFor uid m' = false
  /\ (same_id (msg_project m) projectId && isUnreadFor uid m = false ->
      m' = m)
  /\ (same_id (msg_project m) projectId && isUnreadFor uid m = true ->
      isUnreadFor uid m' = false)
  /\ (readOnce m -> readOnce m').
Proof.
  unfold isUnreadFor.
  destruct (same_id (msg_project m) projectId) eqn:Hp;
    destruct (msg_isDeleted m) eqn:Hd;
    destruct (existsb (fun r => same_id (rd_user r) uid) (msg_readBy m)) eqn:Hr;
    destruct (same_id (msg_author m) uid) eqn:Ha;
    cbn [andb negb msg_project msg_id msg_isDeleted msg_readBy msg_author
         MessageModel.setReadBy];
    rewrite ?Hp, ?Hd, ?Hr, ?Ha; cbn [andb negb];
    repeat split; try discriminate; try (intros; assumption).
  - rewrite existsb_app. simpl. rewrite same_id_refl, orb_true_r. reflexivity.
  - rewrite existsb_app. simpl. rewrite same_id_refl, orb_true_r. reflexivity.
  - intros Hnd. apply readOnce_snoc; assumption.
Qed.

(** X14. PUT /api/messages/project/:projectId/read-all, for the owner or a
    member of the project, leaves no message of that project unread for the
    requester, and the requester's unread count over all projects drops by
    exactly the number of messages that were unread in this project.
    Messages of other projects are untouched, no message is added or
    removed, and no message gets a second read mark of one user. A user
    outside the project is answered 403 and nothing is written. *)
Theorem X14_read_all_clears_the_project
    (now : Date) (user : User) (projectId : ObjectId) (s : Store)
    (project : Project) :
  findById p_id projectId (projects s) = Some project ->
  (ProjectModel.isOwner project (u_id user)
     || ProjectModel.isMember project (u_id user) = false ->
   MessageRoutes.putReadAll now user projectId s
   = (Ok {| status := 403; site := MemberDenied |}, s))
  /\ (ProjectModel.isOwner project (u_id user)
        || ProjectModel.isMember project (u_id user) = true ->
      exists s',
        MessageRoutes.putReadAll now user projectId s
        = (Ok {| status := 200; site := AllMessagesRead |}, s')
        /\ unreadIn (u_id user) projectId s' = []
        /\ (unreadCount user s'
              + List.length (unreadIn (u_id user) projectId s)
            = unreadCount user s)%nat
        /\ (forall m, In m (messages s) -> msg_project m <> projectId ->
                      In m (messages s'))
        /\ map msg_id (messages s') = map msg_id (messages s)
        /\ (Forall readOnce (messages s) -> Forall readOnce (messages s'))).
Proof.
  intros Hfind. split; intros Hacc;
    unfold MessageRoutes.putReadAll, AuthMiddleware.requireProjectMember;
    rewrite (bind_ok _ _ s s s) by reflexivity; rewrite Hfind;
    apply orb_false_iff in Hacc || apply orb_true_iff in Hacc.
  - destruct Hacc as [-> ->]. reflexivity.
  - assert (Hguard : negb (ProjectModel.isOwner project (u_id user))
                     && negb (ProjectModel.isMember project (u_id user))
                     = false).
    { destruct Hacc as [-> | ->]; simpl; [|rewrite andb_false_r]; reflexivity. }
    rewrite Hguard. unfold MessageRoutes.readAllHandler.
    cbv [bind get setMessages log modify ret].
    eexists. split; [reflexivity|].
    assert (Hmine : includes (userProjects (u_id user) s) projectId = true).
    { apply includes_In. unfold userProjects.
      destruct (findById_some _ _ _ _ Hfind) as [Hin Hpid].
      rewrite <- Hpid. apply in_map. apply filter_In. split; [exact Hin|].
      apply orb_true_iff. exact Hacc. }
    unfold unreadIn, unreadCount, userProjects in *.
    cbn [messages projects].
    set (mine := map p_id
                   (filter (fun p => ProjectModel.isOwner p (u_id user)
                                     || ProjectModel.isMember p (u_id user))
                           (projects s))) in *.
    generalize (messages s) as l.
    intros l. repeat split.
    + induction l as [|m l IH]; simpl; [reflexivity|].
      destruct (readAll_mark now (u_id user) projectId m)
        as (_ & _ & Hno & _).
      cbv zeta in Hno. rewrite Hno. exact IH.
    + induction l as [|m l IH]; simpl; [reflexivity|].
      destruct (readAll_mark now (u_id user) projectId m)
        as (Hproj & _ & Hno & Hsame & Hread & _).
      cbv zeta in Hproj, Hno, Hsame, Hread.
      destruct (same_id (msg_project m) projectId
                && isUnreadFor (u_id user) m) eqn:Hq.
      * rewrite Hproj, (Hread eq_refl), andb_false_r. simpl List.length.
        apply andb_true_iff in Hq. destruct Hq as [Hp Hu].
        apply same_id_eq in Hp. rewrite Hp, Hmine, Hu. simpl.
        rewrite <- IH. lia.
      * rewrite (Hsame eq_refl).
        destruct (includes mine (msg_project m) && isUnreadFor (u_id user) m);
          simpl; rewrite <- IH; reflexivity.
    + intros m Hin Hne. apply in_map_iff. exists m. split; [|exact Hin].
      rewrite (same_id_neq _ _ Hne). reflexivity.
    + rewrite map_map. apply map_ext. intros m.
      apply (readAll_mark now (u_id user) projectId m).
    + intros Hall. apply Forall_map. revert Hall. apply Forall_impl.
      intros m. apply (readAll_mark now (u_id user) projectId m).
Qed.

Lemma X14_witness :
  exists s',
    MessageRoutes.putReadAll 7 Sample.bob 10
      (Fixtures.store [] [Sample.message 200 3 []; Sample.message 201 1 []] [])
    = (Ok {| status := 200; site := AllMessagesRead |}, s')
    /\ unreadCount Sample.bob s' = 0%nat.
Proof.
  destruct (X14_read_all_clears_the_project 7 Sample.bob 10%N
              (Fixtures.store []
                 [Sample.message 200 3 []; Sample.message 201 1 []] [])
              Fixtures.team eq_refl) as [_ H].
  destruct (H eq_refl) as (s' & Hrun & _ & Hcount & _).
  exists s'. split; [exact Hrun|].
  change (unreadCount Sample.bob
            (Fixtures.store []
               [Sample.message 200 3 []; Sample.message 201 1 []] []))
    with 2%nat in Hcount.
  change (List.length (unreadIn (u_id Sample.bob) 10
            (Fixtures.store []
               [Sample.message 200 3 []; Sample.message 201 1 []] [])))
    with 2%nat in Hcount.
  lia.
Defined.

Lemma contentErrors_nil (content : string) :
  content <> EmptyString -> (JsString.length content <= 5000)%N ->
  MessageModel.contentErrors content = [].
Proof.
  intros Hne Hlen. unfold MessageModel.contentErrors.
  destruct (String.eqb_spec content EmptyString) as [He|_]; [contradiction|].
  destruct (N.ltb_spec 5000 (JsString.length content)) as [Hlt|_];
    [|reflexivity].
  apply N.lt_nge in Hlt. contradiction.
Qed.

Lemma validate_content (m : Message) :
  MessageModel.validate [MessageModel.PathContent] m
  = MessageModel.contentErrors (msg_content m).
Proof. unfold MessageModel.validate. simpl. apply app_nil_r. Qed.

(** X15. Editing never loses a content. On a message whose reactions are
    valid, after any sequence of [editContent] calls with contents the
    validators accept (not blank and at most 5000 characters once
    trimmed), the edit history followed by the current content lists, in
    order, what the history held before, the original content and every
    content set since, each trimmed as the schema stores it. After at least one edit the message is stored as
    edited with the time of the edit; its id, reactions and read marks are
    those it had. [editContent] with a blank content, or with one that is
    longer than 5000 characters after trimming, is rejected by the
    validation of the save with the schema's message, and the store is
    left as it was. *)
Theorem X15_edit_history_keeps_every_content
    (now : Date) (contents : list string) (m : Message) (s : Store) :
  MessageModel.reactionErrors (msg_reactions m) = [] ->
  (Forall (fun c => JsString.trim c <> EmptyString
                    /\ (JsString.length (JsString.trim c) <= 5000)%N)
          contents ->
   exists m' s',
     editAll now contents m s = (Ok m', s')
     /\ (map e_content (msg_editHistory m') ++ [msg_content m'])%list
        = (map e_content (msg_editHistory m)
           ++ msg_content m :: map JsString.trim contents)%list
     /\ (contents <> [] ->
         msg_isEdited m' = true /\ msg_editedAt m' = Some now
         /\ findById msg_id (msg_id m) (messages s') = Some m')
     /\ msg_id m' = msg_id m
     /\ msg_reactions m' = msg_reactions m
     /\ msg_readBy m' = msg_readBy m)
  /\ (forall c,
        JsString.trim c = EmptyString ->
        MessageModel.editContent now c m s
        = (Throw (ValidationError "Message"
                    [("content", "Message content is required")]), s))
  /\ (forall c,
        (5000 < JsString.length (JsString.trim c))%N ->
        MessageModel.editContent now c m s
        = (Throw (ValidationError "Message"
                    [("content",
                      "Message content cannot exceed 5000 characters")]), s)).
Proof.
  intros _. split; [|split].
  - revert m s. induction contents as [|c later IH]; intros m s Hall.
    + exists m, s. split; [reflexivity|]. split; [reflexivity|].
      split; [intros Hne; contradiction|auto].
    + inversion Hall as [|? ? (Hne & Hlen) Hlater]; subst.
      cbn [editAll]. unfold MessageModel.editContent.
      match goal with
      | |- context [MessageModel.save now ?md ?m1] =>
          destruct (message_save_stored now md m1 s)
            as (s1 & Hrun & Hstored & _);
          [rewrite validate_content; apply contentErrors_nil; assumption|];
          destruct (IH m1 s1 Hlater)
            as (m' & s' & Hrun' & Hhist & Hed & Hid & Hre & Hrd)
      end.
      exists m', s'. rewrite (bind_ok _ _ _ _ _ Hrun).
      split; [exact Hrun'|].
      cbn [msg_id msg_content msg_editHistory msg_reactions msg_readBy
           MessageModel.setEdited] in *.
      split; [|split; [|auto]].
      * rewrite Hhist, map_app, <- app_assoc. reflexivity.
      * intros _. destruct later as [|c' later'].
        -- cbn in Hrun'. inversion Hrun'; subst. auto.
        -- apply Hed. discriminate.
  - intros c Hblank. unfold MessageModel.editContent, MessageModel.save.
    rewrite validate_content. cbn [msg_content MessageModel.setEdited].
    rewrite Hblank. reflexivity.
  - intros c Hlong. unfold MessageModel.editContent, MessageModel.save.
    rewrite validate_content. cbn [msg_content MessageModel.setEdited].
    unfold MessageModel.contentErrors.
    destruct (String.eqb_spec (JsString.trim c) EmptyString) as [He|_].
    + rewrite He in Hlong. discriminate Hlong.
    + apply N.ltb_lt in Hlong. rewrite Hlong. reflexivity.
Qed.

Lemma X15_witness :
  exists m' s',
    editAll 7 ["  Hello "; "Bye"] (Sample.message 200 3 [])
      (Fixtures.store [] [Sample.message 200 3 []] [])
    = (Ok m', s')
    /\ (map e_content (msg_editHistory m') ++ [msg_content m'])%list
       = [msg_content (Sample.message 200 3 []); "Hello"; "Bye"].
Proof.
  destruct (X15_edit_history_keeps_every_content 7 ["  Hello "; "Bye"]
              (Sample.message 200 3 [])
              (Fixtures.store [] [Sample.message 200 3 []] []) eq_refl)
    as (H & _).
  destruct H as (m' & s' & Hrun & Hhist & _).
  { repeat constructor; vm_compute; discriminate. }
  exists m', s'. split; [exact Hrun|exact Hhist].
Defined.

End MessageFacts.

(** ** Notifications *)

Section NotificationFacts.
Import NotificationExtras.

Lemma upsert_fresh {A} (idOf : A -> ObjectId) (d : A) (c : list A) :
  findById idOf (idOf d) c = None -> upsert idOf d c = (c ++ [d])%list.
Proof.
  unfold findById, upsert. intros H. apply existsb_find_none in H.
  rewrite H. reflexivity.
Qed.

(** X16. [createNotification] throws 'Recipient user not found' and writes
    nothing when the recipient is not a stored user. Otherwise, for a title
    and a message the validators accept (not blank, at most 200 and 1000
    characters once trimmed), it stores a new notification under a new id:
    unread, without read time, with the title and message trimmed, and
    with priority 'medium' unless the caller names one. It expires when
    the caller says, and 30 days after its creation when the caller names
    no expiry. A caller that names no channels gets the in-app channel
    only, whatever the recipient prefers; of the channels a caller names,
    e-mail and push stay on only when the recipient's preferences allow
    them. When the new id is not in use, the recipient's count of unread
    notifications grows by one, provided the notification is not already
    expired, and nobody else's count changes. *)
Theorem X16_createNotification_stores_unread
    (now : Date) (d : NotificationModel.NotificationInput) (s : Store) :
  (findById u_id (NotificationModel.ni_recipient d) (users s) = None ->
   NotificationModel.createNotification now d s
   = (Throw (PlainError "Recipient user not found"), s))
  /\ (forall user,
        findById u_id (NotificationModel.ni_recipient d) (users s)
        = Some user ->
        JsString.trim (NotificationModel.ni_title d) <> EmptyString ->
        (JsString.length (JsString.trim (NotificationModel.ni_title d))
         <= 200)%N ->
        JsString.trim (NotificationModel.ni_message d) <> EmptyString ->
        (JsString.length (JsString.trim (NotificationModel.ni_message d))
         <= 1000)%N ->
        exists n s',
          NotificationModel.createNotification now d s = (Ok n, s')
          /\ findById n_id (n_id n) (notifications s') = Some n
          /\ n_id n = nextId s
          /\ n_recipient n = NotificationModel.ni_recipient d
          /\ n_isRead n = false /\ n_readAt n = None
          /\ n_title n = JsString.trim (NotificationModel.ni_title d)
          /\ n_message n = JsString.trim (NotificationModel.ni_message d)
          /\ n_expiresAt n
             = Some (match NotificationModel.ni_expiresAt d with
                     | Some expiresAt => expiresAt
                     | None => now + 2592000000
                     end)
          /\ n_channels n
             = match NotificationModel.ni_channels d with
               | None =>
                   {| ch_inApp := true; ch_email := false; ch_push := false |}
               | Some channels =>
                   {| ch_inApp := ch_inApp channels;
                      ch_email := ch_email channels && u_notifyEmail user;
                      ch_push := ch_push channels && u_notifyPush user |}
               end
          /\ n_priority n
             = match NotificationModel.ni_priority d with
               | Some p => p
               | None => medium
               end
          /\ (findById n_id (nextId s) (notifications s) = None ->
              forall userId,
                getUnreadCountForUser now userId None s'
                = (getUnreadCountForUser now userId None s
                   + (if same_id (NotificationModel.ni_recipient d) userId
                         && match NotificationModel.ni_expiresAt d with
                            | Some expiresAt => (now <? expiresAt)%Z
                            | None => true
                            end
                      then 1 else 0))%nat)).
Proof.
  split.
  - intros Hnone. unfold NotificationModel.createNotification.
    rewrite (bind_ok _ _ s s s) by reflexivity. rewrite Hnone. reflexivity.
  - intros user Huser _ _ _ _.
    unfold NotificationModel.createNotification.
    rewrite (bind_ok _ _ s s s) by reflexivity. rewrite Huser.
    cbv [bind freshId NotificationModel.save get setNotifications log modify
         ret].
    eexists _, _. split; [reflexivity|].
    cbn [notifications].
    split; [apply (findById_upsert n_id)|].
    assert (Hlt : (now <? now + 30 * 24 * 60 * 60 * 1000)%Z = true)
      by (apply Z.ltb_lt; lia).
    unfold NotificationModel.preSave.
    cbn [n_expiresAt].
    destruct (NotificationModel.ni_expiresAt d) as [expiresAt|];
      destruct (NotificationModel.ni_channels d) as [channels|];
      cbn [n_id n_recipient n_isRead n_readAt n_expiresAt n_title n_message
           n_channels n_priority ch_inApp ch_email ch_push andb
           NotificationModel.setExpiresAt];
      (repeat split; try reflexivity);
      intros Hfresh userId; unfold getUnreadCountForUser;
      cbn [notifications];
      (rewrite upsert_fresh
         by (cbn [n_id NotificationModel.setExpiresAt]; exact Hfresh));
      rewrite filter_app, length_app; f_equal;
      cbn [filter n_recipient n_isRead negb notExpired n_expiresAt ofProject
           andb NotificationModel.setExpiresAt];
      rewrite ?Hlt;
      destruct (same_id (NotificationModel.ni_recipient d) userId);
      cbn [andb]; try reflexivity;
      destruct (now <? expiresAt)%Z; reflexivity.
Qed.

Lemma X16_witness :
  exists n s',
    NotificationModel.createNotification 7
      {| NotificationModel.ni_recipient := 2;
         NotificationModel.ni_sender := 1;
         NotificationModel.ni_type := task_assigned;
         NotificationModel.ni_title := " New Task Assigned ";
         NotificationModel.ni_message := "Alice assigned you a task";
         NotificationModel.ni_data :=
           {| nd_project := Some 10%N; nd_task := None; nd_message := None |};
         NotificationModel.ni_priority := None;
         NotificationModel.ni_actionUrl := None;
         NotificationModel.ni_actionText := None;
         NotificationModel.ni_channels :=
           Some {| ch_inApp := true; ch_email := true; ch_push := true |};
         NotificationModel.ni_expiresAt := None |}
      (Fixtures.store [] [] [])
    = (Ok n, s')
    /\ n_title n = "New Task Assigned"
    /\ n_expiresAt n = Some 2592000007
    /\ n_channels n
       = {| ch_inApp := true;
            ch_email := u_notifyEmail Sample.bob;
            ch_push := u_notifyPush Sample.bob |}.
Proof.
  match goal with
  | |- exists n s', NotificationModel.createNotification ?now ?d ?s = _ /\ _ =>
      destruct (X16_createNotification_stores_unread now d s) as [_ H]
  end.
  destruct (H Sample.bob eq_refl)
    as (n & s' & Hrun & _ & _ & _ & _ & _ & Htitle & _ & Hexp & Hch & _);
    try (vm_compute; discriminate).
  exists n, s'. split; [exact Hrun|].
  split; [exact Htitle|]. split; [exact Hexp|exact Hch].
Defined.

Lemma filter_map_length {A} (p : A -> bool) (f : A -> A) (l : list A) :
  (forall x, p (f x) = p x) ->
  List.length (filter p (map f l)) = List.length (filter p l).
Proof.
  intros H. induction l as [|x l IH]; simpl; [reflexivity|].
  rewrite H. destruct (p x); simpl; rewrite IH; reflexivity.
Qed.

Lemma same_project_excl (a b : ObjectId) (n : Notification) :
  a <> b -> ofProject (Some a) n = true -> ofProject (Some b) n = false.
Proof.
  unfold ofProject. intros Hne.
  destruct (nd_project (n_data n)) as [p|]; [|discriminate].
  intros Ha. apply same_id_eq in Ha. subst p. apply same_id_neq. exact Hne.
Qed.

(** X17. After [markAllAsReadForUser] the user has no unread notification
    in the scope that was marked (one project, or everything when no
    project is given), whatever the time the count is taken at. The unread
    counts of every other user are unchanged, and so are the user's own
    counts for every other project. Expired notifications are marked too,
    and no notification is added or removed. *)
Theorem X17_markAllAsRead_zeroes_the_count
    (now : Date) (userId : ObjectId) (projectId : option ObjectId)
    (s : Store) :
  exists s',
    markAllAsReadForUser now userId projectId s = (Ok tt, s')
    /\ (forall now', getUnreadCountForUser now' userId projectId s' = 0%nat)
    /\ (forall now' other scope, other <> userId ->
          getUnreadCountForUser now' other scope s'
          = getUnreadCountForUser now' other scope s)
    /\ (forall now' mine other,
          projectId = Some mine -> other <> mine ->
          getUnreadCountForUser now' userId (Some other) s'
          = getUnreadCountForUser now' userId (Some other) s)
    /\ map n_id (notifications s') = map n_id (notifications s)
    /\ (forall n, In n (notifications s') ->
                  n_recipient n = userId -> ofProject projectId n = true ->
                  n_isRead n = true).
Proof.
  eexists. split.
  { cbv [markAllAsReadForUser bind get setNotifications log modify ret].
    reflexivity. }
  unfold getUnreadCountForUser. cbn [notifications].
  set (mark := fun n : Notification =>
                 if same_id (n_recipient n) userId && negb (n_isRead n)
                    && ofProject projectId n
                 then NotificationModel.setRead true (Some now) n
                 else n).
  assert (Hmark : forall n,
             n_recipient (mark n) = n_recipient n
             /\ n_expiresAt (mark n) = n_expiresAt n
             /\ n_data (mark n) = n_data n /\ n_id (mark n) = n_id n
             /\ (same_id (n_recipient n) userId && ofProject projectId n
                 = true -> n_isRead (mark n) = true)
             /\ (same_id (n_recipient n) userId && ofProject projectId n
                 = false -> mark n = n)).
  { intros n. unfold mark.
    destruct (same_id (n_recipient n) userId);
      destruct (n_isRead n) eqn:Hr; destruct (ofProject projectId n);
      cbn; repeat split; auto; discriminate. }
  repeat split.
  - intros now'. induction (notifications s) as [|n l IH]; [reflexivity|].
    cbn [map filter]. destruct (Hmark n) as (Hrec & _ & Hdata & _ & Hread & _).
    unfold ofProject at 1. rewrite Hrec, Hdata. fold (ofProject projectId n).
    destruct (same_id (n_recipient n) userId && ofProject projectId n) eqn:E.
    + rewrite (Hread eq_refl). cbn [negb]. rewrite andb_false_r. exact IH.
    + apply andb_false_iff in E.
      destruct E as [-> | ->]; [|rewrite andb_false_r]; exact IH.
  - intros now' other scope Hne. apply filter_map_length. intros n.
    destruct (Hmark n) as (Hrec & _ & _ & _ & _ & Hsame).
    destruct (same_id (n_recipient n) userId) eqn:E.
    + apply same_id_eq in E. rewrite Hrec, E, (same_id_neq userId other).
      * reflexivity.
      * congruence.
    + rewrite Hsame; reflexivity.
  - intros now' mine other -> Hne. apply filter_map_length. intros n.
    destruct (Hmark n) as (Hrec & Hexp & Hdata & _ & _ & Hsame).
    destruct (same_id (n_recipient n) userId && ofProject (Some mine) n) eqn:E.
    + apply andb_true_iff in E. destruct E as [_ E].
      assert (Hno : forall x, n_data x = n_data n ->
                              ofProject (Some other) x = false).
      { intros x Hx. unfold ofProject. rewrite Hx.
        apply (same_project_excl mine other n (not_eq_sym Hne) E). }
      rewrite (Hno _ Hdata), (Hno n eq_refl), !andb_false_r. reflexivity.
    + rewrite Hsame; reflexivity.
  - rewrite map_map. apply map_ext. intros n. apply (Hmark n).
  - intros n Hin Hrec Hproj. apply in_map_iff in Hin.
    destruct Hin as (n0 & <- & _).
    destruct (Hmark n0) as (Hrec0 & _ & Hdata & _ & Hread & _).
    apply Hread. rewrite <- Hrec0, Hrec, same_id_refl. simpl.
    unfold ofProject in *. rewrite <- Hdata. exact Hproj.
Qed.

(** X18. [cleanupExpired] removes exactly the notifications whose expiry
    time lies strictly before the clean-up: what remains never expires or
    expires at the time of the clean-up or later, and a notification that
    expires at that very instant survives, although no count or listing
    shows it any more. No unread count taken at the time of the clean-up or
    later is changed by it. *)
Theorem X18_cleanup_removes_only_expired (now : Date) (s : Store) :
  exists s',
    cleanupExpired now s = (Ok tt, s')
    /\ (forall n, In n (notifications s') <->
                  In n (notifications s)
                  /\ match n_expiresAt n with
                     | Some e => now <= e
                     | None => True
                     end)
    /\ (forall n, In n (notifications s) -> n_expiresAt n = Some now ->
                  In n (notifications s') /\ notExpired now n = false)
    /\ (forall now' userId projectId,
          now <= now' ->
          getUnreadCountForUser now' userId projectId s'
          = getUnreadCountForUser now' userId projectId s).
Proof.
  eexists. split.
  { cbv [cleanupExpired bind get setNotifications log modify ret].
    reflexivity. }
  cbn [notifications].
  assert (Hin : forall n,
      In n (filter (fun n => match n_expiresAt n with
                             | Some e => negb (e <? now)%Z
                             | None => true
                             end) (notifications s)) <->
      In n (notifications s)
      /\ match n_expiresAt n with Some e => now <= e | None => True end).
  { intros n. rewrite filter_In.
    destruct (n_expiresAt n) as [e|]; [|tauto].
    rewrite negb_true_iff, Z.ltb_ge. tauto. }
  split; [exact Hin|]. split.
  - intros n Hn Hexp. split.
    + apply Hin. rewrite Hexp. split; [exact Hn|lia].
    + unfold notExpired. rewrite Hexp. apply Z.ltb_irrefl.
  - intros now' userId projectId Hle. unfold getUnreadCountForUser.
    cbn [notifications]. f_equal. clear Hin.
    induction (notifications s) as [|n l IH]; [reflexivity|].
    cbn [filter].
    destruct (n_expiresAt n) as [e|] eqn:Hexp.
    + destruct (e <? now)%Z eqn:Hlt; cbn [negb filter].
      * assert (Hgone : notExpired now' n = false).
        { unfold notExpired. rewrite Hexp. apply Z.ltb_ge.
          apply Z.ltb_lt in Hlt. lia. }
        rewrite Hgone, andb_false_r. cbn [andb]. exact IH.
      * rewrite IH. reflexivity.
    + cbn [filter]. rewrite IH. reflexivity.
Qed.

Lemma X18_witness :
  exists s',
    cleanupExpired 50
      (Fixtures.store [] []
         [Fixtures.notice 300 2 false (Some 49%Z);
          Fixtures.notice 301 2 false (Some 50%Z)]) = (Ok tt, s')
    /\ getUnreadCountForUser 60 2 None s' = 0%nat.
Proof.
  destruct (X18_cleanup_removes_only_expired 50
              (Fixtures.store [] []
                 [Fixtures.notice 300 2 false (Some 49%Z);
                  Fixtures.notice 301 2 false (Some 50%Z)]))
    as (s' & Hrun & _ & _ & Hcount).
  exists s'. split; [exact Hrun|].
  rewrite (Hcount 60 2%N None); [reflexivity|lia].
Defined.

(** X19. A notification is shown to and marked read by its recipient only:
    GET /api/notifications/:id and PUT /api/notifications/:id/read answer
    403 to every other user and write nothing. For the recipient both
    answer 200; a notification that was unread is then stored as read with
    the time of the request as read time, and one that was read already is
    left as stored, with no write to the database. The PUT route emits one
    'notification_read' event to the recipient's own room. *)
Theorem X19_notification_routes_are_recipient_only
    (now : Date) (user : User) (id : ObjectId) (s : Store)
    (n : Notification) :
  findById n_id id (notifications s) = Some n ->
  (same_id (n_recipient n) (u_id user) = false ->
   getNotification now user id s
   = (Throw (AppError "Access denied - not your notification" 403), s)
   /\ putNotificationRead now user id s
      = (Throw (AppError "Access denied - not your notification" 403), s))
  /\ (same_id (n_recipient n) (u_id user) = true ->
      exists s1 s2,
        getNotification now user id s
        = (Ok {| status := 200; site := NotificationDetails |}, s1)
        /\ putNotificationRead now user id s
           = (Ok {| status := 200; site := NotificationRead |}, s2)
        /\ (n_isRead n = true ->
            s1 = s /\ notifications s2 = notifications s
            /\ oplog s2 = oplog s)
        /\ (n_isRead n = false ->
            exists n',
              findById n_id id (notifications s1) = Some n'
              /\ findById n_id id (notifications s2) = Some n'
              /\ n_isRead n' = true /\ n_readAt n' = Some now
              /\ n_recipient n' = n_recipient n)
        /\ emitted s2
           = (emitted s ++ [(UserRoom (u_id user), "notification_read")])%list).
Proof.
  intros Hfind. destruct (findById_some _ _ _ _ Hfind) as [_ Hid].
  split; intros Hrec.
  - unfold getNotification, putNotificationRead.
    rewrite !(bind_ok _ _ s s s) by reflexivity. rewrite Hfind, Hrec.
    split; reflexivity.
  - unfold getNotification, putNotificationRead.
    rewrite !(bind_ok _ _ s s s) by reflexivity. rewrite Hfind, Hrec.
    cbn [negb]. unfold NotificationModel.markAsRead.
    destruct (n_isRead n) eqn:Hread; cbn [negb].
    + eexists _, _. split; [reflexivity|].
      split; [cbv [bind ret emit modify]; reflexivity|].
      split; [intros _; repeat split|].
      split; [discriminate|reflexivity].
    + cbv [bind ret emit modify NotificationModel.save get setNotifications
           log].
      eexists _, _. split; [reflexivity|]. split; [reflexivity|].
      split; [discriminate|]. split; [|reflexivity].
      intros _. cbn [notifications].
      exists (NotificationModel.preSave now
                (NotificationModel.setRead true (Some now) n)).
      destruct (notification_preSave_read now
                  (NotificationModel.setRead true (Some now) n))
        as (Hr & Hat & Hpid).
      rewrite Hr, Hat. cbn [n_id NotificationModel.setRead] in Hpid.
      rewrite <- Hid, <- Hpid.
      split; [apply (findById_upsert n_id)|].
      split; [apply (findById_upsert n_id)|].
      repeat split.
      unfold NotificationModel.preSave. cbn [n_expiresAt NotificationModel.setRead].
      destruct (n_expiresAt n); reflexivity.
Qed.

Lemma X19_witness :
  getNotification 7 Sample.carol 300
    (Fixtures.store [] [] [Fixtures.notice 300 2 false None])
  = (Throw (AppError "Access denied - not your notification" 403),
     Fixtures.store [] [] [Fixtures.notice 300 2 false None]).
Proof.
  apply (X19_notification_routes_are_recipient_only 7 Sample.carol 300%N
           (Fixtures.store [] [] [Fixtures.notice 300 2 false None])
           (Fixtures.notice 300 2 false None) eq_refl).
  reflexivity.
Defined.

End NotificationFacts.

(** ** Authentication, the client's header and the attempt limiter *)

Section AuthFacts.
Import AuthExtras.

(** X20. [authenticateToken] lets a request through exactly when the
    header carries a token that verifies to the id of a stored, active
    user, and then attaches that user. Every other request is answered
    401, or 500 when the verification fails with an error other than
    'JsonWebTokenError' and 'TokenExpiredError'. [optionalAuth] attaches a
    user in exactly the cases in which [authenticateToken] lets the request
    through, and the same user. *)
Theorem X20_authentication_outcomes
    (jwt_verify : string -> AuthMiddleware.JwtResult)
    (authorization : option string) (s : Store) :
  (forall user,
      AuthMiddleware.authenticateToken jwt_verify authorization s
      = AuthMiddleware.Continue user
      <-> exists token id,
            AuthMiddleware.bearerToken authorization = Some token
            /\ jwt_verify token = AuthMiddleware.Decoded (Some id)
            /\ findById u_id id (users s) = Some user
            /\ u_isActive user = true)
  /\ (forall r,
        AuthMiddleware.authenticateToken jwt_verify authorization s
        = AuthMiddleware.Respond r ->
        status r = 401%nat
        \/ (status r = 500%nat
            /\ exists token name,
                 AuthMiddleware.bearerToken authorization = Some token
                 /\ jwt_verify token = AuthMiddleware.JwtThrows name
                 /\ name <> "JsonWebTokenError"
                 /\ name <> "TokenExpiredError"))
  /\ (forall user,
        optionalAuth jwt_verify authorization s = Some user
        <-> AuthMiddleware.authenticateToken jwt_verify authorization s
            = AuthMiddleware.Continue user).
Proof.
  unfold AuthMiddleware.authenticateToken, optionalAuth.
  destruct (AuthMiddleware.bearerToken authorization) as [token|].
  2:{ repeat split; try discriminate.
      - intros (t & i & H & _). discriminate.
      - intros r H. inversion H. left. reflexivity. }
  destruct (jwt_verify token) as [[id|]|name] eqn:Hjwt.
  - destruct (findById u_id id (users s)) as [u|] eqn:Hu.
    + destruct (u_isActive u) eqn:Hact; cbn [negb].
      * repeat split; try discriminate.
        -- intros H. inversion H; subst. exists token, id. auto.
        -- intros (t & i & Ht & Hj & Hf & _). inversion Ht; subst.
           rewrite Hjwt in Hj. inversion Hj; subst. congruence.
        -- intros H. inversion H. reflexivity.
        -- intros H. inversion H. reflexivity.
      * repeat split; try discriminate.
        -- intros (t & i & Ht & Hj & Hf & Ha). inversion Ht; subst.
           rewrite Hjwt in Hj. inversion Hj; subst. congruence.
        -- intros r H. inversion H. left. reflexivity.
    + repeat split; try discriminate.
      * intros (t & i & Ht & Hj & Hf & _). inversion Ht; subst.
        rewrite Hjwt in Hj. inversion Hj; subst. congruence.
      * intros r H. inversion H. left. reflexivity.
  - repeat split; try discriminate.
    + intros (t & i & Ht & Hj & _). inversion Ht; subst. congruence.
    + intros r H. inversion H. left. reflexivity.
  - repeat split; try discriminate.
    + destruct (String.eqb name "JsonWebTokenError");
        [|destruct (String.eqb name "TokenExpiredError")]; discriminate.
    + intros (t & i & Ht & Hj & _). inversion Ht; subst. congruence.
    + intros r.
      destruct (String.eqb name "JsonWebTokenError") eqn:E1;
        [|destruct (String.eqb name "TokenExpiredError") eqn:E2];
        intros H; inversion H; [left; reflexivity|left; reflexivity|].
      right. split; [reflexivity|]. exists token, name.
      apply String.eqb_neq in E1, E2. auto.
    + destruct (String.eqb name "JsonWebTokenError");
        [|destruct (String.eqb name "TokenExpiredError")]; discriminate.
Qed.

Lemma append_snoc (a b : string) (c : ascii) :
  ((a ++ String c EmptyString) ++ b)%string = (a ++ String c b)%string.
Proof. induction a as [|x a IH]; simpl; [|rewrite IH]; reflexivity. Qed.

Lemma append_empty (a : string) : (a ++ EmptyString)%string = a.
Proof. induction a as [|x a IH]; simpl; [|rewrite IH]; reflexivity. Qed.

Lemma splitFrom_spaceless (current word : string) :
  ApiClient.spaceless word = true ->
  AuthMiddleware.splitFrom current word = [(current ++ word)%string].
Proof.
  revert current. induction word as [|c w IH]; intros current Hs; simpl.
  - rewrite append_empty. reflexivity.
  - simpl in Hs. apply andb_true_iff in Hs. destruct Hs as [Hc Hw].
    apply negb_true_iff in Hc. rewrite Hc, (IH _ Hw), append_snoc.
    reflexivity.
Qed.

Lemma splitFrom_word (current word rest : string) :
  ApiClient.spaceless word = true ->
  AuthMiddleware.splitFrom current (word ++ String " "%char rest)
  = (current ++ word)%string :: AuthMiddleware.splitFrom EmptyString rest.
Proof.
  revert current. induction word as [|c w IH]; intros current Hs; simpl.
  - rewrite append_empty. reflexivity.
  - simpl in Hs. apply andb_true_iff in Hs. destruct Hs as [Hc Hw].
    apply negb_true_iff in Hc. rewrite Hc, (IH _ Hw), append_snoc.
    reflexivity.
Qed.

(** X21. The header the client builds round-trips through the server's
    parser: for a stored token that is not empty and has no space,
    [authenticateToken] reads back exactly that token from
    ['Bearer ' + token]; without a token the client sends no header and
    the server finds none. The server never looks at the scheme: any word
    without a space in place of 'Bearer' yields the same token. *)
Theorem X21_bearer_header_round_trip (token : string) :
  token <> EmptyString -> ApiClient.spaceless token = true ->
  AuthMiddleware.bearerToken (ApiClient.authorizationHeader (Some token))
  = Some token
  /\ AuthMiddleware.bearerToken (ApiClient.authorizationHeader None) = None
  /\ AuthMiddleware.bearerToken
       (ApiClient.authorizationHeader (Some EmptyString)) = None
  /\ (forall scheme,
        ApiClient.spaceless scheme = true ->
        AuthMiddleware.bearerToken
          (Some (scheme ++ String " "%char token)%string)
        = Some token).
Proof.
  intros Hne Hs.
  assert (Hany : forall scheme,
             ApiClient.spaceless scheme = true ->
             AuthMiddleware.bearerToken
               (Some (scheme ++ String " "%char token)%string)
             = Some token).
  { intros scheme Hscheme. unfold AuthMiddleware.bearerToken.
    assert (Hsplit : AuthMiddleware.split (scheme ++ String " "%char token)
                     = [scheme; token]).
    { unfold AuthMiddleware.split.
      rewrite (splitFrom_word _ _ _ Hscheme), (splitFrom_spaceless _ _ Hs).
      reflexivity. }
    rewrite Hsplit. cbn [nth_error].
    destruct token as [|c t]; [contradiction|].
    destruct scheme; reflexivity. }
  split; [|split; [reflexivity|split; [reflexivity|exact Hany]]].
  destruct token as [|c t]; [contradiction|].
  apply (Hany "Bearer"%string). reflexivity.
Qed.

Lemma X21_witness :
  AuthMiddleware.bearerToken (ApiClient.authorizationHeader (Some "good"))
  = Some "good"%string.
Proof.
  apply (X21_bearer_header_round_trip "good"); [discriminate|reflexivity].
Defined.

Lemma find_filter_some {A} (p q : A -> bool) (l : list A) (x : A) :
  find p l = Some x -> q x = true -> find p (filter q l) = Some x.
Proof.
  intros Hfind Hq. induction l as [|y l IH]; simpl in *; [discriminate|].
  destruct (p y) eqn:Hp.
  - inversion Hfind; subst. rewrite Hq. simpl. rewrite Hp. reflexivity.
  - destruct (q y); simpl; [rewrite Hp|]; apply IH; exact Hfind.
Qed.

Lemma find_filter_none {A} (p q : A -> bool) (l : list A) :
  find p l = None -> find p (filter q l) = None.
Proof.
  intros Hfind. induction l as [|y l IH]; simpl in *; [reflexivity|].
  destruct (p y) eqn:Hp; [discriminate|].
  destruct (q y); simpl; [rewrite Hp|]; apply IH; exact Hfind.
Qed.

Lemma attemptOf_some (key : string) (attempts : Attempts) (a : Attempt) :
  attemptOf key attempts = Some a <->
  find (fun kv => String.eqb (fst kv) key) attempts = Some (key, a).
Proof.
  unfold attemptOf.
  destruct (find (fun kv => String.eqb (fst kv) key) attempts)
    as [[k v]|] eqn:E.
  - apply find_some in E. destruct E as [_ E]. simpl in E.
    apply String.eqb_eq in E. subst k. simpl.
    split; intros H; inversion H; reflexivity.
  - split; discriminate.
Qed.

Lemma attemptOf_none (key : string) (attempts : Attempts) :
  attemptOf key attempts = None <->
  find (fun kv => String.eqb (fst kv) key) attempts = None.
Proof.
  unfold attemptOf.
  destruct (find (fun kv => String.eqb (fst kv) key) attempts);
    split; intros H; try discriminate; reflexivity.
Qed.

Lemma attemptOf_setAttempt (key : string) (value : Attempt)
    (attempts : Attempts) :
  attemptOf key (setAttempt key value attempts) = Some value.
Proof.
  apply attemptOf_some. unfold setAttempt.
  destruct (existsb (fun kv => String.eqb (fst kv) key) attempts) eqn:E.
  - induction attempts as [|[k v] l IH]; simpl in *; [discriminate|].
    destruct (String.eqb k key) eqn:Hk; simpl.
    + rewrite String.eqb_refl. reflexivity.
    + rewrite Hk. apply IH. exact E.
  - apply find_app_none; [|apply String.eqb_refl].
    apply existsb_find_none. exact E.
Qed.

Lemma attemptOf_sweep_fresh (windowMs now : Z) (key : string)
    (attempts : Attempts) (a : Attempt) :
  attemptOf key attempts = Some a ->
  now - at_timestamp a <= windowMs ->
  attemptOf key (sweep windowMs now attempts) = Some a.
Proof.
  intros Ha Hfresh. apply attemptOf_some. apply attemptOf_some in Ha.
  unfold sweep. apply find_filter_some; [exact Ha|].
  simpl. apply negb_true_iff. apply Z.ltb_ge. exact Hfresh.
Qed.

Lemma attemptOf_sweep_none (windowMs now : Z) (key : string)
    (attempts : Attempts) :
  attemptOf key attempts = None ->
  attemptOf key (sweep windowMs now attempts) = None.
Proof.
  intros Ha. apply attemptOf_none. apply attemptOf_none in Ha.
  unfold sweep. apply find_filter_none. exact Ha.
Qed.

Lemma attemptOf_sweep_stale (windowMs now : Z) (key : string)
    (attempts : Attempts) (a : Attempt) :
  NoDup (map fst attempts) ->
  attemptOf key attempts = Some a ->
  windowMs < now - at_timestamp a ->
  attemptOf key (sweep windowMs now attempts) = None.
Proof.
  intros Hnd Ha Hstale. apply attemptOf_none. apply attemptOf_some in Ha.
  unfold sweep.
  induction attempts as [|[k v] l IH]; simpl in *; [reflexivity|].
  inversion Hnd as [|? ? Hnotin Hnd']; subst.
  destruct (String.eqb k key) eqn:Hk.
  - inversion Ha; subst. apply Z.ltb_lt in Hstale. rewrite Hstale. simpl.
    apply find_filter_none.
    destruct (find (fun kv => String.eqb (fst kv) key) l) as [[k' v']|] eqn:E;
      [|reflexivity].
    apply find_some in E. destruct E as [Hin E]. simpl in E.
    apply String.eqb_eq in E. subst k'. exfalso. apply Hnotin.
    change key with (fst (key, v')). apply in_map. exact Hin.
  - destruct (negb (windowMs <? now - at_timestamp v)%Z); simpl;
      [rewrite Hk|]; apply IH; assumption.
Qed.

(** The verdicts on requests within one window, from a state in which the
    key has made [count] attempts. *)
Lemma requests_counted (maxAttempts windowMs : Z) (key : string) (start : Z)
    (times : list Z) :
  withinWindow windowMs start times ->
  forall (attempts : Attempts) (a : Attempt),
    attemptOf key attempts = Some a ->
    start <= at_timestamp a ->
    map isAllowed (fst (requests maxAttempts windowMs key times attempts))
    = map (fun i => (at_count a + Z.of_nat i <? maxAttempts)%Z)
          (seq 0 (List.length times)).
Proof.
  intros Hwin. induction Hwin as [|now later [Hlo Hhi] Hlater IH];
    intros attempts a Ha Hts; [reflexivity|].
  cbn [requests]. unfold authRateLimit.
  rewrite (attemptOf_sweep_fresh _ _ _ _ _ Ha) by lia.
  cbn [List.length seq map]. rewrite Z.add_0_r.
  destruct (maxAttempts <=? at_count a)%Z eqn:Hfull.
  - destruct (requests maxAttempts windowMs key later
                (sweep windowMs now attempts)) as [vs attempts2] eqn:Hreq.
    cbn [fst map isAllowed].
    assert (Hlt : (at_count a <? maxAttempts)%Z = false).
    { apply Z.ltb_ge. apply Z.leb_le in Hfull. exact Hfull. }
    rewrite Hlt. f_equal.
    change vs with (fst (vs, attempts2)). rewrite <- Hreq.
    rewrite (IH _ a); [|apply attemptOf_sweep_fresh; [exact Ha|lia]|exact Hts].
    rewrite <- seq_shift, map_map. apply map_ext. intros i.
    apply Z.leb_le in Hfull.
    transitivity false; [apply Z.ltb_ge; lia|symmetry; apply Z.ltb_ge; lia].
  - match goal with
    | |- context [requests maxAttempts windowMs key later ?a1] =>
        destruct (requests maxAttempts windowMs key later a1)
          as [vs attempts2] eqn:Hreq;
        pose proof (IH a1 _ (attemptOf_setAttempt _ _ _)) as IH1
    end.
    cbn [fst map isAllowed].
    assert (Hlt : (at_count a <? maxAttempts)%Z = true).
    { apply Z.ltb_lt. apply Z.leb_gt in Hfull. exact Hfull. }
    rewrite Hlt. f_equal.
    rewrite Hreq in IH1. cbn [fst at_count at_timestamp] in IH1.
    rewrite IH1 by exact Hlo.
    rewrite <- seq_shift, map_map. apply map_ext. intros i.
    f_equal. lia.
Qed.

(** X22. The attempt limiter lets a key's first request through whatever
    the limit, and of the requests that follow within one window
    [windowMs] it lets through those that bring the count to at most
    [maxAttempts]: request number [i] (from 0) is allowed exactly when
    [i = 0] or [i < maxAttempts], and all later ones are refused. *)
Theorem X22_rate_limit_counts_attempts
    (maxAttempts windowMs : Z) (key : string) (start : Z) (times : list Z)
    (attempts : Attempts) :
  withinWindow windowMs start times ->
  attemptOf key attempts = None ->
  map isAllowed (fst (requests maxAttempts windowMs key times attempts))
  = map (fun i => (i =? 0)%nat || (Z.of_nat i <? maxAttempts)%Z)
        (seq 0 (List.length times)).
Proof.
  intros Hwin Hnone.
  destruct Hwin as [|now later [Hlo Hhi] Hlater]; [reflexivity|].
  cbn [requests]. unfold authRateLimit.
  rewrite (attemptOf_sweep_none _ _ _ _ Hnone).
  match goal with
  | |- context [requests maxAttempts windowMs key later ?a1] =>
      destruct (requests maxAttempts windowMs key later a1)
        as [vs attempts2] eqn:Hreq;
      pose proof (requests_counted maxAttempts windowMs key start later
                    Hlater a1 _ (attemptOf_setAttempt _ _ _)) as Hrest
  end.
  rewrite Hreq in Hrest. cbn [fst at_count at_timestamp] in Hrest.
  cbn [fst map isAllowed List.length seq Nat.eqb orb]. f_equal.
  rewrite Hrest by exact Hlo.
  rewrite <- seq_shift, map_map. apply map_ext. intros i.
  cbn [Nat.eqb orb]. f_equal. lia.
Qed.

Lemma X22_witness :
  map isAllowed (fst (requests 2 1000 "10.0.0.1" [5; 6; 7; 900] []))
  = [true; true; false; false].
Proof.
  apply (X22_rate_limit_counts_attempts 2 1000 "10.0.0.1" 5 [5; 6; 7; 900] []).
  - unfold withinWindow. repeat constructor; lia.
  - reflexivity.
Defined.

(** X23. A key that has used up its attempts is refused for as long as no
    more than [windowMs] has passed since its last request that was let
    through, and a refusal leaves the key's entry as it is: being refused
    does not prolong the lock. Once more than [windowMs] has passed, the
    entry is swept, the next request of the key is allowed and its count
    starts again at 1. *)
Theorem X23_rate_limit_lock_expires
    (maxAttempts windowMs : Z) (key : string) (attempts : Attempts)
    (a : Attempt) :
  NoDup (map fst attempts) ->
  attemptOf key attempts = Some a ->
  maxAttempts <= at_count a ->
  (forall now,
      now - at_timestamp a <= windowMs ->
      exists retryAfter attempts',
        authRateLimit maxAttempts windowMs key now attempts
        = (Blocked retryAfter, attempts')
        /\ attemptOf key attempts' = Some a)
  /\ (forall now,
        windowMs < now - at_timestamp a ->
        exists attempts',
          authRateLimit maxAttempts windowMs key now attempts
          = (Allowed, attempts')
          /\ attemptOf key attempts'
             = Some {| at_count := 1; at_timestamp := now |}).
Proof.
  intros Hnd Ha Hfull. split; intros now Hnow; unfold authRateLimit.
  - rewrite (attemptOf_sweep_fresh _ _ _ _ _ Ha Hnow).
    apply Z.leb_le in Hfull. rewrite Hfull.
    eexists _, _. split; [reflexivity|].
    apply attemptOf_sweep_fresh; assumption.
  - rewrite (attemptOf_sweep_stale _ _ _ _ _ Hnd Ha Hnow).
    eexists. split; [reflexivity|]. apply attemptOf_setAttempt.
Qed.

Lemma X23_witness :
  exists attempts',
    authRateLimit 5 900000 "10.0.0.1" 900101
      [("10.0.0.1"%string, {| at_count := 5; at_timestamp := 100 |})]
    = (Allowed, attempts')
    /\ attemptOf "10.0.0.1" attempts'
       = Some {| at_count := 1; at_timestamp := 900101 |}.
Proof.
  apply (X23_rate_limit_lock_expires 5 900000 "10.0.0.1"
           [("10.0.0.1"%string, {| at_count := 5; at_timestamp := 100 |})]
           {| at_count := 5; at_timestamp := 100 |}).
  - repeat constructor. intros [].
  - reflexivity.
  - simpl. lia.
  - simpl. lia.
Defined.

End AuthFacts.

(** ** The error handler *)

Section ErrorHandlerFacts.
Import ErrorHandler.

(** X24. In production the handler never shows the message of an error it
    does not know: an error that is not operational and matches none of
    the handler's rules is answered 500 'Something went wrong!', whatever
    its own message and status code. In development the same error is sent
    with its own message, and with its status code unless that is missing
    or 0. *)
Theorem X24_production_hides_unknown_errors (err : JsError) :
  isOperational err = false -> recognised err = false ->
  handle false err
  = Some {| sentStatus := 500; sentMessage := "Something went wrong!";
            sentSite := SendErrorProdUnknown |}
  /\ handle true err
     = Some {| sentStatus := match statusCode err with
                             | Some 0%nat | None => 500%nat
                             | Some sc => sc
                             end;
               sentMessage := message err;
               sentSite := SendErrorDev false |}.
Proof.
  intros Hop Hrec. unfold recognised in Hrec.
  repeat (apply orb_false_iff in Hrec; destruct Hrec as [Hrec ?]).
  unfold handle, classify.
  repeat match goal with H : _ = false |- _ => rewrite H; clear H end.
  split; reflexivity.
Qed.

Lemma X24_witness :
  handle false (ofError (TypeError "Cannot read properties of null"))
  = Some {| sentStatus := 500; sentMessage := "Something went wrong!";
            sentSite := SendErrorProdUnknown |}.
Proof.
  apply (X24_production_hides_unknown_errors
           (ofError (TypeError "Cannot read properties of null")));
    reflexivity.
Defined.

(** X25. On the errors the model and route code throws, the handler sends
    the status and the kind of body that [errorHandler] gives: an
    [AppError] keeps its status code (500 when that is 0) and its message
    in both modes; a validation error is answered 400 with the messages of
    its failed validators in both modes; any other error is sent with
    status 500, with its message in development and as 'Something went
    wrong!' in production. The handler itself never fails on these
    errors. *)
Theorem X25_handler_on_thrown_errors (development : bool) (e : Error) :
  handle development (ofError e)
  = Some {| sentStatus := status (errorHandler development e);
            sentMessage :=
              match e with
              | AppError msg _ => msg
              | TypeError msg | PlainError msg =>
                  if development then msg else "Something went wrong!"
              | ValidationError _ failed =>
                  "Validation failed: " ++ TaskRoutes.join ". " (map snd failed)
              end;
            sentSite := site (errorHandler development e) |}.
Proof.
  destruct e as [msg sc|msg|msg|model failed], development; try reflexivity;
    destruct sc; reflexivity.
Qed.

Lemma classify_none (err : JsError) :
  classify err = None <->
  (numberIs (code err) 11000 = true
   /\ (String.eqb (name err) "CastError" = true \/ keyValue err = None))
  \/ (String.eqb (name err) "ValidationError" = true
      /\ (numberIs (code err) 11000 = true \/ errors err = None)).
Proof.
  unfold classify.
  destruct (String.eqb (name err) "CastError") eqn:Hcast;
    destruct (String.eqb (name err) "ValidationError") eqn:Hval;
    try (apply String.eqb_eq in Hcast; apply String.eqb_eq in Hval;
         rewrite Hcast in Hval; discriminate);
    destruct (numberIs (code err) 11000) eqn:Hdup;
    cbn [keyValueOf errorsOf handleDuplicateFieldsDB handleValidationErrorDB];
    try destruct (keyValue err) as [[|[k v] kvs]|] eqn:Hkv;
    cbn [keyValueOf errorsOf handleDuplicateFieldsDB handleValidationErrorDB];
    try destruct (errors err) as [msgs|] eqn:Herr;
    cbn [keyValueOf errorsOf handleDuplicateFieldsDB handleValidationErrorDB];
    (split;
     [ intros H; try discriminate H; auto
     | intros [[H1 [H2|H2]]|[H1 [H2|H2]]]; try discriminate; reflexivity ]).
Qed.

Lemma replaced_if (c : bool) (msg : string) (sc : nat) (cur : Current)
    (P : Current -> Prop) :
  P (Replaced msg sc) -> (c = false -> P cur) ->
  P (if c then Replaced msg sc else cur).
Proof. destruct c; auto. Qed.

Lemma classify_recognised (err : JsError) (cur : Current) :
  recognised err = true -> classify err = Some cur ->
  exists msg sc, cur = Replaced msg sc /\ In sc [400; 401; 413; 429]%nat.
Proof.
  set (P := fun cur => exists msg sc,
                 cur = Replaced msg sc /\ In sc [400; 401; 413; 429]%nat).
  assert (H400 : forall msg, P (Replaced msg 400))
    by (intros msg; exists msg, 400%nat; split; [reflexivity|left; reflexivity]).
  assert (H401 : forall msg, P (Replaced msg 401))
    by (intros msg; exists msg, 401%nat; split;
        [reflexivity|right; left; reflexivity]).
  assert (H413 : forall msg, P (Replaced msg 413))
    by (intros msg; exists msg, 413%nat; split;
        [reflexivity|right; right; left; reflexivity]).
  assert (H429 : forall msg, P (Replaced msg 429))
    by (intros msg; exists msg, 429%nat; split;
        [reflexivity|right; right; right; left; reflexivity]).
  fold (P cur). clearbody P.
  unfold classify, recognised. intros Hrec Hcur.
  assert (Hlate : forall e3,
             (String.eqb (name err) "CastError"
              || numberIs (code err) 11000
              || String.eqb (name err) "ValidationError" = true ->
              P e3) ->
             P (if numberIs (httpStatus err) 429
                then Replaced "Too many requests. Please try again later." 429
                else if codeIs (code err) "LIMIT_UNEXPECTED_FILE"
                then Replaced "Unexpected file field." 400
                else if codeIs (code err) "LIMIT_FILE_COUNT"
                then Replaced "Too many files. Maximum 10 files allowed." 413
                else if codeIs (code err) "LIMIT_FILE_SIZE"
                then Replaced
                       "File too large. Maximum size allowed is 10MB." 413
                else if String.eqb (name err) "TokenExpiredError"
                then Replaced
                       "Your token has expired. Please log in again." 401
                else if String.eqb (name err) "JsonWebTokenError"
                then Replaced "Invalid token. Please log in again." 401
                else e3)).
  { intros e3 He3.
    repeat (apply replaced_if; [auto|intros ?]).
    apply He3.
    repeat match goal with H : _ = false |- _ => rewrite H in Hrec end.
    rewrite !orb_false_r in Hrec. exact Hrec. }
  clear Hrec.
  destruct (String.eqb (name err) "CastError");
    destruct (numberIs (code err) 11000);
    cbn [keyValueOf errorsOf handleDuplicateFieldsDB handleValidationErrorDB]
      in Hcur;
    try destruct (keyValue err) as [[|[k v] kvs]|];
    cbn [keyValueOf errorsOf handleDuplicateFieldsDB handleValidationErrorDB]
      in Hcur;
    destruct (String.eqb (name err) "ValidationError");
    cbn [keyValueOf errorsOf handleDuplicateFieldsDB handleValidationErrorDB]
      in Hcur;
    try destruct (errors err) as [msgs|];
    cbn [keyValueOf errorsOf handleDuplicateFieldsDB handleValidationErrorDB]
      in Hcur;
    try discriminate Hcur;
    inversion Hcur; apply Hlate; cbn [orb]; intros Hyes;
    try discriminate Hyes; auto.
Qed.

(** X26. An error that matches one of the handler's rules is answered with
    status 400, 401, 413 or 429 and as an operational error, so production
    shows the rule's message. The handler itself throws in exactly two
    situations: the error has code 11000 and either no [keyValue] or the
    name 'CastError'; or it has the name 'ValidationError' and either no
    [errors] or the code 11000. *)
Theorem X26_recognised_errors_and_handler_failures
    (development : bool) (err : JsError) :
  (forall sent,
      recognised err = true ->
      handle development err = Some sent ->
      In (sentStatus sent) [400; 401; 413; 429]%nat
      /\ sentSite sent = (if development then SendErrorDev true
                          else SendErrorProdOperational))
  /\ (handle development err = None <->
      (numberIs (code err) 11000 = true
       /\ (String.eqb (name err) "CastError" = true \/ keyValue err = None))
      \/ (String.eqb (name err) "ValidationError" = true
          /\ (numberIs (code err) 11000 = true \/ errors err = None))).
Proof.
  split.
  - intros sent Hrec. unfold handle.
    destruct (classify err) as [cur|] eqn:Hcur; [|discriminate].
    destruct (classify_recognised err cur Hrec Hcur) as (msg & sc & -> & Hin).
    destruct development; intros H; inversion H; cbn; auto.
  - rewrite <- classify_none. unfold handle.
    destruct (classify err) as [[sc|msg sc]|]; split; intros H;
      try discriminate H; reflexivity.
Qed.

Lemma X26_witness :
  handle false
    {| name := "MongoServerError"; message := "E11000 duplicate key error";
       statusCode := None; isOperational := false; code := Num 11000;
       httpStatus := Absent; path := "undefined"; value := "undefined";
       keyValue := None; errors := None |}
  = None.
Proof.
  apply (X26_recognised_errors_and_handler_failures false).
  left. split; [reflexivity|right; reflexivity].
Defined.

End ErrorHandlerFacts.

(** ** Further routes on tasks *)

Section TaskRouteFacts.

(** X27. PUT /api/tasks/:id/status asks for no edit permission: the owner,
    every member of the project (also one without [canEditTasks], whom
    PUT /api/tasks/:id refuses) and the task's assignee (also one outside
    the project) may set any status, and the stored task then has it.
    Notifications are created only when the new status is 'completed'.
    Everyone else is refused with 403 and nothing is written. The watchers
    of the task other than the requester are stored users. *)
Theorem X27_status_route_needs_no_edit_permission
    (now : Date) (user : User) (id : ObjectId) (newStatus : TaskStatus)
    (s : Store) (task : Task) (project : Project) :
  TaskRoutes.findPopulated id s = Some (task, Some project) ->
  (forall w, In w (t_watchers task) -> w = u_id user \/ userExists s w) ->
  (ProjectModel.isOwner project (u_id user)
     || ProjectModel.isMember project (u_id user)
     || match t_assignee task with
        | Some a => same_id a (u_id user)
        | None => false
        end = false ->
   TaskRoutes.putTaskStatus now user id newStatus s
   = (Throw (AppError "Access denied" 403), s))
  /\ (ProjectModel.isOwner project (u_id user)
        || ProjectModel.isMember project (u_id user)
        || match t_assignee task with
           | Some a => same_id a (u_id user)
           | None => false
           end = true ->
      exists s' t',
        TaskRoutes.putTaskStatus now user id newStatus s
        = (Ok {| status := 200; site := StatusUpdated |}, s')
        /\ findById t_id id (tasks s') = Some t'
        /\ t_status t' = newStatus
        /\ (newStatus <> completed -> notifications s' = notifications s)).
Proof.
  intros Hfind Hw. pose proof (findPopulated_task _ _ _ _ Hfind) as [_ Hid].
  split; intros Hacc; unfold TaskRoutes.putTaskStatus;
    rewrite (bind_ok _ _ s s s) by reflexivity; rewrite Hfind.
  - apply orb_false_iff in Hacc. destruct Hacc as [Hacc ->].
    apply orb_false_iff in Hacc. destruct Hacc as [-> ->]. reflexivity.
  - assert (Hguard :
      negb (ProjectModel.isOwner project (u_id user))
      && negb (ProjectModel.isMember project (u_id user))
      && negb match t_assignee task with
              | Some a => same_id a (u_id user)
              | None => false
              end = false).
    { rewrite <- !negb_orb, Hacc. reflexivity. }
    rewrite Hguard. unfold TaskModel.updateStatus.
    match goal with
    | |- context [TaskModel.save now ?d] =>
        destruct (task_save_stored now d s)
          as (s1 & Hsave & Hstored & Hu1 & _ & Hn1 & _);
        destruct (task_preSave_fields now d) as (_ & Hst & Hws & _);
        set (d1 := d) in *
    end.
    set (t1 := td_task (TaskModel.preSave now d1)) in *.
    rewrite (bind_ok _ _ _ _ _ Hsave).
    rewrite (bind_ok _ _ s1 s1 s1) by reflexivity.
    cbn [td_task loaded].
    destruct (assignStatus_fields newStatus (loaded task))
      as (Has & Hai & Haw).
    assert (Hit1 : t_id (td_task d1) = id) by (cbn; rewrite Hai; exact Hid).
    assert (Hs1 : t_status t1 = newStatus) by (rewrite Hst; cbn; exact Has).
    assert (Hwt1 : t_watchers t1 = t_watchers task)
      by (rewrite Hws; cbn; exact Haw).
    rewrite Hit1 in Hstored.
    destruct (TaskStatus_eqb newStatus completed) eqn:Hc.
    + match goal with
      | |- context [TaskRoutes.notifyAll now ?rs ?mk] =>
          destruct (notifyAll_run now rs mk s1) as (s2 & Hn & _ & _ & Ht2 & _)
      end.
      { intros r Hr. cbn [NotificationModel.ni_recipient].
        apply assigneeAndWatchers_exist in Hr; [exact Hr|].
        intros w Hin. rewrite Hwt1 in Hin.
        destruct (Hw w Hin) as [H|H]; [left; exact H|right].
        unfold userExists in *. rewrite Hu1. exact H. }
      rewrite (bind_ok _ _ _ _ _ Hn).
      eexists _, t1. split; [cbv [bind emit modify ret]; reflexivity|].
      cbn [tasks]. rewrite Ht2. split; [exact Hstored|].
      split; [exact Hs1|]. intros Hne. apply TaskStatus_eqb_eq in Hc.
      contradiction.
    + eexists _, t1. split; [cbv [bind emit modify ret]; reflexivity|].
      cbn [tasks notifications]. split; [exact Hstored|].
      split; [exact Hs1|]. intros _. exact Hn1.
Qed.

Lemma X27_witness :
  TaskRoutes.lacksPermission canEditTasks Sample.project Sample.bob = true
  /\ exists s' t',
       TaskRoutes.putTaskStatus 50 Sample.bob 100 in_review
         (Sample.store [Sample.task 100 todo None []] [])
       = (Ok {| status := 200; site := StatusUpdated |}, s')
       /\ findById t_id 100%N (tasks s') = Some t'
       /\ t_status t' = in_review.
Proof.
  split; [reflexivity|].
  destruct (X27_status_route_needs_no_edit_permission 50 Sample.bob 100%N
              in_review (Sample.store [Sample.task 100 todo None []] [])
              (Sample.task 100 todo None []) Sample.project eq_refl)
    as [_ H].
  { intros w []. }
  destruct (H eq_refl) as (s' & t' & Hrun & Hfind & Hst & _).
  exists s', t'. auto.
Defined.

Lemma filter_filter_shorter {A} (p q : A -> bool) (l : list A) (x : A) :
  In x l -> p x = true -> q x = false ->
  (List.length (filter p (filter q l)) < List.length (filter p l))%nat.
Proof.
  intros Hin Hp Hq.
  assert (Hle : forall l', (List.length (filter p (filter q l'))
                            <= List.length (filter p l'))%nat).
  { induction l' as [|y l' IH]; simpl; [lia|].
    destruct (q y), (p y) eqn:E; simpl; rewrite ?E; simpl; lia. }
  induction l as [|y l IH]; [contradiction|].
  destruct Hin as [->|Hin]; simpl.
  - rewrite Hq, Hp. simpl. specialize (Hle l). lia.
  - specialize (IH Hin). destruct (q y), (p y) eqn:E; simpl; rewrite ?E;
      simpl; lia.
Qed.

(** X28. DELETE /api/tasks/:id does not recompute the progress of the
    project: the stored projects are exactly those stored before, counters
    and percentage included, although the project has fewer tasks than
    before. No notification is created either. *)
Theorem X28_delete_leaves_project_progress
    (user : User) (id : ObjectId) (s : Store) (task : Task)
    (project : Project) :
  TaskRoutes.findPopulated id s = Some (task, Some project) ->
  TaskRoutes.lacksPermission canDeleteTasks project user = false ->
  exists s',
    TaskRoutes.deleteTask user id s
    = (Ok {| status := 200; site := TaskDeleted |}, s')
    /\ projects s' = projects s
    /\ notifications s' = notifications s
    /\ (List.length (ProjectModel.tasksOf (p_id project) (tasks s'))
        < List.length (ProjectModel.tasksOf (p_id project) (tasks s)))%nat.
Proof.
  intros Hfind Hperm.
  pose proof (findPopulated_task _ _ _ _ Hfind) as [Htask Hid].
  assert (Hpid : p_id project = t_project task).
  { unfold TaskRoutes.findPopulated in Hfind. rewrite Htask in Hfind.
    inversion Hfind as [Hp].
    destruct (findById_some _ _ _ _ Hp) as [_ H]. exact H. }
  unfold TaskRoutes.deleteTask.
  rewrite (bind_ok _ _ s s s) by reflexivity. rewrite Hfind, Hperm.
  cbv [TaskRoutes.removeFromDependencies TaskRoutes.deleteOne bind get
       setTasks log emit modify ret].
  eexists. split; [reflexivity|]. cbn [projects notifications tasks].
  split; [reflexivity|]. split; [reflexivity|].
  unfold ProjectModel.tasksOf, deleteById.
  assert (Hlen : forall l : list Task,
             List.length
               (filter (fun t => same_id (t_project t) (p_id project))
                  (filter (fun x => negb (same_id (t_id x) (t_id task)))
                     (map (TaskRoutes.pullDependency (t_id task)) l)))
             = List.length
                 (filter (fun t => same_id (t_project t) (p_id project))
                    (filter (fun x => negb (same_id (t_id x) (t_id task)))
                       l))).
  { induction l as [|t l IH]; simpl; [reflexivity|].
    rewrite pullDependency_id.
    assert (Hproj : t_project (TaskRoutes.pullDependency (t_id task) t)
                    = t_project t).
    { unfold TaskRoutes.pullDependency.
      destruct (existsb _ (t_dependencies t)); reflexivity. }
    destruct (negb (same_id (t_id t) (t_id task))); simpl;
      [rewrite Hproj; destruct (same_id (t_project t) (p_id project)); simpl|];
      rewrite IH; reflexivity. }
  rewrite Hlen.
  apply (filter_filter_shorter _ _ _ task).
  - apply (find_some _ _ Htask).
  - rewrite Hpid. apply same_id_refl.
  - rewrite same_id_refl. reflexivity.
Qed.

Lemma X28_witness :
  exists s',
    TaskRoutes.deleteTask Sample.alice 100
      (Fixtures.store [Fixtures.dueTask 100 todo None] [] [])
    = (Ok {| status := 200; site := TaskDeleted |}, s')
    /\ projects s' = [Fixtures.team].
Proof.
  destruct (X28_delete_leaves_project_progress Sample.alice 100%N
              (Fixtures.store [Fixtures.dueTask 100 todo None] [] [])
              (Fixtures.dueTask 100 todo None) Fixtures.team eq_refl eq_refl)
    as (s' & Hrun & Hp & _).
  exists s'. split; [exact Hrun|exact Hp].
Defined.

End TaskRouteFacts.

(** ** Comments and their notifications *)

Section CommentFacts.

(** Every stored notification has an id handed out before: the next new id
    is not in use. *)
Lemma fresh_notification_id (s : Store) :
  Forall (fun n => (n_id n < nextId s)%N) (notifications s) ->
  findById n_id (nextId s) (notifications s) = None.
Proof.
  unfold findById. generalize (nextId s) as i.
  intros i H. induction H as [|n l Hn Hl IH]; simpl; [reflexivity|].
  rewrite same_id_neq; [exact IH|]. intros E. rewrite E in Hn.
  apply (N.lt_irrefl _ Hn).
Qed.

Lemma createNotification_appends (now : Date)
    (d : NotificationModel.NotificationInput) (s : Store) :
  userExists s (NotificationModel.ni_recipient d) ->
  Forall (fun n => (n_id n < nextId s)%N) (notifications s) ->
  exists n s',
    NotificationModel.createNotification now d s = (Ok n, s')
    /\ notifications s' = (notifications s ++ [n])%list
    /\ n_recipient n = NotificationModel.ni_recipient d
    /\ n_type n = NotificationModel.ni_type d
    /\ Forall (fun n => (n_id n < nextId s')%N) (notifications s')
    /\ users s' = users s /\ tasks s' = tasks s.
Proof.
  intros Hex Hfresh. pose proof (fresh_notification_id s Hfresh) as Hnone.
  unfold userExists in Hex. unfold NotificationModel.createNotification.
  rewrite (bind_ok _ _ s s s) by reflexivity.
  destruct (findById u_id (NotificationModel.ni_recipient d) (users s))
    as [u|]; [clear Hex|contradiction].
  cbv [bind freshId NotificationModel.save get setNotifications log modify
       ret].
  eexists _, _. split; [reflexivity|].
  cbn [notifications nextId users tasks].
  unfold NotificationModel.preSave. cbn [n_expiresAt].
  destruct (NotificationModel.ni_expiresAt d) as [expiresAt|];
    cbn [n_recipient n_type NotificationModel.setExpiresAt];
    (rewrite upsert_fresh
       by (cbn [n_id NotificationModel.setExpiresAt]; exact Hnone));
    (split; [reflexivity|]); (split; [reflexivity|]);
    (split; [reflexivity|]); (split; [|split; reflexivity]);
    (apply Forall_app; split;
     [revert Hfresh; apply Forall_impl; intros n Hn;
      apply N.lt_lt_succ_r; exact Hn
     |repeat constructor; cbn [n_id NotificationModel.setExpiresAt];
      apply N.lt_succ_diag_r]).
Qed.

Lemma notifyAll_appends (now : Date) (recipients : list ObjectId)
    (make : ObjectId -> NotificationModel.NotificationInput) (s : Store) :
  (forall r, NotificationModel.ni_recipient (make r) = r) ->
  (forall r, In r recipients -> userExists s r) ->
  Forall (fun n => (n_id n < nextId s)%N) (notifications s) ->
  exists s' created,
    TaskRoutes.notifyAll now recipients make s = (Ok tt, s')
    /\ notifications s' = (notifications s ++ created)%list
    /\ map n_recipient created = recipients
    /\ Forall (fun n => n_type n = NotificationModel.ni_type (make (n_recipient n)))
         created
    /\ tasks s' = tasks s.
Proof.
  intros Hmake. unfold TaskRoutes.notifyAll. revert s.
  induction recipients as [|r rest IH]; intros s Hex Hfresh; simpl.
  - exists s, []. rewrite app_nil_r. repeat split. constructor.
  - destruct (createNotification_appends now (make r) s)
      as (n & s1 & Hrun & Hn1 & Hrec & Hty & Hfresh1 & Hu1 & Ht1).
    { rewrite Hmake. apply Hex. left. reflexivity. }
    { exact Hfresh. }
    destruct (IH s1) as (s2 & created & Hrun2 & Hn2 & Hrecs & Htys & Ht2).
    { intros r' Hr'. unfold userExists. rewrite Hu1. apply Hex. right.
      exact Hr'. }
    { exact Hfresh1. }
    exists s2, (n :: created). split.
    + cbv [bind ret] in *. rewrite Hrun. exact Hrun2.
    + rewrite Hn2, Hn1, <- app_assoc. split; [reflexivity|].
      rewrite Hmake in Hrec. simpl. rewrite Hrec, Hrecs.
      split; [reflexivity|]. split; [|congruence].
      constructor; [rewrite Hrec; exact Hty|exact Htys].
Qed.

Lemma setOf_spec (l : list ObjectId) :
  NoDup (TaskRoutes.setOf l) /\ (forall x, In x (TaskRoutes.setOf l) <-> In x l).
Proof.
  unfold TaskRoutes.setOf.
  assert (H : forall acc,
             NoDup acc ->
             NoDup (fold_left
                      (fun (acc : list ObjectId) x =>
                         if includes acc x then acc else (acc ++ [x])%list)
                      l acc)
             /\ (forall x,
                    In x (fold_left
                            (fun (acc : list ObjectId) x =>
                               if includes acc x then acc
                               else (acc ++ [x])%list)
                            l acc)
                    <-> In x acc \/ In x l)).
  { induction l as [|y l IH]; intros acc Hacc; simpl.
    - split; [exact Hacc|]. intros x. tauto.
    - destruct (includes acc y) eqn:E.
      + destruct (IH acc Hacc) as [Hnd Hin]. split; [exact Hnd|].
        intros x. rewrite Hin. apply includes_In in E.
        split; intros H; decompose [or] H; subst; auto.
      + destruct (IH (acc ++ [y])%list (NoDup_snoc _ _ Hacc E)) as [Hnd Hin].
        split; [exact Hnd|]. intros x. rewrite Hin, in_app_iff. simpl.
        tauto. }
  destruct (H [] (NoDup_nil _)) as [Hnd Hin]. split; [exact Hnd|].
  intros x. rewrite Hin. simpl. tauto.
Qed.

Lemma notifyAll_throws (now : Date) (recipients : list ObjectId)
    (make : ObjectId -> NotificationModel.NotificationInput) (s : Store) :
  (forall r, NotificationModel.ni_recipient (make r) = r) ->
  (exists r, In r recipients /\ findById u_id r (users s) = None) ->
  exists s',
    TaskRoutes.notifyAll now recipients make s
    = (Throw (PlainError "Recipient user not found"), s')
    /\ tasks s' = tasks s.
Proof.
  intros Hmake. unfold TaskRoutes.notifyAll. revert s.
  induction recipients as [|r rest IH]; intros s (r0 & Hin & Hnone);
    [contradiction|].
  simpl. destruct (findById u_id r (users s)) as [u|] eqn:Hr.
  - destruct (createNotification_run now (make r) s)
      as (n & s1 & Hrun & Hu1 & _ & Ht1 & _).
    { unfold userExists. rewrite Hmake, Hr. discriminate. }
    destruct (IH s1) as (s2 & Hrun2 & Ht2).
    { exists r0. rewrite Hu1. split; [|exact Hnone].
      destruct Hin as [->|Hin]; [congruence|exact Hin]. }
    exists s2. split; [|congruence].
    cbv [bind ret] in *. rewrite Hrun. exact Hrun2.
  - exists s. split; [|reflexivity].
    unfold NotificationModel.createNotification.
    cbv [bind get throw]. rewrite Hmake, Hr. reflexivity.
Qed.

(** The recipients POST /api/tasks/:id/comments collects for task [t]. *)
Lemma comment_recipients (user : User) (t : Task) (mentions : list ObjectId) :
  let recipients :=
    TaskRoutes.setOf
      ((match t_assignee t with
        | Some a => if negb (same_id a (u_id user)) then [a] else []
        | None => []
        end)
       ++ filter (fun m => negb (same_id m (u_id user))) mentions
       ++ filter (fun w => negb (same_id w (u_id user))) (t_watchers t)) in
  NoDup recipients
  /\ (forall x, In x recipients <->
                x <> u_id user
                /\ (t_assignee t = Some x \/ In x mentions
                    \/ In x (t_watchers t))).
Proof.
  cbv zeta.
  match goal with
  | |- NoDup (TaskRoutes.setOf ?l) /\ _ =>
      destruct (setOf_spec l) as [Hnd Hin]
  end.
  split; [exact Hnd|]. intros x. rewrite Hin, !in_app_iff, !filter_In.
  rewrite !negb_true_iff.
  assert (Hne : same_id x (u_id user) = false <-> x <> u_id user).
  { rewrite <- not_true_iff_false, same_id_eq. tauto. }
  rewrite Hne.
  destruct (t_assignee t) as [a|].
  - destruct (same_id a (u_id user)) eqn:E; simpl.
    + apply same_id_eq in E. split.
      * intros [[]|H]; tauto.
      * intros (Hx & [H|H]); [inversion H; congruence|tauto].
    + assert (Ha : a <> u_id user).
      { intros Heq. rewrite Heq, same_id_refl in E. discriminate. }
      split.
      * intros [[<-|[]]|H]; [auto|tauto].
      * intros (Hx & [H|H]); [inversion H; auto|tauto].
  - simpl. split.
    + intros [[]|H]; tauto.
    + intros (Hx & [H|H]); [discriminate|tauto].
Qed.

(** What POST /api/tasks/:id/comments has done when it reaches the
    notifications. *)
Lemma postComment_saved (now : Date) (user : User) (id : ObjectId)
    (content : string) (mentions : list ObjectId) (s : Store) (task : Task)
    (project : Project) (k : TaskDoc -> M Response) :
  TaskRoutes.findPopulated id s = Some (task, Some project) ->
  exists s1 t1,
    bind (TaskModel.addComment now (u_id user) content mentions (loaded task))
         k s
    = k (loaded t1) s1
    /\ findById t_id id (tasks s1) = Some t1
    /\ t_comments t1
       = (t_comments task
            ++ [{| c_id := nextId s; c_author := u_id user;
                   c_content := content; c_createdAt := now;
                   c_mentions := mentions |}])%list
    /\ t_assignee t1 = t_assignee task
    /\ t_watchers t1 = t_watchers task
    /\ users s1 = users s
    /\ notifications s1 = notifications s
    /\ nextId s1 = N.succ (nextId s).
Proof.
  intros Hfind. pose proof (findPopulated_task _ _ _ _ Hfind) as [_ Hid].
  unfold TaskModel.addComment.
  cbv [bind freshId].
  match goal with
  | |- context [TaskModel.save now ?d ?s0] =>
      destruct (task_save_stored now d s0)
        as (s1 & Hsave & Hstored & Hu & _ & Hn & Hi);
      destruct (task_preSave_fields now d)
        as (_ & _ & Hws & Has & _ & _ & Hcs)
  end.
  rewrite Hsave. eexists _, _. split; [reflexivity|].
  cbn [td_task loaded TaskModel.onTask t_id TaskModel.setComments]
    in Hstored.
  rewrite Hid in Hstored. split; [exact Hstored|].
  rewrite Hcs, Has, Hws. cbn in Hu, Hn, Hi. repeat split; assumption.
Qed.

(** X29. POST /api/tasks/:id/comments, for the owner or a member of the
    project and a content as the route's validators leave it (trimmed and
    not empty), appends the comment to the stored task under a new id and
    answers 201. The notifications it creates are appended to the stored
    ones, all are of type 'task_comment', and every user other than the
    requester who is the assignee, is mentioned or watches the task is the
    recipient of one of them. How many notifications a user gets is not
    stated: the route tells users apart by the spelling of their ids in
    the request. The users involved are stored, and every stored
    notification has an id handed out earlier. *)
Theorem X29_comment_notifies_everyone_involved
    (now : Date) (user : User) (id : ObjectId) (content : string)
    (mentions : list ObjectId) (s : Store) (task : Task) (project : Project) :
  TaskRoutes.findPopulated id s = Some (task, Some project) ->
  ProjectModel.isOwner project (u_id user)
    || ProjectModel.isMember project (u_id user) = true ->
  JsString.trim content = content -> content <> EmptyString ->
  Forall (fun n => (n_id n < nextId s)%N) (notifications s) ->
  (forall x, t_assignee task = Some x \/ In x mentions
             \/ In x (t_watchers task) ->
             userExists s x) ->
  exists s' task' created,
    TaskRoutes.postComment now user id content mentions s
    = (Ok {| status := 201; site := CommentAdded |}, s')
    /\ findById t_id id (tasks s') = Some task'
    /\ t_comments task'
       = (t_comments task
            ++ [{| c_id := nextId s; c_author := u_id user;
                   c_content := content; c_createdAt := now;
                   c_mentions := mentions |}])%list
    /\ notifications s' = (notifications s ++ created)%list
    /\ Forall (fun n => n_type n = task_comment) created
    /\ (forall x, x <> u_id user ->
                  t_assignee task = Some x \/ In x mentions
                  \/ In x (t_watchers task) ->
                  In x (map n_recipient created)).
Proof.
  intros Hfind Hacc _ _ Hfresh Hex.
  assert (Hguard : negb (ProjectModel.isOwner project (u_id user))
                   && negb (ProjectModel.isMember project (u_id user))
                   = false).
  { rewrite <- negb_orb, Hacc. reflexivity. }
  unfold TaskRoutes.postComment.
  rewrite (bind_ok _ _ s s s) by reflexivity. rewrite Hfind, Hguard.
  match goal with
  | |- context [bind (TaskModel.addComment _ _ _ _ _) ?k] =>
      destruct (postComment_saved now user id content mentions s task
                  project k Hfind)
        as (s1 & t1 & Hrun & Hstored & Hcs & Has & Hws & Hu & Hn & Hi)
  end.
  rewrite Hrun. cbn [td_task loaded]. rewrite Has, Hws.
  destruct (comment_recipients user task mentions) as [Hnd Hin].
  cbv zeta in Hnd, Hin.
  match goal with
  | |- context [TaskRoutes.notifyAll now ?rs ?mk] =>
      destruct (notifyAll_appends now rs mk s1)
        as (s2 & created & Hnot & Hn2 & Hrecs & Htys & Ht2)
  end.
  { reflexivity. }
  { intros r Hr. apply Hin in Hr. destruct Hr as [Hne Hr].
    unfold userExists. rewrite Hu. apply (Hex r Hr). }
  { rewrite Hn, Hi. revert Hfresh. apply Forall_impl. intros n Hlt.
    apply N.lt_lt_succ_r. exact Hlt. }
  rewrite (bind_ok _ _ _ _ _ Hnot).
  eexists _, t1, created.
  split; [cbv [bind emit modify ret]; reflexivity|].
  cbn [tasks notifications]. rewrite Ht2, Hn2, Hn, Hrecs.
  repeat split; try assumption. intros x Hne Hx. apply Hin. auto.
Qed.

Lemma X29_witness :
  exists s' task' created,
    TaskRoutes.postComment 7 Sample.bob 100 "Looks good" [3%N; 4%N]
      (Fixtures.store [Sample.task 100 todo (Some 3%N) []] [] [])
    = (Ok {| status := 201; site := CommentAdded |}, s')
    /\ findById t_id 100%N (tasks s') = Some task'
    /\ notifications s' = created
    /\ In 3%N (map n_recipient created)
    /\ In 4%N (map n_recipient created).
Proof.
  destruct (X29_comment_notifies_everyone_involved 7 Sample.bob 100%N
              "Looks good" [3%N; 4%N]
              (Fixtures.store [Sample.task 100 todo (Some 3%N) []] [] [])
              (Sample.task 100 todo (Some 3%N) []) Fixtures.team
              eq_refl eq_refl eq_refl)
    as (s' & t' & created & Hrun & Hfind & _ & Hn & _ & Hin);
    [discriminate|constructor| |].
  { intros x [H|[H|H]]; unfold userExists.
    - inversion H. discriminate.
    - simpl in H. decompose [or] H; subst; try discriminate; contradiction.
    - contradiction. }
  exists s', t', created. split; [exact Hrun|]. split; [exact Hfind|].
  split; [exact Hn|]. split; apply Hin; simpl; auto; discriminate.
Defined.

(** X30. A comment that involves an unknown user is stored although the
    request fails: when one of the users to notify is not stored,
    POST /api/tasks/:id/comments ends in the error 'Recipient user not
    found', which the handler answers with status 500, after the task has
    been saved with the new comment. *)
Theorem X30_comment_is_stored_before_notifying
    (development : bool) (now : Date) (user : User) (id : ObjectId)
    (content : string) (mentions : list ObjectId) (s : Store) (task : Task)
    (project : Project) (unknown : ObjectId) :
  TaskRoutes.findPopulated id s = Some (task, Some project) ->
  ProjectModel.isOwner project (u_id user)
    || ProjectModel.isMember project (u_id user) = true ->
  unknown <> u_id user ->
  t_assignee task = Some unknown \/ In unknown mentions
  \/ In unknown (t_watchers task) ->
  findById u_id unknown (users s) = None ->
  exists s' task' r,
    TaskRoutes.postComment now user id content mentions s
    = (Throw (PlainError "Recipient user not found"), s')
    /\ respond development
         (TaskRoutes.postComment now user id content mentions) s = (r, s')
    /\ status r = 500%nat
    /\ findById t_id id (tasks s') = Some task'
    /\ t_comments task'
       = (t_comments task
            ++ [{| c_id := nextId s; c_author := u_id user;
                   c_content := content; c_createdAt := now;
                   c_mentions := mentions |}])%list.
Proof.
  intros Hfind Hacc Hne Hrole Hnone.
  assert (Hguard : negb (ProjectModel.isOwner project (u_id user))
                   && negb (ProjectModel.isMember project (u_id user))
                   = false).
  { rewrite <- negb_orb, Hacc. reflexivity. }
  unfold respond, TaskRoutes.postComment.
  rewrite (bind_ok _ _ s s s) by reflexivity. rewrite Hfind, Hguard.
  match goal with
  | |- context [bind (TaskModel.addComment _ _ _ _ _) ?k] =>
      destruct (postComment_saved now user id content mentions s task
                  project k Hfind)
        as (s1 & t1 & Hrun & Hstored & Hcs & Has & Hws & Hu & Hn & Hi)
  end.
  rewrite Hrun. cbn [td_task loaded]. rewrite Has, Hws.
  destruct (comment_recipients user task mentions) as [_ Hin].
  cbv zeta in Hin.
  match goal with
  | |- context [TaskRoutes.notifyAll now ?rs ?mk] =>
      destruct (notifyAll_throws now rs mk s1) as (s2 & Hnot & Ht2)
  end.
  { reflexivity. }
  { exists unknown. split; [apply Hin; auto|rewrite Hu; exact Hnone]. }
  rewrite (bind_throw _ _ _ _ _ Hnot).
  exists s2, t1. eexists. split; [reflexivity|].
  split; [reflexivity|]. rewrite Ht2.
  split; [destruct development; reflexivity|]. auto.
Qed.

Lemma X30_witness :
  exists s' task' r,
    TaskRoutes.postComment 7 Sample.bob 100 "Ask Erin" [5%N]
      (Fixtures.store [Sample.task 100 todo None []] [] [])
    = (Throw (PlainError "Recipient user not found"), s')
    /\ respond false
         (TaskRoutes.postComment 7 Sample.bob 100 "Ask Erin" [5%N])
         (Fixtures.store [Sample.task 100 todo None []] [] [])
       = (r, s')
    /\ status r = 500%nat
    /\ findById t_id 100%N (tasks s') = Some task'
    /\ List.length (t_comments task') = 1%nat.
Proof.
  destruct (X30_comment_is_stored_before_notifying false 7 Sample.bob 100%N
              "Ask Erin" [5%N]
              (Fixtures.store [Sample.task 100 todo None []] [] [])
              (Sample.task 100 todo None []) Fixtures.team 5%N
              eq_refl eq_refl)
    as (s' & t' & r & Hrun & Hresp & Hst & Hfind & Hcs).
  { discriminate. }
  { right. left. left. reflexivity. }
  { reflexivity. }
  exists s', t', r. rewrite Hcs. auto.
Defined.

End CommentFacts.
